(** * rplattack: [lib/utils.py]

    A shallow embedding of the parameter resolver ([get_parameter]), the
    parameter set builder ([validated_parameters]), the schema matcher
    ([check_structure]) and the template set generator ([render_templates])
    of [src/lib/utils.py], and of the functions around them: the
    building-block lookup ([get_constants_and_replacements]), the
    listings ([get_available_platforms], [list_experiments],
    [list_campaigns] with [is_valid_campaign]), [get_path] and
    [get_experiments]; followed by the properties established about
    them.

    Conventions.
    - Python values are the values [json.loads] produces, [pyval]; Python 3
      semantics are used where versions differ ([bool] is an [int],
      ordering a number against a non-number raises [TypeError]).
    - A raised exception is a [Raise e] result; the mutable objects a
      function touches (the configuration dictionary, the logger, the
      file tree, the schema dictionaries) are threaded explicitly and
      survive an exception.
    - Constants of [lib/constants.py] ([DEFAULTS], [EXPERIMENT_STRUCTURE],
      [TEMPLATES], the folders) and the collaborators of other modules
      are section variables. *)

From Stdlib Require Import ZArith Floats Lia Ascii String Sorted.
From stdpp Require Import gmap strings list.

#[local] Set Warnings "-register-all".

Local Open Scope string_scope.
Local Open Scope Z_scope.
Local Open Scope list_scope.

(** * Python values *)

(** ** Values and exceptions *)

Inductive pyval : Type :=
| VNone
| VBool (b : bool)
| VInt (z : Z)
| VFloat (f : float)
| VStr (s : string)
| VList (l : list pyval)
| VDict (d : gmap string pyval).

Inductive exn : Type :=
| AttributeError
| IndexError
| KeyError
| OSError
| OverflowError
| RecursionError
| TypeError
| ValueError.

Inductive result (A : Type) : Type :=
| Ok (a : A)
| Raise (e : exn).

Arguments Ok {A} a.
Arguments Raise {A} e.

Definition is_ok {A} (r : result A) : bool :=
  match r with Ok _ => true | Raise _ => false end.

(** [bool(v)]: [None], [False], zeros and empty containers are falsy. *)
Definition truthy (v : pyval) : bool :=
  match v with
  | VNone => false
  | VBool b => b
  | VInt z => negb (z =? 0)
  | VFloat f => negb (PrimFloat.eqb f 0)
  | VStr s => negb (String.eqb s "")
  | VList l => negb (Nat.eqb (length l) 0)
  | VDict d => negb (Nat.eqb (size d) 0)
  end.

(** [a or b] *)
Definition py_or (a b : pyval) : pyval := if truthy a then a else b.

(** [d.get(key)] *)
Definition dict_get (d : gmap string pyval) (key : string) : pyval :=
  from_option id VNone (d !! key).

(** [d[key]] *)
Definition dict_item (d : gmap string pyval) (key : string) : result pyval :=
  match d !! key with Some v => Ok v | None => Raise KeyError end.

(** [v.get(key)]: only a dictionary has the attribute. *)
Definition attr_get (v : pyval) (key : string) : result pyval :=
  match v with
  | VDict d => Ok (dict_get d key)
  | _ => Raise AttributeError
  end.

(** ** Numbers *)

Inductive number : Type :=
| NInt (z : Z)
| NFloat (f : float).

(** The numeric view of a value: [isinstance(v, (int, float))]. *)
Definition as_number (v : pyval) : option number :=
  match v with
  | VBool b => Some (NInt (Z.b2z b))
  | VInt z => Some (NInt z)
  | VFloat f => Some (NFloat f)
  | _ => None
  end.

Definition is_number (v : pyval) : bool :=
  match as_number v with Some _ => true | None => false end.

(** [isinstance(v, int)] *)
Definition is_int (v : pyval) : bool :=
  match v with VBool _ | VInt _ => true | _ => false end.

(** [isinstance(v, bool)] *)
Definition is_bool (v : pyval) : bool :=
  match v with VBool _ => true | _ => false end.

(** [isinstance(v, string_types)] *)
Definition is_string (v : pyval) : bool :=
  match v with VStr _ => true | _ => false end.

(** Exact comparison of an integer with a binary64 value, [None] when
    unordered (NaN). *)
Definition Z_compare_SF (z : Z) (f : spec_float) : option comparison :=
  match f with
  | S754_nan => None
  | S754_infinity s => Some (if s then Gt else Lt)
  | S754_zero _ => Some (z ?= 0)
  | S754_finite s m e =>
      let v := if s then Z.neg m else Z.pos m in
      Some (if 0 <=? e then z ?= v * 2 ^ e else z * 2 ^ (- e) ?= v)
  end.

Definition float_compare (f g : float) : option comparison :=
  match PrimFloat.compare f g with
  | FEq => Some Eq
  | FLt => Some Lt
  | FGt => Some Gt
  | FNotComparable => None
  end.

Definition number_compare (a b : number) : option comparison :=
  match a, b with
  | NInt x, NInt y => Some (x ?= y)
  | NInt x, NFloat g => Z_compare_SF x (Prim2SF g)
  | NFloat f, NInt y => option_map CompOpp (Z_compare_SF y (Prim2SF f))
  | NFloat f, NFloat g => float_compare f g
  end.

(** Ordering comparisons.  Every use in the source has a left operand
    already known to be a number; against a non-number Python 3 raises
    [TypeError]. *)
Definition py_compare (x y : pyval) : result (option comparison) :=
  match as_number x, as_number y with
  | Some a, Some b => Ok (number_compare a b)
  | _, _ => Raise TypeError
  end.

(** [x > y] *)
Definition py_gt (x y : pyval) : result bool :=
  match py_compare x y with
  | Ok c => Ok (match c with Some Gt => true | _ => false end)
  | Raise e => Raise e
  end.

(** [x >= y] *)
Definition py_ge (x y : pyval) : result bool :=
  match py_compare x y with
  | Ok c => Ok (match c with Some Gt | Some Eq => true | _ => false end)
  | Raise e => Raise e
  end.

(** [float(z)] for an integer: round to nearest even, [OverflowError]
    beyond the binary64 range. *)
Definition float_of_Z (z : Z) : result float :=
  match binary_normalize prec emax z 0 false with
  | S754_infinity _ => Raise OverflowError
  | sf => Ok (SF2Prim sf)
  end.

(** [float(v)] as used by float arithmetic and by the ['f'] format. *)
Definition float_of_number (n : number) : result float :=
  match n with
  | NInt z => float_of_Z z
  | NFloat f => Ok f
  end.

(** [2 * v] *)
Definition py_double (v : pyval) : result pyval :=
  match v with
  | VBool b => Ok (VInt (2 * Z.b2z b))
  | VInt z => Ok (VInt (2 * z))
  | VFloat f => Ok (VFloat (2 * f)%float)
  | VStr s => Ok (VStr (String.append s s))
  | VList l => Ok (VList (l ++ l))
  | VNone | VDict _ => Raise TypeError
  end.

(** [sqrt(2.0) * v] *)
Definition py_sqrt2_times (v : pyval) : result pyval :=
  match as_number v with
  | Some n =>
      match float_of_number n with
      | Ok f => Ok (VFloat (PrimFloat.sqrt 2 * f)%float)
      | Raise e => Raise e
      end
  | None => Raise TypeError
  end.

(** ['{:.0f}'.format(v)]: the value is converted to a float first. *)
Inductive text : Type :=
| Text (s : string)
| Format (template : string) (arg : pyval).

Definition format_f (template : string) (v : pyval) : result text :=
  match v with
  | VBool _ | VInt _ | VFloat _ =>
      match from_option float_of_number (Raise TypeError) (as_number v) with
      | Ok _ => Ok (Format template v)
      | Raise e => Raise e
      end
  | VStr _ => Raise ValueError
  | VNone | VList _ | VDict _ => Raise TypeError
  end.

(** ['...{}'.format(v)] accepts every value. *)
Definition format_s (template : string) (v : pyval) : text := Format template v.

(** [x in l] for a list of strings. *)
Definition py_in_strings (x : pyval) (l : list string) : bool :=
  match x with
  | VStr s => bool_decide (s ∈ l)
  | _ => false
  end.

(** [x in d] for a dictionary: the key is hashed first. *)
Definition py_in_dict (x : pyval) (d : gmap string pyval) : result bool :=
  match x with
  | VList _ | VDict _ => Raise TypeError
  | VStr s => Ok (bool_decide (is_Some (d !! s)))
  | VNone | VBool _ | VInt _ | VFloat _ => Ok false
  end.

(** * The parameter resolver and the parameter set builder *)

(** ** The resolver's state: the configuration dictionary and the logger *)

Inductive diagnostic : Type :=
| Removed (section key : string) (p : pyval)
| SetToDefault (section key : string) (reason : option text) (default : pyval).

Record state : Type := State {
  dictionary : gmap string pyval;
  log : list diagnostic
}.

(** Computations over a state [S] that may raise; the state survives
    the exception. *)
Definition M (S A : Type) : Type := S → result A * S.

Definition ret {S A} (a : A) : M S A := fun s => (Ok a, s).

Definition bind {S A B} (m : M S A) (k : A → M S B) : M S B :=
  fun s =>
    match m s with
    | (Ok a, s') => k a s'
    | (Raise e, s') => (Raise e, s')
    end.

Definition lift {S A} (r : result A) : M S A := fun s => (r, s).

Notation "x <- m ;; k" := (bind m (fun x => k))
  (at level 100, m at next level, right associativity).
Notation "m ;;; k" := (bind m (fun _ => k))
  (at level 100, right associativity).

(** [dictionary.pop(key, default)] *)
Definition pop (key : string) (default : pyval) : M state pyval :=
  fun s =>
    (Ok (from_option id default (dictionary s !! key)),
     State (delete key (dictionary s)) (log s)).

(** [dictionary.get(key)] *)
Definition get (key : string) : M state pyval :=
  fun s => (Ok (dict_get (dictionary s) key), s).

(** [logger.warning(...)] *)
Definition warning (d : diagnostic) : M state unit :=
  fun s => (Ok tt, State (dictionary s) (log s ++ [d])).

(** A validation condition: a function, or a list of functions. *)
Inductive condition : Type :=
| CondFn (f : pyval → result bool)
| CondList (fs : list (pyval → result bool)).

(** [l[i]] *)
Definition list_item {A} (l : list A) (i : nat) : result A :=
  match l !! i with Some a => Ok a | None => Raise IndexError end.

Definition is_none (v : pyval) : bool :=
  match v with VNone => true | _ => false end.

Section Resolver.

Variable DEFAULTS : gmap string pyval.

(** The [for p in param] loop of the list branch. *)
Fixpoint get_parameter_loop (silent : pyval) (section key : string)
    (condition : list (pyval → result bool))
    (param buffer : list pyval) : M state (list pyval) :=
  match param with
  | [] => ret buffer
  | p :: param' =>
      test <- lift (list_item condition 0) ;;
      c <- lift (test p) ;;
      if negb c then
        (if negb (truthy silent) then warning (Removed section key p)
         else ret tt) ;;;
        get_parameter_loop silent section key condition param' buffer
      else
        get_parameter_loop silent section key condition param' (buffer ++ [p])
  end.

(** [get_parameter(dictionary, section, key, condition, reason, default)],
    the dictionary and the logger being the state; [default] is [VNone]
    when the argument is left out. *)
Definition get_parameter (section key : string) (condition : condition)
    (reason : option text) (default : pyval) : M state pyval :=
  silent <- pop "silent" (VBool false) ;;
  sec <- get section ;;
  raw <- lift (attr_get (py_or sec (VDict ∅)) key) ;;
  let param := py_or raw (dict_get DEFAULTS key) in
  let param :=
    if is_none param && negb (is_none default) then default else param in
  match condition, param with
  | CondList fs, VList l =>
      buffer <- get_parameter_loop silent section key fs l [] ;;
      ret (VList buffer)
  | CondList _, _ =>
      (* [condition(param)]: a list is not callable *)
      lift (Raise TypeError)
  | CondFn f, _ =>
      c <- lift (f param) ;;
      if negb c then
        (if negb (truthy silent) then
           d <- lift (dict_item DEFAULTS key) ;;
           warning (SetToDefault section key reason d)
         else ret tt) ;;;
        lift (dict_item DEFAULTS key)
      else ret param
  end.

(** [a and b] for a boolean test [a] guarding a comparison [b]. *)
Definition py_and (a : bool) (b : result bool) : result bool :=
  if a then b else Ok false.

(** Collaborators of [validated_parameters]: what a call of
    [get_available_platforms()] and of [get_building_blocks()] gives,
    the list of platforms and the dictionary of building blocks or the
    exception raised on the way (the Contiki folder cannot be listed,
    [building-blocks.json] cannot be read or parsed), and
    [os.path.exists].  The predicates call them each time they are
    applied; the files they read do not change in between. *)
Variable get_available_platforms : result (list string).
Variable get_building_blocks : result (gmap string pyval).
Variable path_exists : pyval → result bool.

(** [lambda x: x in get_available_platforms()] *)
Definition is_platform (x : pyval) : result bool :=
  match get_available_platforms with
  | Ok platforms => Ok (py_in_strings x platforms)
  | Raise e => Raise e
  end.

(** [lambda x: x in get_building_blocks()] *)
Definition is_block (x : pyval) : result bool :=
  match get_building_blocks with
  | Ok blocks => py_in_dict x blocks
  | Raise e => Raise e
  end.

(** [validated_parameters(dictionary)].  The lambdas read
    [params["min_range"]] and [params["tx_range"]] when they are called,
    which is after the assignment that stores them: the stored value is
    passed along. *)
Definition validated_parameters : M state (gmap string pyval) :=
  motes <- get "motes" ;;
  let params : gmap string pyval := {[ "motes" := motes ]} in
  (* simulation parameters *)
  debug <- get_parameter "simulation" "debug"
    (CondFn (fun x => Ok (is_bool x)))
    (Some (Text "is not a boolean")) VNone ;;
  let params := <[ "debug" := debug ]> params in
  title <- get_parameter "simulation" "title"
    (CondFn (fun x => Ok (is_string x)))
    (Some (Text "is not a string")) VNone ;;
  let params := <[ "title" := title ]> params in
  goal <- get_parameter "simulation" "goal"
    (CondFn (fun x => Ok (is_string x)))
    (Some (Text "is not a string")) VNone ;;
  let params := <[ "goal" := goal ]> params in
  notes <- get_parameter "simulation" "notes"
    (CondFn (fun x => Ok (is_string x)))
    (Some (Text "is not a string")) VNone ;;
  let params := <[ "notes" := notes ]> params in
  duration <- get_parameter "simulation" "duration"
    (CondFn (fun x => py_and (is_int x) (py_gt x (VInt 0))))
    (Some (Text "is not an integer greater than 0")) VNone ;;
  let params := <[ "duration" := duration ]> params in
  n <- get_parameter "simulation" "number-motes"
    (CondFn (fun x => py_and (is_int x) (py_gt x (VInt 0))))
    (Some (Text "is not an integer greater than 0")) VNone ;;
  let params := <[ "n" := n ]> params in
  repeat <- get_parameter "simulation" "repeat"
    (CondFn (fun x => py_and (is_int x) (py_gt x (VInt 0))))
    (Some (Text "is not an integer greater than 0")) VNone ;;
  let params := <[ "repeat" := repeat ]> params in
  target <- get_parameter "simulation" "target"
    (CondFn is_platform)
    (Some (Text "is not a valid platform")) VNone ;;
  let params := <[ "target" := target ]> params in
  malicious_target <- get_parameter "malicious" "target"
    (CondFn is_platform)
    (Some (Text "is not a valid platform")) target ;;
  let params := <[ "malicious_target" := malicious_target ]> params in
  mtype <- get_parameter "malicious" "type"
    (CondFn (fun x => Ok (py_in_strings x ["root"; "sensor"])))
    (Some (Text "is not 'root' or 'sensor'")) VNone ;;
  let params := <[ "mtype" := mtype ]> params in
  blocks <- get_parameter "malicious" "building-blocks"
    (CondList [is_block])
    None VNone ;;
  let params := <[ "blocks" := blocks ]> params in
  ext_lib <- get_parameter "malicious" "external-library"
    (CondFn (fun x => if is_none x then Ok true else path_exists x))
    (Some (Text "does not exist")) VNone ;;
  let params := <[ "ext_lib" := ext_lib ]> params in
  (* area dimensions and limits *)
  min_range <- get_parameter "simulation" "minimum-distance-from-root"
    (CondFn (fun x => py_and (is_number x) (py_gt x (VInt 0))))
    (Some (Text "is not an integer greater than 0")) VNone ;;
  let params := <[ "min_range" := min_range ]> params in
  tx_range <- get_parameter "simulation" "transmission-range"
    (CondFn (fun x => py_and (is_number x) (py_gt x min_range)))
    (Some (format_s "is not an integer greater than {}" min_range))
    VNone ;;
  let params := <[ "tx_range" := tx_range ]> params in
  twice <- lift (py_double tx_range) ;;
  int_range <- get_parameter "simulation" "interference-range"
    (CondFn (fun x => py_and (is_number x) (py_ge x tx_range)))
    (Some (format_s "is not an integer greater than or equal to {}"
             tx_range))
    twice ;;
  let params := <[ "int_range" := int_range ]> params in
  reason <- lift (format_f
    "is not an integer or a float greater or equal to sqrt(2)*{:.0f}"
    min_range) ;;
  area_side <- get_parameter "simulation" "area-square-side"
    (CondFn (fun x =>
       if is_number x then
         match py_sqrt2_times min_range with
         | Ok bound => py_ge x bound
         | Raise e => Raise e
         end
       else Ok false))
    (Some reason) VNone ;;
  let params := <[ "area_side" := area_side ]> params in
  reason <- lift (format_f
    "is not an integer or a float greater or equal to {:.0f}"
    min_range) ;;
  max_range <- get_parameter "simulation" "area-square-side"
    (CondFn (fun x => py_and (is_number x) (py_ge x min_range)))
    (Some reason) VNone ;;
  let params := <[ "max_range" := max_range ]> params in
  ret params.

End Resolver.

(** * The schema matcher *)

(** ** [os.path.splitext] *)

(** [p.rfind(c)]: the last index of [c], or [-1]. *)
Fixpoint rfind_from (c : ascii) (p : string) (i last : Z) : Z :=
  match p with
  | EmptyString => last
  | String a p' => rfind_from c p' (i + 1) (if Ascii.eqb a c then i else last)
  end.

Definition rfind (c : ascii) (p : string) : Z := rfind_from c p 0 (-1).

(** The [while filenameIndex < dotIndex] loop of [genericpath._splitext],
    over the [n] indices that remain: is there a character other than
    the dot before the last dot? *)
Fixpoint splitext_scan (p : string) (filenameIndex n : nat) : bool :=
  match n with
  | O => false
  | S n' =>
      match String.get filenameIndex p with
      | Some c =>
          if Ascii.eqb c "." then splitext_scan p (S filenameIndex) n'
          else true
      | None => true
      end
  end.

Definition splitext (p : string) : string * string :=
  let sepIndex := rfind "/" p in
  let dotIndex := rfind "." p in
  if (dotIndex >? sepIndex)
     && splitext_scan p (Z.to_nat (sepIndex + 1))
          (Z.to_nat (dotIndex - (sepIndex + 1)))
  then (substring 0 (Z.to_nat dotIndex) p,
        substring (Z.to_nat dotIndex)
          (String.length p - Z.to_nat dotIndex) p)
  else (p, "").

(** ** Schemas and the dictionaries that hold them *)

(** A schema value is a boolean or a nested dictionary; a dictionary
    keeps its keys, which are distinct, in insertion order. *)
Inductive schema : Type :=
| SBool (b : bool)
| SDict (files : list (string * schema)).

Definition is_sbool (f : schema) : bool :=
  match f with SBool _ => true | SDict _ => false end.

Definition schema_truthy (f : schema) : bool :=
  match f with
  | SBool b => b
  | SDict files => negb (Nat.eqb (length files) 0)
  end.

(** [files.get(key)] *)
Fixpoint files_get (files : list (string * schema)) (key : string)
    : option schema :=
  match files with
  | [] => None
  | (k, f) :: files' =>
      if String.eqb k key then Some f else files_get files' key
  end.

(** [key in files.keys()] *)
Definition files_has (files : list (string * schema)) (key : string) : bool :=
  match files_get files key with Some _ => true | None => false end.

(** [files[key] = f] for a key of [files] *)
Fixpoint files_set (files : list (string * schema)) (key : string)
    (f : schema) : list (string * schema) :=
  match files with
  | [] => [(key, f)]
  | (k, f') :: files' =>
      if String.eqb k key then (k, f) :: files'
      else (k, f') :: files_set files' key f
  end.

(** Lines 261-262: the schema key an entry is checked against, its own
    name first, then the wildcard on its stem. *)
Definition schema_match (files : list (string * schema)) (item : string)
    : option string :=
  let wildcard := String.append (splitext item).1 ".*" in
  if files_has files item then Some item
  else if files_has files wildcard then Some wildcard
  else None.

(** ** The file tree *)

Inductive node : Type :=
| File
| Dir (entries : list (string * node)).

Fixpoint entry (entries : list (string * node)) (name : string)
    : option node :=
  match entries with
  | [] => None
  | (k, n) :: entries' =>
      if String.eqb k name then Some n else entry entries' name
  end.

Fixpoint set_entry (entries : list (string * node)) (name : string)
    (n : node) : list (string * node) :=
  match entries with
  | [] => [(name, n)]
  | (k, n') :: entries' =>
      if String.eqb k name then (k, n) :: entries'
      else (k, n') :: set_entry entries' name n
  end.

(** A path is the list of names leading from the root of the tree;
    [join(path, name)] appends a name. *)
Definition join (path : list string) (name : string) : list string :=
  path ++ [name].

Fixpoint stat (root : node) (path : list string) : option node :=
  match path with
  | [] => Some root
  | name :: path' =>
      match root with
      | File => None
      | Dir entries =>
          match entry entries name with
          | Some n => stat n path'
          | None => None
          end
      end
  end.

(** [os.path.exists(path)] *)
Definition os_exists (root : node) (path : list string) : bool :=
  match stat root path with Some _ => true | None => false end.

(** [os.listdir(path)] *)
Definition os_listdir (root : node) (path : list string)
    : result (list string) :=
  match stat root path with
  | Some (Dir entries) => Ok (map fst entries)
  | _ => Raise OSError
  end.

(** A chain of new, empty directories. *)
Fixpoint new_dirs (path : list string) : node :=
  match path with
  | [] => Dir []
  | name :: path' => Dir [(name, new_dirs path')]
  end.

(** [os.makedirs(path)]: the missing directories of [path] are created;
    an existing leaf or a file on the way is an [OSError]. *)
Fixpoint os_makedirs (root : node) (path : list string) : result node :=
  match path with
  | [] => Raise OSError
  | name :: path' =>
      match root with
      | File => Raise OSError
      | Dir entries =>
          match entry entries name with
          | Some n =>
              match os_makedirs n path' with
              | Ok n' => Ok (Dir (set_entry entries name n'))
              | Raise e => Raise e
              end
          | None => Ok (Dir (entries ++ [(name, new_dirs path')]))
          end
      end
  end.

(** The nesting depth of a schema value. *)
Fixpoint schema_depth (f : schema) : nat :=
  match f with
  | SBool _ => 0%nat
  | SDict files =>
      S ((fix deepest (l : list (string * schema)) : nat :=
            match l with
            | [] => 0%nat
            | (_, f') :: l' => Nat.max (schema_depth f') (deepest l')
            end) files)
  end.

(** ** [check_structure] *)

(** What [check_structure] works on: the file tree and the dictionary
    objects, each at its address.  [deepcopy] allocates a new object;
    an assignment [files[key] = f] writes to the object [files] names. *)
Record world : Type := World {
  tree : node;
  heap : list (list (string * schema))
}.

(** The content of the dictionary object at [ref]. *)
Definition deref (ref : nat) : M world (list (string * schema)) :=
  fun w => (Ok (from_option id [] (heap w !! ref)), w).

(** [deepcopy(files)]: a new object with the same content. *)
Definition deepcopy (files : list (string * schema)) : M world nat :=
  fun w => (Ok (length (heap w)), World (tree w) (heap w ++ [files])).

(** [files[key] = f] on the object at [ref]. *)
Definition assign (ref : nat) (key : string) (f : schema) : M world unit :=
  fun w =>
    (Ok tt,
     World (tree w)
       (<[ref := files_set (from_option id [] (heap w !! ref)) key f]>
          (heap w))).

Definition exists_ (path : list string) : M world bool :=
  fun w => (Ok (os_exists (tree w) path), w).

Definition listdir (path : list string) : M world (list string) :=
  fun w => (os_listdir (tree w) path, w).

Definition makedirs (path : list string) : M world unit :=
  fun w =>
    match os_makedirs (tree w) path with
    | Ok t => (Ok tt, World t (heap w))
    | Raise e => (Raise e, w)
    end.

Section Matcher.

(** The module-level template of [lib/constants.py], a dictionary
    object, and [remove_files] of [lib/helpers.py]. *)
Variable EXPERIMENT_STRUCTURE : nat.
Variable remove_files : list string → string → node → result node.

Definition remove_files_ (path : list string) (item : string)
    : M world unit :=
  fun w =>
    match remove_files path item (tree w) with
    | Ok t => (Ok tt, World t (heap w))
    | Raise e => (Raise e, w)
    end.

(** The [for item in items] loop; [recurse] is the recursive call. *)
Fixpoint check_structure_loop
    (recurse : list string → nat → M world bool)
    (path : list string) (files : nat) (remove : bool)
    (items : list string) : M world unit :=
  match items with
  | [] => ret tt
  | item :: items' =>
      d <- deref files ;;
      match schema_match d item with
      | None =>
          (if remove then remove_files_ path item else ret tt) ;;;
          check_structure_loop recurse path files remove items'
      | Some match_ =>
          r <- match files_get d match_ with
               | Some (SDict sub) =>
                   copy <- deepcopy sub ;;
                   recurse (join path match_) copy
               | _ => ret true
               end ;;
          assign files match_ (SBool r) ;;;
          check_structure_loop recurse path files remove items'
      end
  end.

(** [check_structure] with the depth of recursion bounded by [depth];
    beyond it Python raises [RecursionError]. *)
Fixpoint check_structure_rec (depth : nat) (path : list string)
    (files : option nat) (create remove : bool) : M world bool :=
  match depth with
  | O => lift (Raise RecursionError)
  | S depth' =>
      present <- exists_ path ;;
      (if create && negb present then makedirs path else ret tt) ;;;
      files <- match files with
               | None =>
                   template <- deref EXPERIMENT_STRUCTURE ;;
                   deepcopy template
               | Some files => ret files
               end ;;
      d <- deref files ;;
      if from_option schema_truthy false (files_get d "*") then ret true
      else
        items <- listdir path ;;
        let items :=
          if create then
            map fst (List.filter (fun '(_, f) => negb (is_sbool f)) d)
              ++ items
          else items in
        check_structure_loop
          (fun path' files' =>
             check_structure_rec depth' path' (Some files') create remove)
          path files remove items ;;;
        d <- deref files ;;
        ret (forallb schema_truthy (map snd d))
  end.

(** [check_structure(path, files, create, remove)]: the recursion goes
    as deep as the schema is nested, which bounds it. *)
Definition check_structure (path : list string) (files : option nat)
    (create remove : bool) : M world bool :=
  fun w =>
    let ref := from_option id EXPERIMENT_STRUCTURE files in
    let d := from_option id [] (heap w !! ref) in
    check_structure_rec (schema_depth (SDict d)) path files create remove w.

End Matcher.

(** * The template set generator *)

(** ** Operations on values *)

Definition result_bind {A B} (r : result A) (k : A → result B) : result B :=
  match r with
  | Ok a => k a
  | Raise e => Raise e
  end.

Notation "x <~ r ;; k" := (result_bind r (fun x => k))
  (at level 100, r at next level, right associativity).

(** [v[key]] for a string key *)
Definition py_item (v : pyval) (key : string) : result pyval :=
  match v with
  | VDict d => dict_item d key
  | _ => Raise TypeError
  end.

(** [v[key] = x] for a string key *)
Definition py_setitem (v : pyval) (key : string) (x : pyval) : result pyval :=
  match v with
  | VDict d => Ok (VDict (<[key := x]> d))
  | _ => Raise TypeError
  end.

(** [for x in v]: the elements of a list, the characters of a string,
    the keys of a dictionary. *)
Definition py_iter (v : pyval) : result (list pyval) :=
  match v with
  | VList l => Ok l
  | VStr s => Ok (map (fun c => VStr (String c EmptyString)) (list_ascii_of_string s))
  | VDict d => Ok (map (fun kv => VStr kv.1) (map_to_list d))
  | VNone | VBool _ | VInt _ | VFloat _ => Raise TypeError
  end.

(** [v[:-1]] *)
Definition py_drop_last (v : pyval) : result pyval :=
  match v with
  | VList l => Ok (VList (removelast l))
  | VStr s =>
      Ok (VStr (string_of_list_ascii (removelast (list_ascii_of_string s))))
  | VNone | VBool _ | VInt _ | VFloat _ | VDict _ => Raise TypeError
  end.

(** [del v[-1]] *)
Definition py_del_last (v : pyval) : result pyval :=
  match v with
  | VList [] => Raise IndexError
  | VList l => Ok (VList (removelast l))
  | VDict _ => Raise KeyError
  | VNone | VBool _ | VInt _ | VFloat _ | VStr _ => Raise TypeError
  end.

(** [v + s] for a string literal [s] *)
Definition py_add_str (v : pyval) (s : string) : result pyval :=
  match v with
  | VStr t => Ok (VStr (String.append t s))
  | _ => Raise TypeError
  end.

(** [fmod(x, y)], computed exactly on the binary expansions. *)
Definition float_fmod (x y : float) : float :=
  match Prim2SF x, Prim2SF y with
  | S754_nan, _ | _, S754_nan => nan
  | S754_infinity _, _ => nan
  | _, S754_zero _ => nan
  | S754_zero _, _ => x
  | S754_finite _ _ _, S754_infinity _ => x
  | S754_finite sx mx ex, S754_finite _ my ey =>
      let e := Z.min ex ey in
      let r := (Z.pos mx * 2 ^ (ex - e)) mod (Z.pos my * 2 ^ (ey - e)) in
      SF2Prim (binary_normalize prec emax (if sx then - r else r) e sx)
  end.

(** [floor(x)] *)
Definition float_floor (x : float) : float :=
  match Prim2SF x with
  | S754_finite s m e =>
      if 0 <=? e then x
      else
        let v := if s then Z.neg m else Z.pos m in
        SF2Prim (binary_normalize prec emax (v / 2 ^ (- e)) 0 s)
  | _ => x
  end.

Definition float_nonzero (x : float) : bool := negb (PrimFloat.eqb x 0).

(** [vx // wx] for floats and a divisor other than zero, as CPython's
    [float_floor_div] computes it. *)
Definition float_floordiv (vx wx : float) : float :=
  let mod_ := float_fmod vx wx in
  let div := ((vx - mod_) / wx)%float in
  let div :=
    if float_nonzero mod_
       && negb (Bool.eqb (PrimFloat.ltb wx 0) (PrimFloat.ltb mod_ 0))
    then (div - 1)%float else div in
  if float_nonzero div then
    let floordiv := float_floor div in
    if PrimFloat.ltb 0.5 (div - floordiv) then (floordiv + 1)%float
    else floordiv
  else if get_sign (vx / wx) then (-0)%float else 0%float.

(** [1000 * v] *)
Definition py_times_1000 (v : pyval) : result pyval :=
  match v with
  | VBool b => Ok (VInt (1000 * Z.b2z b))
  | VInt z => Ok (VInt (1000 * z))
  | VFloat f => Ok (VFloat (1000 * f)%float)
  | VStr s => Ok (VStr (String.concat "" (replicate 1000 s)))
  | VList l => Ok (VList (concat (replicate 1000 l)))
  | VNone | VDict _ => Raise TypeError
  end.

(** [v // 100] *)
Definition py_floordiv_100 (v : pyval) : result pyval :=
  match v with
  | VBool b => Ok (VInt (Z.b2z b / 100))
  | VInt z => Ok (VInt (z / 100))
  | VFloat f => Ok (VFloat (float_floordiv f 100))
  | VNone | VStr _ | VList _ | VDict _ => Raise TypeError
  end.

(** ** Dictionaries with arbitrary keys: the position index *)

Definition hashable (v : pyval) : bool :=
  match v with VList _ | VDict _ => false | _ => true end.

(** What a dictionary tells its keys apart by.  Two hashable values are
    one key when they are the same object or compare equal with one
    hash: [None]; a string, by its content; a number, by its value,
    whatever its type ([True], [1] and [1.0] are one key, and so are
    [False], [0], [0.0] and [-0.0]).  A finite number other than zero is
    [m * 2 ^ e] for exactly one odd [m]; the NaN of a parsed document
    is one object ([json.decoder.NaN]), found by identity. *)
Inductive dict_key : Type :=
| KNone
| KStr (s : string)
| KZero
| KNum (negative : bool) (m : positive) (e : Z)
| KInf (negative : bool)
| KNaN.

#[global] Instance dict_key_eq_dec : EqDecision dict_key.
Proof. solve_decision. Defined.

(** [m * 2 ^ e] with the factors two of [m] moved to the exponent. *)
Fixpoint odd_part (m : positive) (e : Z) : positive * Z :=
  match m with
  | xO m' => odd_part m' (e + 1)
  | _ => (m, e)
  end.

Definition key_of_number (n : number) : dict_key :=
  match n with
  | NInt 0 => KZero
  | NInt (Zpos p) => let (m, e) := odd_part p 0 in KNum false m e
  | NInt (Zneg p) => let (m, e) := odd_part p 0 in KNum true m e
  | NFloat f =>
      match Prim2SF f with
      | S754_zero _ => KZero
      | S754_finite s m e => let (m', e') := odd_part m e in KNum s m' e'
      | S754_infinity s => KInf s
      | S754_nan => KNaN
      end
  end.

(** The key a hashable value is; a list or a dictionary is none. *)
Definition key_of (v : pyval) : option dict_key :=
  match v with
  | VNone => Some KNone
  | VStr s => Some (KStr s)
  | VBool _ | VInt _ | VFloat _ => option_map key_of_number (as_number v)
  | VList _ | VDict _ => None
  end.

(** Are the hashable values [a] and [b] one key? *)
Definition key_eq (a b : pyval) : bool :=
  match key_of a, key_of b with
  | Some k, Some k' => bool_decide (k = k')
  | _, _ => false
  end.

(** [index[k] = v] *)
Fixpoint index_set (index : list (pyval * (pyval * pyval))) (k : pyval)
    (v : pyval * pyval) : list (pyval * (pyval * pyval)) :=
  match index with
  | [] => [(k, v)]
  | (k', v') :: index' =>
      if key_eq k' k then (k', v) :: index'
      else (k', v') :: index_set index' k v
  end.

(** [{m['id']: (m['x'], m['y']) for m in motes}], from the entries
    gathered so far. *)
Fixpoint position_index_from (index : list (pyval * (pyval * pyval)))
    (motes : list pyval) : result (list (pyval * (pyval * pyval))) :=
  match motes with
  | [] => Ok index
  | m :: motes' =>
      id_ <~ py_item m "id" ;;
      x <~ py_item m "x" ;;
      y <~ py_item m "y" ;;
      if hashable id_ then
        position_index_from (index_set index id_ (x, y)) motes'
      else Raise TypeError
  end.

Definition position_index (motes : pyval)
    : result (list (pyval * (pyval * pyval))) :=
  l <~ py_iter motes ;;
  position_index_from [] l.

(** ** The template catalog: an ordered dictionary of field bindings *)

(** [templates[name]] *)
Fixpoint template (templates : list (string * pyval)) (name : string)
    : result pyval :=
  match templates with
  | [] => Raise KeyError
  | (k, v) :: templates' =>
      if String.eqb k name then Ok v else template templates' name
  end.

(** [templates[name] = v] for a name of the catalog *)
Fixpoint set_template (templates : list (string * pyval)) (name : string)
    (v : pyval) : list (string * pyval) :=
  match templates with
  | [] => [(name, v)]
  | (k, v') :: templates' =>
      if String.eqb k name then (k, v) :: templates'
      else (k, v') :: set_template templates' name v
  end.

(** [del templates[name]] *)
Fixpoint del_template (templates : list (string * pyval)) (name : string)
    : result (list (string * pyval)) :=
  match templates with
  | [] => Raise KeyError
  | (k, v) :: templates' =>
      if String.eqb k name then Ok templates'
      else
        rest <~ del_template templates' name ;;
        Ok ((k, v) :: rest)
  end.

(** [templates[name][field] = x] *)
Definition set_field (templates : list (string * pyval))
    (name field : string) (x : pyval) : result (list (string * pyval)) :=
  t <~ template templates name ;;
  t' <~ py_setitem t field x ;;
  Ok (set_template templates name t').

(** What a call does to the files: a file opened for writing, which
    creates it or empties it; the text of a template written to the
    file [name] of [folder]; a position index written to a file. *)
Inductive output : Type :=
| Opened (file : list string)
| Rendered (folder : list string) (name : string)
    (kwargs : gmap string pyval) (text : string)
| Dumped (file : list string) (index : list (pyval * (pyval * pyval)))
    (text : string).

Definition emit (o : output) : M (list output) unit :=
  fun t => (Ok tt, t ++ [o]).

Section Generator.

(** The catalog of [lib/constants.py], whose entries are distinct
    objects; [env.get_template(name).render] of the template engine,
    applied to the keywords; [open(file, 'w')] and [f.write(text)] followed by the end of
    the [with] block, for a file of the experiment;
    [dump(index, f, sort_keys=True, indent=4)] on the open file, giving
    the text written; the building-block lookup of lines 44-68 with the
    [#define] block made of its constants; the call
    [generate_motes(defaults=DEFAULTS, **params)] of the topology
    generator; [str.capitalize], which knows the letters of every
    alphabet. *)
Variable TEMPLATES : list (string * pyval).
Variable render : string → gmap string pyval → result string.
Variable open_ : list string → result unit.
Variable write : list string → string → result unit.
Variable dump : list string → list (pyval * (pyval * pyval)) → result string.
Variable get_constants_and_replacements : pyval → result (pyval * pyval).
Variable define_block : pyval → pyval.
Variable generate_motes : gmap string pyval → result pyval.
Variable capitalize : string → string.

(** [v.capitalize()] *)
Definition py_capitalize (v : pyval) : result pyval :=
  match v with
  | VStr s => Ok (VStr (capitalize s))
  | _ => Raise AttributeError
  end.

(** [open(file, 'w')] *)
Definition open_w (file : list string) : M (list output) unit :=
  lift (open_ file) ;;;
  emit (Opened file).

(** The parameters [path], [env] and [name] of [write_template]: a
    keyword of the same name cannot be bound. *)
Definition clashes (kwargs : gmap string pyval) : bool :=
  bool_decide (is_Some (kwargs !! "path"))
  || bool_decide (is_Some (kwargs !! "env"))
  || bool_decide (is_Some (kwargs !! "name")).

(** [write_template(path, env, name, **kwargs)], from the binding of
    its arguments on: what is unpacked is a dictionary. *)
Definition write_template (path : list string) (name : string)
    (kwargs : pyval) : M (list output) unit :=
  match kwargs with
  | VDict kwargs =>
      if clashes kwargs then lift (Raise TypeError)
      else
        text <- lift (render name kwargs) ;;
        open_w (join path name) ;;;
        lift (write (join path name) text) ;;;
        emit (Rendered path name kwargs text)
  | _ => lift (Raise TypeError)
  end.

(** [for name, kwargs in templates.items(): write_template(...)] *)
Fixpoint write_templates (path : list string)
    (templates : list (string * pyval)) : M (list output) unit :=
  match templates with
  | [] => ret tt
  | (name, kwargs) :: templates' =>
      write_template path name kwargs ;;;
      write_templates path templates'
  end.

(** [with open(file, 'w') as f: dump({...}, f, ...)] *)
Definition write_index (file : list string) (motes : pyval)
    : M (list output) unit :=
  open_w file ;;;
  index <- lift (position_index motes) ;;
  text <- lift (dump file index) ;;
  emit (Dumped file index text).

(** The [for mote_type in ...] loop, giving the updated list. *)
Fixpoint bind_targets (params : gmap string pyval)
    (mote_types : list pyval) : result (list pyval) :=
  match mote_types with
  | [] => Ok []
  | mote_type :: mote_types' =>
      name <~ py_item mote_type "name" ;;
      target <~ (match name with
                 | VStr "malicious" => dict_item params "malicious_target"
                 | _ => dict_item params "target"
                 end) ;;
      mote_type' <~ py_setitem mote_type "target" target ;;
      rest <~ bind_targets params mote_types' ;;
      Ok (mote_type' :: rest)
  end.

(** [render_templates(path, only_malicious, **params)].  The catalog it
    works on is its own deep copy of [TEMPLATES], a value here; the
    state is what has been written so far. *)
Definition render_templates (path : list string) (only_malicious : bool)
    (params : gmap string pyval) : M (list output) pyval :=
  let templates := TEMPLATES in
  (* fill in the different templates with input parameters *)
  blocks <- lift (dict_item params "blocks") ;;
  cr <- lift (get_constants_and_replacements blocks) ;;
  let constants := cr.1 in
  let replacements := cr.2 in
  templates <- lift (set_field templates "motes/malicious.c" "constants"
                       (define_block constants)) ;;
  if only_malicious then
    kwargs <- lift (template templates "motes/malicious.c") ;;
    write_template (join path "with-malicious") "motes/malicious.c" kwargs ;;;
    ret replacements
  else
    (* generate the list of motes *)
    motes <- lift (dict_item params "motes") ;;
    motes <- (if truthy motes then ret motes
              else lift (generate_motes params)) ;;
    (* fill in simulation file templates *)
    templates <- lift (
      x <~ dict_item params "target" ;;
      templates <~ set_field templates "motes/Makefile" "target" x ;;
      x <~ dict_item params "duration" ;;
      x <~ py_times_1000 x ;;
      templates <~ set_field templates "script.js" "timeout" x ;;
      x <~ template templates "script.js" ;;
      x <~ py_item x "timeout" ;;
      x <~ py_floordiv_100 x ;;
      templates <~ set_field templates "script.js" "sampling_period" x ;;
      x <~ dict_item params "title" ;;
      x <~ py_add_str x " (with the malicious mote)" ;;
      templates <~ set_field templates "simulation.csc" "title" x ;;
      x <~ dict_item params "goal" ;;
      templates <~ set_field templates "simulation.csc" "goal" x ;;
      x <~ dict_item params "notes" ;;
      templates <~ set_field templates "simulation.csc" "notes" x ;;
      x <~ dict_item params "int_range" ;;
      templates <~ set_field templates "simulation.csc"
                     "interference_range" x ;;
      x <~ dict_item params "tx_range" ;;
      templates <~ set_field templates "simulation.csc"
                     "transmitting_range" x ;;
      x <~ dict_item params "target" ;;
      templates <~ set_field templates "simulation.csc" "target" x ;;
      x <~ dict_item params "target" ;;
      x <~ py_capitalize x ;;
      templates <~ set_field templates "simulation.csc"
                     "target_capitalized" x ;;
      x <~ dict_item params "malicious_target" ;;
      templates <~ set_field templates "simulation.csc"
                     "malicious_target" x ;;
      x <~ dict_item params "malicious_target" ;;
      x <~ py_capitalize x ;;
      templates <~ set_field templates "simulation.csc"
                     "malicious_target_capitalized" x ;;
      templates <~ set_field templates "simulation.csc" "motes" motes ;;
      simulation <~ template templates "simulation.csc" ;;
      mote_types <~ py_item simulation "mote_types" ;;
      l <~ py_iter mote_types ;;
      l' <~ bind_targets params l ;;
      match mote_types with
      | VList _ =>
          set_field templates "simulation.csc" "mote_types" (VList l')
      | _ => Ok templates
      end) ;;
    (* render the templates for the simulation with the malicious mote *)
    write_templates (join path "with-malicious") templates ;;;
    write_index
      (join (join (join path "with-malicious") "data") "motes.json")
      motes ;;;
    (* now, adapt the title and mote source template *)
    templates <- lift (
      templates <~ del_template templates "motes/Makefile" ;;
      templates <~ del_template templates "motes/root.c" ;;
      templates <~ del_template templates "motes/sensor.c" ;;
      templates <~ del_template templates "motes/malicious.c" ;;
      x <~ dict_item params "title" ;;
      x <~ py_add_str x " (without the malicious mote)" ;;
      templates <~ set_field templates "simulation.csc" "title" x ;;
      x <~ py_drop_last motes ;;
      templates <~ set_field templates "simulation.csc" "motes" x ;;
      simulation <~ template templates "simulation.csc" ;;
      mote_types <~ py_item simulation "mote_types" ;;
      x <~ py_del_last mote_types ;;
      set_field templates "simulation.csc" "mote_types" x) ;;
    (* render the templates for the simulation without the malicious mote *)
    write_templates (join path "without-malicious") templates ;;;
    x <- lift (py_drop_last motes) ;;
    write_index
      (join (join (join path "without-malicious") "data") "motes.json")
      x ;;;
    ret replacements.

End Generator.

(** * The building blocks *)

(** ** Parsed JSON documents *)

(** The values of [building-blocks.json] as [json.loads] gives them: an
    object keeps its members, whose keys are distinct, in the order of
    the document. *)
Inductive json : Type :=
| JNull
| JBool (b : bool)
| JInt (z : Z)
| JFloat (f : float)
| JStr (s : string)
| JList (l : list json)
| JDict (members : list (string * json)).

(** [d.get(key)] for a dictionary with string keys, kept in insertion
    order. *)
Fixpoint member {A} (d : list (string * A)) (key : string) : option A :=
  match d with
  | [] => None
  | (k, v) :: d' => if String.eqb k key then Some v else member d' key
  end.

(** [key in d.keys()] *)
Definition has_member {A} (d : list (string * A)) (key : string) : bool :=
  match member d key with Some _ => true | None => false end.

(** [d[key] = v]: a known key keeps its place, a new one goes last. *)
Fixpoint set_member {A} (d : list (string * A)) (key : string) (v : A)
    : list (string * A) :=
  match d with
  | [] => [(key, v)]
  | (k, v') :: d' =>
      if String.eqb k key then (k, v) :: d'
      else (k, v') :: set_member d' key v
  end.

Definition json_number (v : json) : option number :=
  match v with
  | JBool b => Some (NInt (Z.b2z b))
  | JInt z => Some (NInt z)
  | JFloat f => Some (NFloat f)
  | _ => None
  end.

(** Two numbers found equal by [in]: equal by value, or both the [NaN]
    of the document, which [json.loads] makes one object
    ([json.decoder.NaN]) and [in] finds by identity. *)
Definition number_same (a b : number) : bool :=
  match number_compare a b with
  | Some Eq => true
  | Some _ => false
  | None =>
      match a, b with
      | NFloat f, NFloat g => PrimFloat.is_nan f && PrimFloat.is_nan g
      | _, _ => false
      end
  end.

(** [a is b or a == b] for two values of one parsed document. *)
Fixpoint json_eq (a b : json) : bool :=
  match a, b with
  | JNull, JNull => true
  | JStr s, JStr t => String.eqb s t
  | JList l, JList m =>
      (fix all2 (l m : list json) : bool :=
         match l, m with
         | [], [] => true
         | x :: l', y :: m' => json_eq x y && all2 l' m'
         | _, _ => false
         end) l m
  | JDict d, JDict e =>
      Nat.eqb (length d) (length e)
      && (fix all (d : list (string * json)) : bool :=
            match d with
            | [] => true
            | (k, v) :: d' =>
                match member e k with
                | Some w => json_eq v w
                | None => false
                end && all d'
            end) d
  | _, _ =>
      match json_number a, json_number b with
      | Some x, Some y => number_same x y
      | _, _ => false
      end
  end.

(** [v.items()] *)
Definition json_items (v : json) : result (list (string * json)) :=
  match v with
  | JDict d => Ok d
  | _ => Raise AttributeError
  end.

(** ** Strings *)

(** [s.endswith(suffix)] *)
Definition endswith (s suffix : string) : bool :=
  (String.length suffix <=? String.length s)%nat
  && String.eqb
       (substring (String.length s - String.length suffix)
          (String.length suffix) s)
       suffix.

(** ** [get_constants_and_replacements] *)

(** What the function logs. *)
Inductive block_warning : Type :=
| AlreadySet (block : pyval) (key : string) (value : json)
| AlreadyReplaced (block : pyval) (line : json) (key : string).

Definition block_warn (d : block_warning) : M (list block_warning) unit :=
  fun t => (Ok tt, t ++ [d]).

Section Blocks.

(** What Python knows of the text of a string: [s.upper()], which
    knows the letters of every alphabet, and the characters of [s], one
    string each, which indexing and unpacking go by. *)
Variable upper : string → string.
Variable chars : string → list string.

(** [v[0]] *)
Definition json_first (v : json) : result json :=
  match v with
  | JList (x :: _) => Ok x
  | JList [] => Raise IndexError
  | JStr s =>
      match chars s with
      | c :: _ => Ok (JStr c)
      | [] => Raise IndexError
      end
  | JDict _ => Raise KeyError
  | JNull | JBool _ | JInt _ | JFloat _ => Raise TypeError
  end.

(** [srcl, dstl = v], giving [srcl]: the value is unpacked into exactly
    two items. *)
Definition json_source (v : json) : result json :=
  match v with
  | JList [srcl; _] => Ok srcl
  | JList _ => Raise ValueError
  | JStr s =>
      match chars s with
      | [c; _] => Ok (JStr c)
      | _ => Raise ValueError
      end
  | JDict [(k, _); _] => Ok (JStr k)
  | JDict _ => Raise ValueError
  | JNull | JBool _ | JInt _ | JFloat _ => Raise TypeError
  end.

(** [[srcl for srcl, dstl in values]] *)
Fixpoint sources (values : list json) : result (list json) :=
  match values with
  | [] => Ok []
  | v :: values' =>
      srcl <~ json_source v ;;
      rest <~ sources values' ;;
      Ok (srcl :: rest)
  end.

(** Line 56: the entry is a constant, not a replacement in a file. *)
Definition is_constant (key : string) : bool :=
  String.eqb (upper key) key
  && negb (endswith key ".c" || endswith key ".h").

(** [available_blocks[block]]: the key is hashed first, and every key of
    the dictionary is a string. *)
Definition block_item (available_blocks : list (string * json))
    (block : pyval) : result json :=
  match block with
  | VList _ | VDict _ => Raise TypeError
  | VStr s =>
      match member available_blocks s with
      | Some v => Ok v
      | None => Raise KeyError
      end
  | VNone | VBool _ | VInt _ | VFloat _ => Raise KeyError
  end.

(** Lines 56-67, for one entry of a block. *)
Definition collect_entry (block : pyval) (key : string) (value : json)
    (constants replacements : list (string * json))
    : M (list block_warning) (list (string * json) * list (string * json)) :=
  if is_constant key then
    if has_member constants key then
      block_warn (AlreadySet block key value) ;;;
      ret (constants, replacements)
    else ret (set_member constants key value, replacements)
  else
    replaced <- (if has_member replacements key then
                   line <- lift (json_first value) ;;
                   lines <- lift (sources (map snd replacements)) ;;
                   ret (existsb (json_eq line) lines)
                 else ret false) ;;
    if replaced then
      line <- lift (json_first value) ;;
      block_warn (AlreadyReplaced block line key) ;;;
      ret (constants, replacements)
    else ret (constants, set_member replacements key value).

(** [for key, value in available_blocks[block].items()] *)
Fixpoint collect_items (block : pyval) (items : list (string * json))
    (constants replacements : list (string * json))
    : M (list block_warning) (list (string * json) * list (string * json)) :=
  match items with
  | [] => ret (constants, replacements)
  | (key, value) :: items' =>
      cr <- collect_entry block key value constants replacements ;;
      collect_items block items' cr.1 cr.2
  end.

(** [for block in blocks] *)
Fixpoint collect_blocks (available_blocks : list (string * json))
    (blocks : list pyval) (constants replacements : list (string * json))
    : M (list block_warning) (list (string * json) * list (string * json)) :=
  match blocks with
  | [] => ret (constants, replacements)
  | block :: blocks' =>
      entries <- lift (block_item available_blocks block) ;;
      items <- lift (json_items entries) ;;
      cr <- collect_items block items constants replacements ;;
      collect_blocks available_blocks blocks' cr.1 cr.2
  end.

(** What the call [get_building_blocks()] gives: the dictionary read
    from [building-blocks.json], or the exception raised when the file
    cannot be read or parsed. *)
Variable get_building_blocks : result (list (string * json)).

(** [get_constants_and_replacements(blocks)], for the list of blocks a
    parameter set holds; the state is what has been logged. *)
Definition get_constants_and_replacements (blocks : list pyval)
    : M (list block_warning) (list (string * json) * list (string * json)) :=
  available_blocks <- lift get_building_blocks ;;
  collect_blocks available_blocks blocks [] [].

End Blocks.

(** * Folders and listings *)

(** ** Paths, names and sorted lists *)

(** [os.path.isdir(path)] and [os.path.isfile(path)] *)
Definition os_isdir (root : node) (path : list string) : bool :=
  match stat root path with Some (Dir _) => true | _ => false end.

Definition os_isfile (root : node) (path : list string) : bool :=
  match stat root path with Some File => true | _ => false end.

Definition isdir (path : list string) : M world bool :=
  fun w => (Ok (os_isdir (tree w) path), w).

Definition isfile (path : list string) : M world bool :=
  fun w => (Ok (os_isfile (tree w) path), w).

(** [s.startswith(prefix)] *)
Definition startswith (s prefix : string) : bool := String.prefix prefix s.

(** [os.path.basename(p)]: what follows the last slash. *)
Definition basename (p : string) : string :=
  let i := Z.to_nat (rfind "/" p + 1) in
  substring i (String.length p - i) p.

(** [sorted(l)] for a list of strings, which Python orders by code
    point; two strings that compare equal are the same string, so the
    result is the one ordered arrangement of [l]. *)
Fixpoint insert_sorted (x : string) (l : list string) : list string :=
  match l with
  | [] => [x]
  | y :: l' => if String.leb x y then x :: l else y :: insert_sorted x l'
  end.

Fixpoint sorted (l : list string) : list string :=
  match l with
  | [] => []
  | x :: l' => insert_sorted x (sorted l')
  end.

(** ** [get_path] *)


(** ** [get_available_platforms] *)

Section Platforms.

(** The Contiki folder of [lib/constants.py]. *)
Variable CONTIKI_FOLDER : list string.

(** The [for item in listdir(...)] loop. *)
Fixpoint get_available_platforms_loop (items platforms : list string)
    : M world (list string) :=
  match items with
  | [] => ret platforms
  | item :: items' =>
      dir <- isdir (join (join CONTIKI_FOLDER "platform") item) ;;
      get_available_platforms_loop items'
        (if dir then platforms ++ [item] else platforms)
  end.

Definition get_available_platforms : M world (list string) :=
  items <- listdir (join CONTIKI_FOLDER "platform") ;;
  get_available_platforms_loop items [].

End Platforms.

(** ** [list_experiments], [is_valid_campaign] and [list_campaigns] *)

Section Experiments.

(** The experiment folder and the module-level template of
    [lib/constants.py]; [remove_files] of [lib/helpers.py]. *)
Variable EXPERIMENT_FOLDER : list string.
Variable EXPERIMENT_STRUCTURE : nat.
Variable remove_files : list string → string → node → result node.

(** The list comprehension of [list_experiments]: the tests of an entry
    are made from left to right, and the structure is checked only of a
    folder whose name does not start with a dot. *)
Fixpoint list_experiments_loop (items : list string)
    : M world (list string) :=
  match items with
  | [] => ret []
  | d :: items' =>
      dir <- isdir (join EXPERIMENT_FOLDER d) ;;
      keep <- (if dir && negb (startswith d ".") then
                 check_structure EXPERIMENT_STRUCTURE remove_files
                   (join EXPERIMENT_FOLDER d) None false false
               else ret false) ;;
      rest <- list_experiments_loop items' ;;
      ret (if keep then d :: rest else rest)
  end.

Definition list_experiments : M world (list string) :=
  items <- listdir EXPERIMENT_FOLDER ;;
  l <- list_experiments_loop items ;;
  ret (sorted l).

(** What [open(path).read()] gives, and [loads(jsmin(text))]. *)
Variable read : list string → result string.
Variable loads : string → result pyval.

(** [is_valid_campaign(path)]: a [ValueError] is caught, another
    exception is not. *)
Definition is_valid_campaign (path : list string) : result bool :=
  match (text <~ read path ;; loads text) with
  | Ok _ => Ok true
  | Raise ValueError => Ok false
  | Raise e => Raise e
  end.

(** The list comprehension of [list_campaigns]. *)
Fixpoint list_campaigns_loop (items : list string)
    : M world (list string) :=
  match items with
  | [] => ret []
  | f :: items' =>
      file <- isfile (join EXPERIMENT_FOLDER f) ;;
      keep <- (if file && endswith f ".json" then
                 lift (is_valid_campaign (join EXPERIMENT_FOLDER f))
               else ret false) ;;
      rest <- list_campaigns_loop items' ;;
      ret (if keep then basename f :: rest else rest)
  end.

Definition list_campaigns : M world (list string) :=
  items <- listdir EXPERIMENT_FOLDER ;;
  l <- list_campaigns_loop items ;;
  ret (sorted l).

End Experiments.

(** * The campaign file *)

(** ** Paths as strings *)

(** [s.rstrip('/')] *)
Fixpoint rstrip_slash (s : string) : string :=
  match s with
  | EmptyString => EmptyString
  | String c s' =>
      match rstrip_slash s' with
      | EmptyString =>
          if Ascii.eqb c "/" then EmptyString else String c EmptyString
      | r => String c r
      end
  end.

(** [s == '/' * len(s)] *)
Fixpoint all_slashes (s : string) : bool :=
  match s with
  | EmptyString => true
  | String c s' => Ascii.eqb c "/" && all_slashes s'
  end.

(** [os.path.dirname(p)]: what comes before the last slash, without
    its trailing slashes unless it is made of slashes only. *)
Definition dirname (p : string) : string :=
  let i := Z.to_nat (rfind "/" p + 1) in
  let head := substring 0 i p in
  if negb (String.eqb head "") && negb (all_slashes head)
  then rstrip_slash head else head.

(** [os.path.join(a, b)] *)
Definition path_join (a b : string) : string :=
  if startswith b "/" then b
  else if String.eqb a "" || endswith a "/" then String.append a b
  else String.append a (String "/" b).

(** ** [get_experiments] *)

(** What the function logs. *)
Inductive campaign_log : Type :=
| MissingCampaign
| PrepareHint.

Section Campaign.

(** The experiment folder of [lib/constants.py], as a string;
    [os.path.expanduser] and [os.path.exists]; what [open(path).read()]
    gives, and [loads(jsmin(text))]. *)
Variable EXPERIMENT_FOLDER : string.
Variable expanduser : string → string.
Variable path_exists : string → bool.
Variable read : string → result string.
Variable loads : string → result pyval.

(** [get_experiments(exp_file)]; [return] without a value gives
    [None]. *)
Definition get_experiments (exp_file : string) : M (list campaign_log) pyval :=
  let exp_file :=
    if String.eqb (dirname exp_file) "" then
      path_join EXPERIMENT_FOLDER exp_file
    else exp_file in
  let exp_file := expanduser exp_file in
  let exp_file :=
    if negb (endswith exp_file ".json") then String.append exp_file ".json"
    else exp_file in
  if negb (path_exists exp_file) then
    (fun t => (Ok tt, t ++ [MissingCampaign])) ;;;
    (fun t => (Ok tt, t ++ [PrepareHint])) ;;;
    ret VNone
  else
    text <- lift (read exp_file) ;;
    lift (loads text).

End Campaign.

(** * The vocabulary of the statements *)

(** The value [get_parameter] validates: lines 159-161 of the source,
    read on the dictionary once [silent] has been popped. *)
Definition looked_up (DEFAULTS dict : gmap string pyval)
    (section key : string) (default : pyval) : result pyval :=
  match attr_get (py_or (dict_get dict section) (VDict ∅)) key with
  | Ok raw =>
      let param := py_or raw (dict_get DEFAULTS key) in
      Ok (if is_none param && negb (is_none default) then default else param)
  | Raise e => Raise e
  end.

(** The popped [silent] flag of a call made in state [s]. *)
Definition silent_flag (s : state) : pyval :=
  from_option id (VBool false) (dictionary s !! "silent").

(** The state a call leaves behind when it logs [ds]. *)
Definition after_call (s : state) (ds : list diagnostic) : state :=
  State (delete "silent" (dictionary s))
        (log s ++ if truthy (silent_flag s) then [] else ds).

(** The parameter [key] of a build, when it succeeded. *)
Definition param_of (r : result (gmap string pyval) * state)
    (key : string) : option pyval :=
  match r.1 with
  | Ok params => params !! key
  | Raise _ => None
  end.

(** [isinstance(v, dict)] *)
Definition is_dict (v : pyval) : bool :=
  match v with VDict _ => true | _ => false end.

(** A section entry the resolver can read: absent, falsy or a mapping. *)
Definition section_readable (dict : gmap string pyval)
    (section : string) : bool :=
  negb (truthy (dict_get dict section)) || is_dict (dict_get dict section).

(** A number [float()] accepts. *)
Definition float_range (v : pyval) : bool :=
  match as_number v with
  | Some n => is_ok (float_of_number n)
  | None => false
  end.

(** The keys [validated_parameters] validates in scalar mode. *)
Definition scalar_keys : list string :=
  ["debug"; "title"; "goal"; "notes"; "duration"; "number-motes";
   "repeat"; "target"; "type"; "external-library";
   "minimum-distance-from-root"; "transmission-range";
   "interference-range"; "area-square-side"].

(** [c in s] *)
Fixpoint occurs (c : ascii) (s : string) : bool :=
  match s with
  | EmptyString => false
  | String a s' => Ascii.eqb a c || occurs c s'
  end.

(** A name made of dots only (the empty name included), which
    [splitext] never splits. *)
Fixpoint all_dots (s : string) : bool :=
  match s with
  | EmptyString => true
  | String a s' => Ascii.eqb a "." && all_dots s'
  end.

(** Every dictionary object that exists in [w] and that [keep] names has
    the same content in [w']; no object disappears. *)
Definition unchanged_where (keep : nat → Prop) (w w' : world) : Prop :=
  (length (heap w) ≤ length (heap w'))%nat
  ∧ ∀ l, (l < length (heap w))%nat → keep l → heap w' !! l = heap w !! l.

(** The content of the dictionary object at [ref]. *)
Definition content (w : world) (ref : nat) : list (string * schema) :=
  from_option id [] (heap w !! ref).

(** Does the entry [item] match the key [k] of [files]? *)
Definition matches (files : list (string * schema)) (k item : string)
    : bool :=
  match schema_match files item with
  | Some m => String.eqb m k
  | None => false
  end.

(** A tree the schema [f] can be checked against at [path] without
    [create]: unless the schema accepts anything, [path] is a directory
    and so is, in turn, the folder named by every nested key that one of
    its entries matches. *)
Fixpoint checkable (t : node) (path : list string) (f : schema) : bool :=
  match f with
  | SBool _ => true
  | SDict files =>
      from_option schema_truthy false (files_get files "*")
      || match os_listdir t path with
         | Raise _ => false
         | Ok items =>
             forallb
               (λ e, if existsb (matches files e.1) items
                     then checkable t (join path e.1) e.2 else true)
               files
         end
  end.

(** The working dictionary [d] in the course of a check of [d0]: the
    same keys, each value as it was or replaced by a boolean. *)
Definition checked (d0 d : list (string * schema)) : Prop :=
  Forall2 (λ e0 e, e.1 = e0.1 ∧ (e.2 = e0.2 ∨ is_sbool e.2 = true)) d0 d.

(** [templates[name][field]] *)
Definition field (templates : list (string * pyval)) (name field : string)
    : result pyval :=
  t <~ template templates name ;;
  py_item t field.


(** The entities of a list of motes, and the identifier and the
    coordinates of an entity. *)
Definition entities (motes : pyval) : list pyval :=
  match py_iter motes with Ok l => l | Raise _ => [] end.




(** No two of the entries have the same identifier. *)
Fixpoint one_per_key (entries : list (pyval * (pyval * pyval))) : bool :=
  match entries with
  | [] => true
  | (k, _) :: entries' =>
      forallb (λ e, negb (key_eq k e.1)) entries' && one_per_key entries'
  end.


(** * Inputs on which the statements are exercised *)

(** A registry of defaults, the platforms and building blocks found on
    disk, and the one library path that exists. *)
Definition DEFAULTS_example : gmap string pyval :=
  list_to_map
    [("debug", VBool true); ("title", VStr "Default title");
     ("goal", VStr ""); ("notes", VStr ""); ("duration", VInt 300);
     ("number-motes", VInt 10); ("repeat", VInt 1); ("target", VStr "z1");
     ("type", VStr "sensor"); ("building-blocks", VList []);
     ("external-library", VNone);
     ("minimum-distance-from-root", VFloat 20);
     ("transmission-range", VFloat 50);
     ("interference-range", VFloat 100);
     ("area-square-side", VFloat 200)].

Definition platforms_example : list string := ["z1"; "sky"].

Definition blocks_example : gmap string pyval := {[ "b1" := VDict ∅ ]}.

Definition exists_example (v : pyval) : result bool :=
  match v with
  | VStr s => Ok (String.eqb s "/lib/rpl")
  | _ => Raise TypeError
  end.

(** A duration that is not positive. *)
Definition duration_example : state :=
  State {[ "simulation" := VDict {[ "duration" := VInt (-5) ]} ]} [].

(** [lambda x: isinstance(x, int) and x > 0] *)
Definition positive_int (x : pyval) : result bool :=
  py_and (is_int x) (py_gt x (VInt 0)).

(** Building blocks of which two are unknown. *)
Definition blocks_config_example : state :=
  State {[ "malicious" := VDict {[ "building-blocks" :=
             VList [VStr "b1"; VStr "zz"; VInt 3; VStr "b1"] ]} ]} [].

(** Membership in [blocks_example], as a boolean. *)
Definition is_b1 (x : pyval) : bool :=
  match x with VStr s => String.eqb s "b1" | _ => false end.

(** An interference range below the transmission range, and the
    parameter set built from it. *)
Definition geometry_example : state :=
  State {[ "simulation" := VDict (list_to_map
            [("minimum-distance-from-root", VInt 10);
             ("transmission-range", VInt 40);
             ("interference-range", VInt 30)]) ]} [].

Definition geometry_params_example : gmap string pyval :=
  list_to_map
    [("motes", VNone); ("debug", VBool true);
     ("title", VStr "Default title"); ("goal", VStr "");
     ("notes", VStr ""); ("duration", VInt 300); ("n", VInt 10);
     ("repeat", VInt 1); ("target", VStr "z1");
     ("malicious_target", VStr "z1"); ("mtype", VStr "sensor");
     ("blocks", VList []); ("ext_lib", VNone); ("min_range", VInt 10);
     ("tx_range", VInt 40); ("int_range", VFloat 100);
     ("area_side", VFloat 200); ("max_range", VFloat 200)].

(** A section given as a string. *)
Definition bad_section_example : state :=
  State {[ "simulation" := VStr "fast" ]} [].

(** Building blocks given as a string. *)
Definition bad_blocks_example : state :=
  State {[ "malicious" := VDict {[ "building-blocks" := VStr "b1" ]} ]} [].

(** A configuration with several invalid values. *)
Definition degraded_example : state :=
  State (list_to_map
    [("silent", VBool false);
     ("simulation", VDict (list_to_map
        [("duration", VStr "long"); ("target", VStr "unknown");
         ("minimum-distance-from-root", VInt (-3));
         ("area-square-side", VInt 1)]));
     ("malicious", VDict (list_to_map
        [("type", VInt 7);
         ("building-blocks", VList [VStr "b1"; VStr "zz"])]))]) [].

(** A [remove_files] that leaves the tree alone. *)
Definition remove_nothing (path : list string) (item : string)
    (t : node) : result node := Ok t.

(** A folder holding [a.txt]; the template at address 0 and a schema
    of the caller at address 1. *)
Definition supplied_schema_example : world :=
  World (Dir [("exp", Dir [("a.txt", File)])])
        [[("data", SDict [("x", SBool false)])];
         [("a.txt", SBool false)]].

(** A folder that lacks the required [simulation.csc]. *)
Definition required_file_example : world :=
  World (Dir [("exp", Dir [("notes.txt", File)])])
        [[("simulation.csc", SBool false)]].

(** An empty folder, where the template requires [data/x]. *)
Definition required_folder_example : world :=
  World (Dir [("exp", Dir [])])
        [[("data", SDict [("x", SBool false)])]].

(** A catalog with three entity types, three entities and the
    parameters of an experiment; collaborators that always succeed. *)
Definition TEMPLATES_example : list (string * pyval) :=
  [("motes/Makefile", VDict ∅); ("motes/root.c", VDict ∅);
   ("motes/sensor.c", VDict ∅); ("motes/malicious.c", VDict ∅);
   ("Makefile", VDict ∅); ("script.js", VDict ∅);
   ("simulation.csc",
    VDict {[ "mote_types" :=
               VList [VDict {[ "name" := VStr "root" ]};
                      VDict {[ "name" := VStr "sensor" ]};
                      VDict {[ "name" := VStr "malicious" ]}] ]})].

Definition mote_example (i : Z) : pyval :=
  VDict (list_to_map
           [("id", VInt i); ("x", VFloat 1.5); ("y", VInt (2 * i))]).

Definition params_example : gmap string pyval :=
  list_to_map
    [("blocks", VList []);
     ("motes", VList [mote_example 0; mote_example 1; mote_example 2]);
     ("target", VStr "z1"); ("malicious_target", VStr "sky");
     ("duration", VInt 5); ("title", VStr "Flooding");
     ("goal", VStr ""); ("notes", VStr "");
     ("int_range", VInt 100); ("tx_range", VInt 50)].

Definition render_example (name : string) (kwargs : gmap string pyval)
    : result string := Ok name.

Definition open_example (file : list string) : result unit := Ok tt.

Definition write_example (file : list string) (text : string)
    : result unit := Ok tt.

Definition dump_example (file : list string)
    (index : list (pyval * (pyval * pyval))) : result string := Ok "{}".

Definition blocks_lookup_example (blocks : pyval) : result (pyval * pyval) :=
  Ok (VDict ∅, VDict ∅).

Definition define_block_example (constants : pyval) : pyval := VStr "".

Definition generate_motes_example (params : gmap string pyval)
    : result pyval := Ok (VList []).

(** Text in ASCII, on which only the letters [a] to [z] have an upper
    case. *)
Definition upper_ascii (c : ascii) : ascii :=
  let n := nat_of_ascii c in
  if (97 <=? n)%nat && (n <=? 122)%nat then ascii_of_nat (n - 32) else c.

Definition lower_ascii (c : ascii) : ascii :=
  let n := nat_of_ascii c in
  if (65 <=? n)%nat && (n <=? 90)%nat then ascii_of_nat (n + 32) else c.

Definition capitalize_example (s : string) : string :=
  match s with
  | EmptyString => EmptyString
  | String c s' =>
      String (upper_ascii c)
        (string_of_list_ascii (map lower_ascii (list_ascii_of_string s')))
  end.

(** Full-mode generation on the example. *)
Definition generation_example : result pyval * list output :=
  render_templates TEMPLATES_example render_example open_example
    write_example dump_example blocks_lookup_example define_block_example
    generate_motes_example capitalize_example ["exp"] false params_example
    [].

(** * The vocabulary of the further properties *)

(** The entries of a listed block, when the registry holds it as a
    dictionary. *)
Definition block_entries (available_blocks : list (string * json))
    (block : pyval) : list (string * json) :=
  match block_item available_blocks block with
  | Ok (JDict d) => d
  | _ => []
  end.

(** The entries of the listed blocks, in the order of the traversal. *)
Definition listed_entries (available_blocks : list (string * json))
    (blocks : list pyval) : list (string * json) :=
  flat_map (block_entries available_blocks) blocks.

Definition is_already_set (d : block_warning) : bool :=
  match d with AlreadySet _ _ _ => true | AlreadyReplaced _ _ _ => false end.

Section BlocksVocabulary.

Variable upper : string → string.
Variable chars : string → list string.

(** The constant entries among them. *)
Definition constant_entries (entries : list (string * json))
    : list (string * json) :=
  List.filter (λ e, is_constant upper e.1) entries.

(** A registry in the documented format: every block is a dictionary,
    and every replacement entry can be indexed and unpacked into a
    source and a destination line. *)
Definition replacement_ok (e : string * json) : bool :=
  is_constant upper e.1
  || (is_ok (json_first chars e.2) && is_ok (json_source chars e.2)).

Definition registry_ok (available_blocks : list (string * json)) : bool :=
  forallb (λ b, match b.2 with
                | JDict d => forallb replacement_ok d
                | _ => false
                end) available_blocks.

End BlocksVocabulary.

(** Text in ASCII, on which [upper] changes the letters [a] to [z] and
    a character is a byte. *)
Definition upper_example (s : string) : string :=
  string_of_list_ascii (map upper_ascii (list_ascii_of_string s)).

Definition chars_example (s : string) : list string :=
  map (λ c, String c EmptyString) (list_ascii_of_string s).

(** A registry whose blocks set the same constant and patch the same
    file. *)
Definition available_blocks_example : list (string * json) :=
  [("flooding",
    JDict [("RPL_CONF_DIS_INTERVAL", JInt 0);
           ("rpl-timers.c", JList [JStr "next_dis++;"; JStr "next_dis = 1;"])]);
   ("decreased-rank",
    JDict [("RPL_CONF_DIS_INTERVAL", JInt 5);
           ("RPL_CONF_MIN_HOPRANKINC", JInt 0);
           ("rpl-timers.c", JList [JStr "rpl_reset_dio_timer"; JStr ""])]);
   ("dis-suppression",
    JDict [("rpl-timers.c", JList [JStr "handle_dis_timer"; JStr ""])])].

(** The platforms accepted and the blocks known when the registry is
    [available_blocks_example]. *)
Definition known_blocks_example : gmap string pyval :=
  list_to_map
    [("flooding", VDict ∅); ("decreased-rank", VDict ∅);
     ("dis-suppression", VDict ∅)].

(** A configuration that lists a block twice and an unknown one. *)
Definition listed_blocks_example : state :=
  State {[ "malicious" := VDict {[ "building-blocks" :=
             VList [VStr "flooding"; VStr "sinkhole"; VStr "flooding"] ]} ]}
        [].

Definition two_blocks_example : list pyval :=
  [VStr "flooding"; VStr "decreased-rank"].

(** What the lookup of [two_blocks_example] gives. *)
Definition two_blocks_constants_example : list (string * json) :=
  [("RPL_CONF_DIS_INTERVAL", JInt 0); ("RPL_CONF_MIN_HOPRANKINC", JInt 0)].

Definition two_blocks_replacements_example : list (string * json) :=
  [("rpl-timers.c", JList [JStr "rpl_reset_dio_timer"; JStr ""])].

(** The parameter set built from [listed_blocks_example]. *)
Definition listed_blocks_params_example : gmap string pyval :=
  list_to_map
    [("motes", VNone); ("debug", VBool true);
     ("title", VStr "Default title"); ("goal", VStr "");
     ("notes", VStr ""); ("duration", VInt 300); ("n", VInt 10);
     ("repeat", VInt 1); ("target", VStr "z1");
     ("malicious_target", VStr "z1"); ("mtype", VStr "sensor");
     ("blocks", VList [VStr "flooding"; VStr "flooding"]);
     ("ext_lib", VNone); ("min_range", VFloat 20);
     ("tx_range", VFloat 50); ("int_range", VFloat 100);
     ("area_side", VFloat 200); ("max_range", VFloat 200)].

(** A computation that only appends to the log, and whose result,
    dictionary and messages do not depend on what was logged before. *)
Definition log_local {A} (m : M state A) : Prop :=
  ∀ d l,
    m (State d l)
    = ((m (State d [])).1,
       State (dictionary (m (State d [])).2) (l ++ log (m (State d [])).2)).

(** A computation that leaves alone a dictionary without [silent]. *)
Definition dictionary_stable {A} (m : M state A) : Prop :=
  ∀ s, dictionary s !! "silent" = None → dictionary (m s).2 = dictionary s.

(** The diagnostic of the first parameter [validated_parameters]
    validates. *)
Definition is_debug_diagnostic (d : diagnostic) : bool :=
  match d with
  | SetToDefault "simulation" "debug" (Some (Text "is not a boolean")) _ =>
      true
  | _ => false
  end.

(** A silenced configuration with two invalid values. *)
Definition silenced_example : state :=
  State (list_to_map
    [("silent", VBool true);
     ("simulation", VDict (list_to_map
        [("debug", VStr "yes"); ("duration", VInt (-5))]))]) [].

(** The keys of a parameter set, from the last one assigned. *)
Definition parameter_keys : list string :=
  ["max_range"; "area_side"; "int_range"; "tx_range"; "min_range";
   "ext_lib"; "blocks"; "mtype"; "malicious_target"; "target"; "repeat";
   "n"; "duration"; "notes"; "goal"; "title"; "debug"; "motes"].

(** The value the resolver reads in [section] before it turns to the
    registry of defaults. *)
Definition raw_value (dict : gmap string pyval) (section key : string)
    : result pyval :=
  attr_get (py_or (dict_get dict section) (VDict ∅)) key.

(** A simulation on [sky] with no target for the malicious mote. *)
Definition sky_example : state :=
  State {[ "simulation" := VDict {[ "target" := VStr "sky" ]} ]} [].

Definition sky_params_example : gmap string pyval :=
  list_to_map
    [("motes", VNone); ("debug", VBool true);
     ("title", VStr "Default title"); ("goal", VStr "");
     ("notes", VStr ""); ("duration", VInt 300); ("n", VInt 10);
     ("repeat", VInt 1); ("target", VStr "sky");
     ("malicious_target", VStr "z1"); ("mtype", VStr "sensor");
     ("blocks", VList []); ("ext_lib", VNone); ("min_range", VFloat 20);
     ("tx_range", VFloat 50); ("int_range", VFloat 100);
     ("area_side", VFloat 200); ("max_range", VFloat 200)].

(** A configuration that turns [debug] off and sets no duration. *)
Definition debug_off_example : state :=
  State {[ "simulation" := VDict {[ "debug" := VBool false ]} ]} [].

(** Two worlds in which a check runs alike: the same file tree, and
    the same content in the dictionary objects the check works on. *)
Definition alike (w1 : world) (ref1 : nat) (w2 : world) (ref2 : nat)
    : Prop :=
  tree w1 = tree w2
  ∧ content w1 ref1 = content w2 ref2
  ∧ (ref1 < length (heap w1))%nat
  ∧ (ref2 < length (heap w2))%nat.

(** Two runs with the same result that leave the same file tree. *)
Definition same_outcome {A} (a b : result A * world) : Prop :=
  a.1 = b.1 ∧ tree a.2 = tree b.2.

(** A tree that lacks a required entry of the schema [d] under [path],
    for a check without [create]: the folder is read (no entry [*]
    accepts it as it is), and either a key whose value is [False] (or
    an empty dictionary) is matched by no entry of the folder, or a
    nested key is matched by one entry, and no other, of the folder,
    and that folder lacks a required entry of the nested schema. *)
Inductive lacking (t : node)
    : list string → list (string * schema) → Prop :=
| lacking_here path d items k f :
    from_option schema_truthy false (files_get d "*") = false →
    os_listdir t path = Ok items →
    files_get d k = Some f →
    schema_truthy f = false →
    (∀ item, In item items → schema_match d item ≠ Some k) →
    lacking t path d
| lacking_below path d pre item post k sub :
    from_option schema_truthy false (files_get d "*") = false →
    os_listdir t path = Ok (pre ++ item :: post) →
    files_get d k = Some (SDict sub) →
    schema_match d item = Some k →
    (∀ item', In item' (pre ++ post) → schema_match d item' ≠ Some k) →
    lacking t (join path k) sub →
    lacking t path d.

(** The order of [sorted] on strings. *)
Definition str_le (a b : string) : Prop := String.leb a b = true.

(** A check that returned [True]. *)
Definition accepted (r : result bool) : bool :=
  match r with Ok true => true | _ => false end.

(** An entry of the experiment folder that [list_experiments] keeps: a
    folder, not hidden, whose structure the schema matcher accepts. *)
Definition conforming (EXPERIMENT_FOLDER : list string)
    (EXPERIMENT_STRUCTURE : nat)
    (remove_files : list string → string → node → result node)
    (w : world) (d : string) : bool :=
  os_isdir (tree w) (join EXPERIMENT_FOLDER d)
  && negb (startswith d ".")
  && accepted
       (check_structure EXPERIMENT_STRUCTURE remove_files
          (join EXPERIMENT_FOLDER d) None false false w).1.

(** A template that accepts anything, and a tree without the folder
    that is checked. *)
Definition open_schema_example : world :=
  World (Dir [("notes.txt", File)]) [[("*", SBool true)]].

(** An experiment folder with two experiments, a hidden folder, a
    folder that lacks the required file and a regular file. *)
Definition experiments_example : world :=
  World
    (Dir [("experiments",
           Dir [("b-exp", Dir [("simulation.csc", File)]);
                (".hidden", Dir [("simulation.csc", File)]);
                ("c-exp", Dir []);
                ("notes.txt", File);
                ("a-exp", Dir [("simulation.csc", File)])])])
    [[("simulation.csc", SBool false)]].

(** An experiment whose folder [data] is there and lacks the required
    [x]; beside it, a file the schema does not know. *)
Definition nested_file_example : world :=
  World (Dir [("exp", Dir [("notes.txt", File); ("data", Dir [])])])
        [[("data", SDict [("x", SBool false)])]].

(** A Contiki folder with two platforms and a regular file beside
    them. *)
Definition contiki_example : world :=
  World
    (Dir [("contiki",
           Dir [("platform",
                 Dir [("z1", Dir []); ("README", File); ("sky", Dir [])])])])
    [].

(** What [t'] keeps of [t]: every path of [t] is a path of [t'], a file
    where it was a file and a folder where it was a folder. *)
Definition kept (t t' : node) : Prop :=
  ∀ q,
    match stat t q with
    | Some File => stat t' q = Some File
    | Some (Dir _) => os_isdir t' q = true
    | None => True
    end.


(** An entry of the experiment folder that [list_campaigns] keeps: a
    regular file named [*.json] whose text parses. *)
Definition campaign (EXPERIMENT_FOLDER : list string)
    (read : list string → result string) (loads : string → result pyval)
    (w : world) (f : string) : bool :=
  os_isfile (tree w) (join EXPERIMENT_FOLDER f)
  && endswith f ".json"
  && accepted (is_valid_campaign read loads (join EXPERIMENT_FOLDER f)).

(** An experiment folder with two campaigns, a file that does not
    parse, a text file and a folder; every file reads as its own name,
    and a text parses if it is not [broken.json]. *)
Definition campaigns_example : world :=
  World
    (Dir [("experiments",
           Dir [("rank.json", File); ("broken.json", File);
                ("notes.txt", File); ("old.json", Dir []);
                ("flood.json", File)])])
    [].

Definition read_example (path : list string) : result string :=
  match last path with
  | Some name => Ok name
  | None => Raise OSError
  end.

Definition loads_example (text : string) : result pyval :=
  if String.eqb text "broken.json" then Raise ValueError else Ok (VDict ∅).

(** A file name with the [.json] suffix, added when it is missing. *)
Definition with_json (s : string) : string :=
  if endswith s ".json" then s else String.append s ".json".

(** * Properties of the parameter resolver *)

Section ResolverFacts.

Variable DEFAULTS : gmap string pyval.

Lemma get_parameter_loop_dictionary silent section key fs l buffer s :
  dictionary (get_parameter_loop silent section key fs l buffer s).2
  = dictionary s.
Proof.
  revert buffer s.
  induction l as [|p l IH]; intros buffer s; simpl; [done|].
  unfold bind, lift; simpl.
  destruct (list_item fs 0) as [test|e]; simpl; [|done].
  destruct (test p) as [c|e]; simpl; [|done].
  destruct c; simpl; [apply IH|].
  destruct (truthy silent); simpl; rewrite IH; done.
Qed.

Lemma get_parameter_loop_silent silent section key fs l buffer s :
  truthy silent = true →
  log (get_parameter_loop silent section key fs l buffer s).2 = log s.
Proof.
  intros Hs. revert buffer s.
  induction l as [|p l IH]; intros buffer s; simpl; [done|].
  unfold bind, lift; simpl.
  destruct (list_item fs 0) as [test|e]; simpl; [|done].
  destruct (test p) as [c|e]; simpl; [|done].
  destruct c; simpl; [apply IH|].
  rewrite Hs; simpl. apply IH.
Qed.

Lemma get_parameter_loop_filter silent section key f fs test l buffer s :
  Forall (λ x, f x = Ok (test x)) l →
  get_parameter_loop silent section key (f :: fs) l buffer s
  = (Ok (buffer ++ List.filter test l),
     State (dictionary s)
       (log s ++
        if truthy silent then []
        else map (Removed section key)
               (List.filter (λ x, negb (test x)) l))).
Proof.
  intros Hf. revert buffer s.
  induction Hf as [|p l Hp _ IH]; intros buffer s; simpl.
  - unfold ret. rewrite app_nil_r. destruct (truthy silent), s; simpl.
    all: by rewrite app_nil_r.
  - unfold bind, lift; simpl. rewrite Hp; simpl.
    destruct (test p); simpl.
    + rewrite IH. by rewrite <- app_assoc.
    + destruct (truthy silent); simpl; rewrite IH; simpl; [done|].
      by rewrite <- app_assoc.
Qed.

(** The dictionary a call leaves behind, whatever its outcome. *)
Lemma get_parameter_dictionary section key condition reason default s :
  dictionary
    (get_parameter DEFAULTS section key condition reason default s).2
  = delete "silent" (dictionary s).
Proof.
  unfold get_parameter, bind, pop, get, lift, ret, warning; simpl.
  destruct (attr_get _ key) as [raw|e]; simpl; [|done].
  set (param := if _ && _ then _ else _).
  destruct condition as [f|fs].
  - destruct (f param) as [c|e]; simpl; [|done].
    destruct c; simpl; [done|].
    destruct (truthy _); simpl;
      destruct (dict_item DEFAULTS key); simpl; done.
  - destruct param; simpl; try done.
    match goal with
    | |- context [get_parameter_loop ?a ?b ?c ?d ?e ?f ?g] =>
        pose proof (get_parameter_loop_dictionary a b c d e f g) as Hd;
        destruct (get_parameter_loop a b c d e f g) as [[buf|e'] s']
    end; simpl in *; done.
Qed.

(** The equation of a scalar call. *)
Lemma get_parameter_scalar section key f reason default s :
  get_parameter DEFAULTS section key (CondFn f) reason default s
  = match looked_up DEFAULTS (delete "silent" (dictionary s))
            section key default with
    | Ok param =>
        match f param with
        | Ok true => (Ok param, after_call s [])
        | Ok false =>
            match DEFAULTS !! key with
            | Some d => (Ok d, after_call s [SetToDefault section key reason d])
            | None => (Raise KeyError, after_call s [])
            end
        | Raise e => (Raise e, after_call s [])
        end
    | Raise e => (Raise e, after_call s [])
    end.
Proof.
  unfold get_parameter, looked_up, after_call, silent_flag.
  unfold bind, pop, get, lift, ret, warning, dict_item; simpl.
  assert (Hnil : ∀ b : bool, log s ++ (if b then [] else []) = log s)
    by (intros []; apply app_nil_r).
  destruct (attr_get _ key) as [raw|e]; simpl; [|by rewrite Hnil].
  destruct (f _) as [[|]|e]; simpl; try by rewrite Hnil.
  destruct (truthy _); simpl; destruct (DEFAULTS !! key); simpl;
    rewrite ?app_nil_r; done.
Qed.

(** The equation of a list call. *)
Lemma get_parameter_list section key fs reason default s :
  get_parameter DEFAULTS section key (CondList fs) reason default s
  = match looked_up DEFAULTS (delete "silent" (dictionary s))
            section key default with
    | Ok (VList l) =>
        let r := get_parameter_loop (silent_flag s) section key fs l []
                   (State (delete "silent" (dictionary s)) (log s)) in
        (match r.1 with Ok buffer => Ok (VList buffer) | Raise e => Raise e end,
         r.2)
    | Ok _ => (Raise TypeError, after_call s [])
    | Raise e => (Raise e, after_call s [])
    end.
Proof.
  unfold get_parameter, looked_up, after_call, silent_flag.
  unfold bind, pop, get, lift, ret; simpl.
  assert (Hnil : ∀ b : bool, log s ++ (if b then [] else []) = log s)
    by (intros []; apply app_nil_r).
  destruct (attr_get _ key) as [raw|e]; simpl; [|by rewrite Hnil].
  destruct (if _ && _ then _ else _); simpl; try by rewrite Hnil.
  destruct (get_parameter_loop _ _ _ _ _ _ _) as [[buf|e] s']; done.
Qed.

End ResolverFacts.

Lemma filter_sublist {A} (test : A → bool) (l : list A) :
  sublist (List.filter test l) l.
Proof.
  induction l as [|x l IH]; simpl; [constructor|].
  destruct (test x); by constructor.
Qed.

(** ** C4 *)

(** C4: in scalar mode a looked-up value that fails the predicate is
    replaced by exactly the registered default [DEFAULTS[key]], and
    exactly one diagnostic is logged unless the call is silenced;
    consequently a value returned by a scalar call satisfies the
    predicate or is the registered default of its key. *)
Theorem scalar_mode_default_substitution
    (DEFAULTS : gmap string pyval) (section key : string)
    (f : pyval → result bool) (reason : option text) (default : pyval)
    (s : state) :
  (∀ param d,
     looked_up DEFAULTS (delete "silent" (dictionary s)) section key default
       = Ok param →
     f param = Ok false →
     DEFAULTS !! key = Some d →
     get_parameter DEFAULTS section key (CondFn f) reason default s
     = (Ok d,
        State (delete "silent" (dictionary s))
          (log s ++ if truthy (silent_flag s) then []
                    else [SetToDefault section key reason d])))
  ∧ (∀ v s',
       get_parameter DEFAULTS section key (CondFn f) reason default s
         = (Ok v, s') →
       f v = Ok true ∨ DEFAULTS !! key = Some v).
Proof.
  split.
  - intros param d Hp Hf Hd.
    rewrite get_parameter_scalar, Hp, Hf, Hd. done.
  - intros v s'. rewrite get_parameter_scalar.
    destruct (looked_up _ _ _ _ _) as [param|e]; [|done].
    destruct (f param) as [[|]|e] eqn:Hf; [| |done].
    + intros [= <- _]. by left.
    + destruct (DEFAULTS !! key) as [d|]; [|done].
      intros [= <- _]. by right.
Qed.

Lemma scalar_mode_default_substitution_witness :
  get_parameter DEFAULTS_example "simulation" "duration"
    (CondFn positive_int) (Some (Text "is not an integer greater than 0"))
    VNone duration_example
  = (Ok (VInt 300),
     State (delete "silent" (dictionary duration_example))
       (log duration_example ++
        if truthy (silent_flag duration_example) then []
        else [SetToDefault "simulation" "duration"
                (Some (Text "is not an integer greater than 0"))
                (VInt 300)])).
Proof.
  refine (proj1 (scalar_mode_default_substitution DEFAULTS_example
                   "simulation" "duration" positive_int
                   (Some (Text "is not an integer greater than 0"))
                   VNone duration_example)
            (VInt (-5)) (VInt 300) _ _ _);
    vm_compute; reflexivity.
Defined.

(** ** C5 *)

(** C5: in list mode (a one-element condition list and a looked-up
    list) the result is the input list filtered by the element test, in
    order: a subsequence holding exactly the passing elements, with no
    default substituted even when nothing passes; one diagnostic is
    logged per dropped element unless the call is silenced. *)
Theorem list_mode_filters
    (DEFAULTS : gmap string pyval) (section key : string)
    (f : pyval → result bool) (test : pyval → bool)
    (reason : option text) (default : pyval) (s : state) (l : list pyval) :
  looked_up DEFAULTS (delete "silent" (dictionary s)) section key default
    = Ok (VList l) →
  Forall (λ x, f x = Ok (test x)) l →
  get_parameter DEFAULTS section key (CondList [f]) reason default s
    = (Ok (VList (List.filter test l)),
       State (delete "silent" (dictionary s))
         (log s ++ if truthy (silent_flag s) then []
                   else map (Removed section key)
                          (List.filter (λ x, negb (test x)) l)))
  ∧ sublist (List.filter test l) l
  ∧ (∀ x, x ∈ List.filter test l ↔ x ∈ l ∧ test x = true).
Proof.
  intros Hp Hf. split; [|split].
  - rewrite get_parameter_list, Hp.
    rewrite (get_parameter_loop_filter _ _ _ _ _ test); done.
  - apply filter_sublist.
  - intros x. rewrite !list_elem_of_In. apply filter_In.
Qed.

Lemma list_mode_filters_witness :
  get_parameter DEFAULTS_example "malicious" "building-blocks"
    (CondList [fun x => py_in_dict x blocks_example]) None VNone
    blocks_config_example
  = (Ok (VList [VStr "b1"; VStr "b1"]),
     State (dictionary blocks_config_example)
       [Removed "malicious" "building-blocks" (VStr "zz");
        Removed "malicious" "building-blocks" (VInt 3)]).
Proof.
  refine (eq_trans (proj1 (list_mode_filters DEFAULTS_example
    "malicious" "building-blocks"
    (fun x => py_in_dict x blocks_example) is_b1 None VNone
    blocks_config_example
    [VStr "b1"; VStr "zz"; VInt 3; VStr "b1"] _ _)) _).
  - vm_compute; reflexivity.
  - repeat constructor.
  - vm_compute; reflexivity.
Defined.

(** ** C9 *)

(** C9: whatever its outcome, a call removes [silent] from the
    dictionary (a later call no longer sees it), leaves every other
    entry as it was, and logs nothing when the popped flag was true, in
    scalar and in list mode alike. *)
Theorem get_parameter_consumes_silent
    (DEFAULTS : gmap string pyval) (section key : string)
    (condition : condition) (reason : option text) (default : pyval)
    (s : state) :
  let s' :=
    (get_parameter DEFAULTS section key condition reason default s).2 in
  dictionary s' = delete "silent" (dictionary s)
  ∧ dictionary s' !! "silent" = None
  ∧ silent_flag s' = VBool false
  ∧ (∀ k, k ≠ "silent" → dictionary s' !! k = dictionary s !! k)
  ∧ (truthy (silent_flag s) = true → log s' = log s).
Proof.
  intros s'. subst s'.
  pose proof (get_parameter_dictionary DEFAULTS section key condition
                reason default s) as Hd.
  split; [done|]. split; [by rewrite Hd, lookup_delete_eq|].
  split; [unfold silent_flag; by rewrite Hd, lookup_delete_eq|].
  split; [intros k Hk; by rewrite Hd, lookup_delete_ne|].
  intros Hs. destruct condition as [f|fs].
  - rewrite get_parameter_scalar.
    destruct (looked_up _ _ _ _ _) as [param|e];
      [destruct (f param) as [[|]|e]; [| destruct (DEFAULTS !! key) |] |];
      simpl; rewrite Hs; apply app_nil_r.
  - rewrite get_parameter_list.
    destruct (looked_up _ _ _ _ _) as [[]|e];
      simpl; rewrite ?Hs, ?app_nil_r; try done.
    by rewrite get_parameter_loop_silent.
Qed.

(** * Properties of the parameter set builder *)

Lemma bind_unfold {S A B} (m : M S A) (k : A → M S B) (s : S) :
  bind m k s
  = match m s with
    | (Ok a, s') => k a s'
    | (Raise e, s') => (Raise e, s')
    end.
Proof. reflexivity. Qed.

Lemma get_parameter_keeps DEFAULTS section key condition reason default
    s r s1 (k : string) :
  get_parameter DEFAULTS section key condition reason default s = (r, s1) →
  k ≠ "silent" →
  dictionary s1 !! k = dictionary s !! k.
Proof.
  intros Heq Hk.
  pose proof (get_parameter_dictionary DEFAULTS section key condition
                reason default s) as Hd.
  rewrite Heq in Hd; simpl in Hd. by rewrite Hd, lookup_delete_ne.
Qed.

(** One step backwards through a [bind] that ended in [Ok]. *)
Ltac inv_step H :=
  rewrite bind_unfold in H;
  lazymatch type of H with
  | (match ?m ?s with _ => _ end) = _ =>
      let v := fresh "v" in
      let e := fresh "e" in
      let s1 := fresh "s" in
      let Hs := fresh "Hstep" in
      destruct (m s) as [[v|e] s1] eqn:Hs;
        [cbv beta iota zeta in H | discriminate H]
  end.

Lemma truthy_dict_lookup (d : gmap string pyval) (k : string) (v : pyval) :
  d !! k = Some v → truthy (VDict d) = true.
Proof.
  intros Hk. simpl. destruct (size d) eqn:Hsz; [|done].
  apply map_size_empty_inv in Hsz. subst d. by rewrite lookup_empty in Hk.
Qed.

(** The raw value wins the look-up when it is set to a true value. *)
Lemma looked_up_raw DEFAULTS dict section key default sec x :
  dict !! section = Some (VDict sec) →
  sec !! key = Some x →
  truthy x = true →
  looked_up DEFAULTS dict section key default = Ok x.
Proof.
  intros Hsec Hkey Hx. unfold looked_up.
  assert (Hg : dict_get dict section = VDict sec)
    by (unfold dict_get; by rewrite Hsec).
  rewrite Hg. unfold py_or at 1.
  rewrite (truthy_dict_lookup _ _ _ Hkey).
  assert (Ha : attr_get (VDict sec) key = Ok x)
    by (unfold attr_get, dict_get; by rewrite Hkey).
  rewrite Ha. unfold py_or. rewrite Hx. by destruct x.
Qed.

(** ** C1 *)

(** C1, as the code has it: an interference range explicitly set to a
    number below the resolved transmission range is replaced by the
    registered default [DEFAULTS["interference-range"]], whatever twice
    the transmission range is. *)
Theorem interference_range_below_tx
    (DEFAULTS : gmap string pyval) (platforms : result (list string))
    (blocks : result (gmap string pyval)) (path_exists : pyval → result bool)
    (s s' : state) (params sim : gmap string pyval) (x tx : pyval) :
  validated_parameters DEFAULTS platforms blocks path_exists s
    = (Ok params, s') →
  dictionary s !! "simulation" = Some (VDict sim) →
  sim !! "interference-range" = Some x →
  truthy x = true →
  is_number x = true →
  params !! "tx_range" = Some tx →
  py_ge x tx = Ok false →
  is_Some (DEFAULTS !! "interference-range")
  ∧ params !! "int_range" = DEFAULTS !! "interference-range".
Proof.
  intros H Hsim Hx Htruthy Hnum Htx Hbelow.
  unfold validated_parameters in H.
  do 21 inv_step H.
  unfold ret in H. injection H as <- <-.
  repeat match goal with
  | Hs : get _ _ = _ |- _ => unfold get in Hs; injection Hs as <- <-
  | Hs : lift _ _ = _ |- _ => unfold lift in Hs; injection Hs as Hs <-
  end.
  repeat match goal with
  | Hs : get_parameter _ _ _ _ _ _ ?s0 = (_, ?s1),
    Hl : dictionary ?s0 !! "simulation" = Some _ |- _ =>
      lazymatch goal with
      | _ : dictionary s1 !! "simulation" = Some _ |- _ => fail
      | _ =>
          pose proof (eq_trans
            (get_parameter_keeps _ _ _ _ _ _ _ _ _ "simulation" Hs
               ltac:(done)) Hl)
      end
  end.
  rewrite !lookup_insert_ne in Htx by done.
  rewrite lookup_insert_eq in Htx. injection Htx as ->.
  match goal with
  | Hs : get_parameter _ _ "interference-range" _ _ _ ?s0 = _,
    Hl : dictionary ?s0 !! "simulation" = Some _ |- _ =>
      rewrite get_parameter_scalar in Hs;
      rewrite (looked_up_raw _ _ _ _ _ sim x) in Hs;
        [ | by rewrite lookup_delete_ne | done | done ];
      rewrite Hnum, Hbelow in Hs; simpl in Hs;
      destruct (DEFAULTS !! "interference-range") as [d|] eqn:Hd;
        [ injection Hs as <- _ | discriminate Hs ]
  end.
  split; [by eexists|].
  rewrite !lookup_insert_ne by done. by rewrite lookup_insert_eq.
Qed.

Lemma interference_range_below_tx_witness :
  is_Some (DEFAULTS_example !! "interference-range")
  ∧ geometry_params_example !! "int_range"
    = DEFAULTS_example !! "interference-range".
Proof.
  refine (interference_range_below_tx DEFAULTS_example (Ok platforms_example)
            (Ok blocks_example) exists_example geometry_example
            (validated_parameters DEFAULTS_example (Ok platforms_example)
               (Ok blocks_example) exists_example geometry_example).2
            geometry_params_example
            (list_to_map
                 [("minimum-distance-from-root", VInt 10);
                  ("transmission-range", VInt 40);
                  ("interference-range", VInt 30)])
            (VInt 30) (VInt 40) _ _ _ _ _ _ _);
    vm_compute; reflexivity.
Defined.

(** C1 as stated fails: with minimum distance 10 and transmission range
    40, an interference range of 30 resolves to the registered default
    100.0, while twice the transmission range is 80; were the registry
    without a default for the key, the build would end in [KeyError]. *)
Lemma interference_range_not_twice_tx :
  let r := validated_parameters DEFAULTS_example (Ok platforms_example)
             (Ok blocks_example) exists_example geometry_example in
  let r' := validated_parameters
              (delete "interference-range" DEFAULTS_example)
              (Ok platforms_example) (Ok blocks_example) exists_example
              geometry_example in
  param_of r "min_range" = Some (VInt 10)
  ∧ param_of r "tx_range" = Some (VInt 40)
  ∧ py_double (VInt 40) = Ok (VInt 80)
  ∧ param_of r "int_range" = Some (VFloat 100)
  ∧ py_compare (VFloat 100) (VInt 80) = Ok (Some Gt)
  ∧ param_of r "int_range" ≠ Some (VInt 80)
  ∧ r'.1 = Raise KeyError.
Proof. vm_compute. repeat split; done. Qed.

(** ** C3 *)

(** C3 as stated fails: a section that is not a mapping has no [get]
    ([AttributeError]), and a building-blocks entry that is a string,
    not a list, makes the resolver call its condition list
    ([TypeError]); either exception aborts the build.  So does, on a
    configuration without any entry, the [OSError] of
    [get_available_platforms()] when the platform folder cannot be
    listed, and, once a building block is listed, the exception of
    [get_building_blocks()] when [building-blocks.json] cannot be
    read. *)
Lemma build_raises_on_ill_typed_configuration :
  (validated_parameters DEFAULTS_example (Ok platforms_example)
     (Ok blocks_example) exists_example bad_section_example).1
  = Raise AttributeError
  ∧ (get_parameter DEFAULTS_example "malicious" "building-blocks"
       (CondList [fun x => py_in_dict x blocks_example]) None VNone
       bad_blocks_example).1 = Raise TypeError
  ∧ (validated_parameters DEFAULTS_example (Ok platforms_example)
       (Ok blocks_example) exists_example bad_blocks_example).1
    = Raise TypeError
  ∧ (validated_parameters DEFAULTS_example (Raise OSError)
       (Ok blocks_example) exists_example (State ∅ [])).1
    = Raise OSError
  ∧ (validated_parameters DEFAULTS_example (Ok platforms_example)
       (Raise OSError) exists_example blocks_config_example).1
    = Raise OSError.
Proof. repeat split; vm_compute; reflexivity. Qed.

Lemma looked_up_readable DEFAULTS dict section key default :
  section_readable dict section = true →
  ∃ param, looked_up DEFAULTS dict section key default = Ok param.
Proof.
  unfold section_readable, looked_up, py_or. intros Hr.
  destruct (truthy (dict_get dict section)) eqn:Ht; simpl in Hr.
  - destruct (dict_get dict section); try done. simpl. by eexists.
  - simpl. by eexists.
Qed.

Lemma scalar_call_ok DEFAULTS dict section key f reason default s :
  delete "silent" (dictionary s) = dict →
  section_readable dict section = true →
  is_Some (DEFAULTS !! key) →
  (∀ param, looked_up DEFAULTS dict section key default = Ok param →
            is_ok (f param) = true) →
  ∃ param v s1,
    looked_up DEFAULTS dict section key default = Ok param
    ∧ get_parameter DEFAULTS section key (CondFn f) reason default s
      = (Ok v, s1)
    ∧ delete "silent" (dictionary s1) = dict
    ∧ ((f param = Ok true ∧ v = param)
       ∨ (f param = Ok false ∧ DEFAULTS !! key = Some v)).
Proof.
  intros <- Hr [d Hd] Hf.
  destruct (looked_up_readable DEFAULTS _ section key default Hr)
    as [param Hp].
  specialize (Hf param Hp).
  rewrite get_parameter_scalar, Hp.
  destruct (f param) as [[|]|e] eqn:Hfp; [| |done].
  - exists param, param. eexists.
    split; [done|]. split; [done|]. split; [|by left].
    simpl. apply delete_delete_eq.
  - exists param, d. eexists. rewrite Hd.
    split; [done|]. split; [done|]. split; [|by right].
    simpl. apply delete_delete_eq.
Qed.

Lemma list_call_ok DEFAULTS dict section key f reason default s l :
  delete "silent" (dictionary s) = dict →
  looked_up DEFAULTS dict section key default = Ok (VList l) →
  Forall (λ x, is_ok (f x) = true) l →
  ∃ v s1,
    get_parameter DEFAULTS section key (CondList [f]) reason default s
      = (Ok v, s1)
    ∧ delete "silent" (dictionary s1) = dict.
Proof.
  intros <- Hp Hf.
  rewrite get_parameter_list, Hp.
  rewrite (get_parameter_loop_filter _ _ _ _ _
             (λ x, match f x with Ok b => b | Raise _ => false end)).
  - simpl. do 2 eexists. split; [done|]. simpl. apply delete_delete_eq.
  - eapply Forall_impl; [exact Hf|]. intros x Hx; simpl in Hx.
    by destruct (f x).
Qed.

Lemma py_gt_ok x y :
  is_number x = true → is_number y = true → is_ok (py_gt x y) = true.
Proof.
  unfold is_number, py_gt, py_compare.
  by destruct (as_number x), (as_number y).
Qed.

Lemma py_ge_ok x y :
  is_number x = true → is_number y = true → is_ok (py_ge x y) = true.
Proof.
  unfold is_number, py_ge, py_compare.
  by destruct (as_number x), (as_number y).
Qed.

Lemma py_and_ok (a : bool) (b : result bool) :
  (a = true → is_ok b = true) → is_ok (py_and a b) = true.
Proof. destruct a; simpl; auto. Qed.

Lemma py_and_true (a : bool) (b : result bool) :
  py_and a b = Ok true → a = true.
Proof. by destruct a. Qed.

Lemma float_range_number v : float_range v = true → is_number v = true.
Proof. unfold float_range, is_number. by destruct (as_number v). Qed.

Lemma is_int_number v : is_int v = true → is_number v = true.
Proof. by destruct v. Qed.

Lemma py_double_ok v : is_number v = true → is_ok (py_double v) = true.
Proof. by destruct v. Qed.

Lemma format_f_ok template v :
  float_range v = true → is_ok (format_f template v) = true.
Proof.
  unfold float_range, format_f.
  destruct v; simpl; try done; intros H;
    match goal with |- context [float_of_Z ?z] =>
      by destruct (float_of_Z z) end.
Qed.

Lemma py_sqrt2_times_ok v :
  float_range v = true → ∃ f, py_sqrt2_times v = Ok (VFloat f).
Proof.
  unfold float_range, py_sqrt2_times.
  destruct (as_number v) as [n|]; [|done].
  destruct (float_of_number n); [|done]. by eexists.
Qed.

(** One step forwards through a scalar call, leaving the side
    conditions of [scalar_call_ok] that are not among the hypotheses. *)
Ltac scalar_step :=
  rewrite bind_unfold;
  lazymatch goal with
  | |- is_ok (match get_parameter ?D ?sec ?key (CondFn ?f) ?reason ?dflt ?s
              with _ => _ end).1 = true =>
      let param := fresh "param" in
      let v := fresh "v" in
      let s1 := fresh "s" in
      let Hl := fresh "Hl" in
      let Heq := fresh "Heq" in
      let Hd := fresh "Hd" in
      let Hp := fresh "Hp" in
      destruct (scalar_call_ok D _ sec key f reason dflt s
                  ltac:(eassumption) ltac:(eassumption)
                  ltac:(eassumption))
        as (param & v & s1 & Hl & Heq & Hd & Hp);
      [ | rewrite Heq; cbv beta iota zeta; clear Heq ]
  end.

Lemma validated_parameters_ok
    (DEFAULTS : gmap string pyval) (platforms : result (list string))
    (blocks : result (gmap string pyval)) (path_exists : pyval → result bool)
    (s : state) (dict : gmap string pyval) :
  delete "silent" (dictionary s) = dict →
  section_readable dict "simulation" = true →
  section_readable dict "malicious" = true →
  Forall (λ k, is_Some (DEFAULTS !! k)) scalar_keys →
  float_range (dict_get DEFAULTS "minimum-distance-from-root") = true →
  is_number (dict_get DEFAULTS "transmission-range") = true →
  is_ok platforms = true →
  (∃ l, looked_up DEFAULTS dict "malicious" "building-blocks" VNone
          = Ok (VList l)
        ∧ Forall (λ x, hashable x = true) l
        ∧ (l ≠ [] → is_ok blocks = true)) →
  (∀ v, looked_up DEFAULTS dict "malicious" "external-library" VNone
          = Ok v →
        is_none v = false → is_ok (path_exists v) = true) →
  (∀ v, looked_up DEFAULTS dict "simulation" "minimum-distance-from-root"
          VNone = Ok v →
        is_number v = true → float_range v = true) →
  is_ok (validated_parameters DEFAULTS platforms blocks path_exists s).1
  = true.
Proof.
  intros Hdict Hsim Hmal Hreg Hmin Htx Hplat (l & Hblocks & Hhash & Hreg')
    Hext Hraw.
  unfold scalar_keys in Hreg. rewrite !Forall_cons in Hreg.
  decompose [and] Hreg. clear Hreg.
  unfold validated_parameters.
  rewrite bind_unfold. unfold get at 1. cbv beta iota zeta.
  (* debug, title, goal, notes *)
  do 4 (scalar_step; [done|]).
  (* duration, number-motes, repeat *)
  do 3 (scalar_step;
        [intros x _; apply py_and_ok; intros Hx;
         apply py_gt_ok; [by apply is_int_number | done]|]).
  (* target, malicious target, type *)
  do 2 (scalar_step;
        [intros x _; unfold is_platform; by destruct platforms|]).
  scalar_step; [done|].
  (* building blocks *)
  rewrite bind_unfold.
  lazymatch goal with
  | |- context [get_parameter ?D ?sec ?key (CondList [?f]) ?reason ?dflt ?s] =>
      destruct (list_call_ok D dict sec key f reason dflt s l
                  ltac:(assumption) Hblocks) as (vb & sb & Heq & Hdb);
      [ destruct l as [|x0 l0]; [constructor|];
        specialize (Hreg' ltac:(done)); unfold is_block;
        destruct blocks as [known|]; [|done];
        eapply Forall_impl; [exact Hhash|]; by intros []
      | rewrite Heq; cbv beta iota zeta; clear Heq ]
  end.
  (* external library *)
  scalar_step.
  { intros x Hx. destruct (is_none x) eqn:Hn; [done|]. by apply Hext. }
  (* minimum distance *)
  scalar_step.
  { intros x _. apply py_and_ok. intros Hx. by apply py_gt_ok. }
  assert (Hv : float_range v10 = true).
  { destruct Hp10 as [[Hf ->]|[_ Hf]].
    - apply Hraw; [done|]. by apply py_and_true in Hf.
    - unfold dict_get in Hmin. by rewrite Hf in Hmin. }
  pose proof (float_range_number _ Hv) as Hvn.
  (* transmission range *)
  scalar_step.
  { intros x _. apply py_and_ok. intros Hx. by apply py_gt_ok. }
  assert (Ht : is_number v11 = true).
  { destruct Hp11 as [[Hf ->]|[_ Hf]].
    - by apply py_and_true in Hf.
    - unfold dict_get in Htx. by rewrite Hf in Htx. }
  (* interference range *)
  rewrite bind_unfold. unfold lift at 1.
  pose proof (py_double_ok _ Ht) as Htw.
  destruct (py_double v11) as [twice|]; [|done]. cbv beta iota zeta.
  scalar_step.
  { intros x _. apply py_and_ok. intros Hx. by apply py_ge_ok. }
  (* area side *)
  rewrite bind_unfold. unfold lift at 1.
  pose proof (format_f_ok
    "is not an integer or a float greater or equal to sqrt(2)*{:.0f}"
    _ Hv) as Hfmt.
  destruct (format_f _ v10) as [reason|]; [|done]. cbv beta iota zeta.
  scalar_step.
  { intros x _. destruct (is_number x) eqn:Hx; [|done].
    destruct (py_sqrt2_times_ok _ Hv) as [bound ->].
    by apply py_ge_ok. }
  (* maximum range *)
  rewrite bind_unfold. unfold lift at 1.
  pose proof (format_f_ok
    "is not an integer or a float greater or equal to {:.0f}"
    _ Hv) as Hfmt'.
  destruct (format_f _ v10) as [reason'|]; [|done]. cbv beta iota zeta.
  scalar_step.
  { intros x _. apply py_and_ok. intros Hx. by apply py_ge_ok. }
  done.
Qed.

(** C3, as the code has it: the build returns, degrading invalid values
    to defaults and filtering lists, for every configuration whose
    sections are mappings (or absent or falsy), whose building blocks
    resolve to a list of hashable entries, whose external library is
    accepted by [os.path.exists], whose minimum distance is within the
    float range, for a registry holding a default for every scalar
    key, numeric for the two ranges the later predicates compare with,
    and when the calls the predicates make return:
    [get_available_platforms()], and [get_building_blocks()] if a
    building block is listed. *)
Theorem build_returns_on_well_typed_configuration
    (DEFAULTS : gmap string pyval) (platforms : result (list string))
    (blocks : result (gmap string pyval))
    (path_exists : pyval → result bool) (s : state) :
  let dict := delete "silent" (dictionary s) in
  section_readable dict "simulation" = true →
  section_readable dict "malicious" = true →
  Forall (λ k, is_Some (DEFAULTS !! k)) scalar_keys →
  float_range (dict_get DEFAULTS "minimum-distance-from-root") = true →
  is_number (dict_get DEFAULTS "transmission-range") = true →
  is_ok platforms = true →
  (∃ l, looked_up DEFAULTS dict "malicious" "building-blocks" VNone
          = Ok (VList l)
        ∧ Forall (λ x, hashable x = true) l
        ∧ (l ≠ [] → is_ok blocks = true)) →
  (∀ v, looked_up DEFAULTS dict "malicious" "external-library" VNone
          = Ok v →
        is_none v = false → is_ok (path_exists v) = true) →
  (∀ v, looked_up DEFAULTS dict "simulation" "minimum-distance-from-root"
          VNone = Ok v →
        is_number v = true → float_range v = true) →
  ∃ params s',
    validated_parameters DEFAULTS platforms blocks path_exists s
    = (Ok params, s').
Proof.
  intros dict Hsim Hmal Hreg Hmin Htx Hplat Hblocks Hext Hraw.
  pose proof (validated_parameters_ok DEFAULTS platforms blocks
                path_exists s dict eq_refl Hsim Hmal Hreg Hmin Htx Hplat
                Hblocks Hext Hraw) as Hok.
  destruct (validated_parameters _ _ _ _ s) as [[params|e] s'];
    [by exists params, s' | done].
Qed.

Lemma build_returns_on_well_typed_configuration_witness :
  ∃ params s',
    validated_parameters DEFAULTS_example (Ok platforms_example) (Ok blocks_example)
      exists_example degraded_example
    = (Ok params, s').
Proof.
  refine (build_returns_on_well_typed_configuration DEFAULTS_example
            (Ok platforms_example) (Ok blocks_example) exists_example
            degraded_example _ _ _ _ _ _ _ _ _).
  - vm_compute; reflexivity.
  - vm_compute; reflexivity.
  - repeat (constructor; [eexists; vm_compute; reflexivity|]).
    constructor.
  - vm_compute; reflexivity.
  - vm_compute; reflexivity.
  - reflexivity.
  - exists [VStr "b1"; VStr "zz"]. split; [vm_compute; reflexivity|].
    split; [repeat constructor|reflexivity].
  - intros v Hv. vm_compute in Hv. injection Hv as <-. discriminate.
  - intros v Hv. vm_compute in Hv. injection Hv as <-.
    intros _. vm_compute; reflexivity.
Defined.

(** * Properties of the schema matcher *)

(** ** File names and their stems *)

Lemma rfind_from_absent c s i last :
  occurs c s = false → rfind_from c s i last = last.
Proof.
  revert i last. induction s as [|a s IH]; intros i last; simpl; [done|].
  intros [Ha Hs]%orb_false_iff. rewrite Ha. by apply IH.
Qed.

Lemma rfind_from_append c s1 s2 i last :
  rfind_from c (String.append s1 s2) i last
  = rfind_from c s2 (i + Z.of_nat (String.length s1))
      (rfind_from c s1 i last).
Proof.
  revert i last. induction s1 as [|a s1 IH]; intros i last; simpl.
  - by rewrite Z.add_0_r.
  - rewrite IH. f_equal. lia.
Qed.

Lemma splitext_scan_shift a p i n :
  splitext_scan (String a p) (S i) n = splitext_scan p i n.
Proof. revert i. induction n as [|n IH]; intros i; simpl; [done|].
  destruct (String.get i p); [|done]. by rewrite IH. Qed.

Lemma splitext_scan_stem s rest :
  splitext_scan (String.append s rest) 0 (String.length s)
  = negb (all_dots s).
Proof.
  induction s as [|a s IH]; simpl; [done|].
  destruct (Ascii.eqb a "."); [|done].
  change (String.append (String a s) rest)
    with (String a (String.append s rest)).
  by rewrite splitext_scan_shift, IH.
Qed.

Lemma substring_all s : substring 0 (String.length s) s = s.
Proof. induction s as [|a s IH]; simpl; [done|]. by rewrite IH. Qed.

Lemma substring_stem s rest :
  substring 0 (String.length s) (String.append s rest) = s.
Proof.
  induction s as [|a s IH]; simpl; [by destruct rest|]. by rewrite IH.
Qed.

Lemma substring_rest s rest :
  substring (String.length s) (String.length rest) (String.append s rest)
  = rest.
Proof. induction s as [|a s IH]; simpl; [apply substring_all|done]. Qed.

Lemma length_append s rest :
  String.length (String.append s rest)
  = (String.length s + String.length rest)%nat.
Proof. induction s as [|a s IH]; simpl; [done|]. by rewrite IH. Qed.

Lemma occurs_append c s rest :
  occurs c (String.append s rest) = occurs c s || occurs c rest.
Proof.
  induction s as [|a s IH]; simpl; [done|]. by rewrite IH, orb_assoc.
Qed.

(** A name [stem.ext] is split at its last dot. *)
Lemma splitext_stem_ext stem ext :
  occurs "/" stem = false → occurs "/" ext = false →
  occurs "." ext = false → all_dots stem = false →
  splitext (String.append stem (String "." ext)) = (stem, String "." ext).
Proof.
  intros Hs1 Hs2 Hd Hn. unfold splitext, rfind.
  rewrite (rfind_from_absent "/");
    [|by rewrite occurs_append; simpl; rewrite Hs1, Hs2].
  rewrite rfind_from_append; simpl.
  rewrite (rfind_from_absent "." ext) by done.
  replace (Z.to_nat (0 + Z.of_nat (String.length stem)))
    with (String.length stem) by lia.
  replace (Z.to_nat (-1 + 1)) with 0%nat by lia.
  replace (Z.to_nat (0 + Z.of_nat (String.length stem) - (-1 + 1)))
    with (String.length stem) by lia.
  rewrite splitext_scan_stem, Hn; simpl.
  replace (0 + Z.of_nat (String.length stem) >? -1) with true
    by (symmetry; apply Z.gtb_lt; lia).
  simpl. rewrite substring_stem, length_append; simpl.
  replace (String.length stem + S (String.length ext) - String.length stem)%nat
    with (String.length (String "." ext)) by (simpl; lia).
  by rewrite substring_rest.
Qed.

(** A name without a dot is its own stem. *)
Lemma splitext_no_dot name :
  occurs "." name = false → splitext name = (name, "").
Proof.
  intros Hd. unfold splitext, rfind.
  rewrite (rfind_from_absent "." name) by done.
  replace (-1 >? rfind_from "/" name 0 (-1)) with false; [done|].
  symmetry. rewrite Z.gtb_ltb. apply Z.ltb_ge.
  assert (H : ∀ s i last, -1 ≤ last → 0 ≤ i → -1 ≤ rfind_from "/" s i last).
  { induction s as [|a s IH]; intros i last Hl Hi; simpl; [done|].
    apply IH; [destruct (Ascii.eqb a "/")|]; lia. }
  apply H; lia.
Qed.

(** ** C2 *)

(** C2 as stated fails: the key [report.*] is also the match of the
    extensionless entry [report]. *)
Lemma wildcard_matches_bare_name :
  schema_match [("report.*", SBool false)] "report.txt" = Some "report.*"
  ∧ schema_match [("report.*", SBool false)] "report.json" = Some "report.*"
  ∧ schema_match [("report.*", SBool false)] "report" = Some "report.*".
Proof. repeat split; vm_compute; reflexivity. Qed.

(** C2, as the code has it: a key [stem.*] is the match of every entry
    [stem.ext] whose own name is not a key, and of the bare entry
    [stem] as well when the stem holds no dot. *)
Theorem wildcard_matches_stem
    (files : list (string * schema)) (stem ext : string) :
  occurs "/" stem = false → occurs "/" ext = false →
  occurs "." ext = false → all_dots stem = false →
  files_has files (String.append stem ".*") = true →
  (files_has files (String.append stem (String "." ext)) = false →
   schema_match files (String.append stem (String "." ext))
   = Some (String.append stem ".*"))
  ∧ (occurs "." stem = false → files_has files stem = false →
     schema_match files stem = Some (String.append stem ".*")).
Proof.
  intros Hs1 Hs2 Hd Hn Hw. split.
  - intros Hi. unfold schema_match.
    rewrite splitext_stem_ext by done. simpl. by rewrite Hi, Hw.
  - intros Hsd Hi. unfold schema_match.
    rewrite splitext_no_dot by done. simpl. by rewrite Hi, Hw.
Qed.

Lemma wildcard_matches_stem_witness :
  (files_has [("report.*", SBool false)]
     (String.append "report" (String "." "txt")) = false →
   schema_match [("report.*", SBool false)]
     (String.append "report" (String "." "txt"))
   = Some (String.append "report" ".*"))
  ∧ (occurs "." "report" = false →
     files_has [("report.*", SBool false)] "report" = false →
     schema_match [("report.*", SBool false)] "report"
     = Some (String.append "report" ".*")).
Proof.
  refine (wildcard_matches_stem [("report.*", SBool false)]
            "report" "txt" _ _ _ _ _); vm_compute; reflexivity.
Defined.

(** ** What a call writes to: the frame of [check_structure] *)

Lemma unchanged_same_heap keep w w' :
  heap w' = heap w → unchanged_where keep w w'.
Proof. intros H. split; rewrite H; done. Qed.

Lemma unchanged_trans keep w1 w2 w3 :
  unchanged_where keep w1 w2 → unchanged_where keep w2 w3 →
  unchanged_where keep w1 w3.
Proof.
  intros [Hl1 H1] [Hl2 H2]. split; [lia|].
  intros l Hl Hk. rewrite H2, H1; [done..|lia|done].
Qed.

Lemma unchanged_assign keep ref t h d :
  ¬ keep ref →
  unchanged_where keep (World t h) (World t (<[ref := d]> h)).
Proof.
  intros Hk. split; simpl; [by rewrite length_insert|].
  intros l _ Hl. apply list_lookup_insert_ne. by intros ->.
Qed.

(** A copy made in [w] and whatever is done to it leave [w] as it was. *)
Lemma unchanged_copy keep w d w' :
  unchanged_where (λ l, l ≠ length (heap w))
    (World (tree w) (heap w ++ [d])) w' →
  unchanged_where keep w w'.
Proof.
  intros [Hl H]. simpl in *. rewrite length_app in Hl; simpl in Hl.
  split; [lia|]. intros l Hlt _.
  rewrite H; [|rewrite length_app; simpl; lia|lia].
  by apply lookup_app_l.
Qed.

Section MatcherFacts.

Variable EXPERIMENT_STRUCTURE : nat.
Variable remove_files : list string → string → node → result node.

Lemma remove_files_heap path item w :
  heap (remove_files_ remove_files path item w).2 = heap w.
Proof. unfold remove_files_. by destruct (remove_files _ _ _). Qed.

Lemma makedirs_heap path w : heap (makedirs path w).2 = heap w.
Proof. unfold makedirs. by destruct (os_makedirs _ _). Qed.

Lemma check_structure_loop_frame recurse path files remove items :
  (∀ path' files' w r w',
     recurse path' files' w = (r, w') →
     unchanged_where (λ l, l ≠ files') w w') →
  ∀ w r w',
    check_structure_loop remove_files recurse path files remove items w
      = (r, w') →
    unchanged_where (λ l, l ≠ files) w w'.
Proof.
  intros Hrec. induction items as [|item items IH]; intros w r w' H.
  - injection H as _ <-. by apply unchanged_same_heap.
  - simpl in H. rewrite bind_unfold in H. unfold deref at 1 in H.
    cbv beta iota in H.
    destruct (schema_match _ item) as [match_|].
    + rewrite bind_unfold in H.
      assert (Hassign : ∀ b w1,
        unchanged_where (λ l, l ≠ files) w w1 →
        (_ <- assign files match_ (SBool b) ;;
         check_structure_loop remove_files recurse path files remove items)
          w1 = (r, w') →
        unchanged_where (λ l, l ≠ files) w w').
      { intros b w1 H1 H2. rewrite bind_unfold in H2.
        unfold assign at 1 in H2. cbv beta iota in H2.
        apply IH in H2. eapply unchanged_trans; [exact H1|].
        eapply unchanged_trans; [|exact H2].
        destruct w1 as [t1 h1]. apply unchanged_assign. by intros ?. }
      destruct (files_get _ match_) as [[b|sub]|].
      * apply (Hassign true w); [by apply unchanged_same_heap|exact H].
      * rewrite bind_unfold in H. unfold deepcopy at 1 in H.
        cbv beta iota in H.
        destruct (recurse _ _ _) as [[b|e] w1] eqn:Hr; apply Hrec in Hr;
          apply (unchanged_copy (λ l, l ≠ files)) in Hr.
        -- by apply (Hassign b w1).
        -- by injection H as _ <-.
      * apply (Hassign true w); [by apply unchanged_same_heap|exact H].
    + rewrite bind_unfold in H.
      assert (Hrm : ∀ m : M world unit,
        (∀ w0, heap (m w0).2 = heap w0) →
        match m w with
        | (Ok a, s') =>
            check_structure_loop remove_files recurse path files remove
              items s'
        | (Raise e, s') => (Raise e, s')
        end = (r, w') →
        unchanged_where (λ l, l ≠ files) w w').
      { intros m Hm H'. specialize (Hm w).
        destruct (m w) as [[[]|e] w1]; simpl in Hm.
        - apply IH in H'. eapply unchanged_trans; [|exact H'].
          by apply unchanged_same_heap.
        - injection H' as _ <-. by apply unchanged_same_heap. }
      destruct remove.
      * apply (Hrm _ (remove_files_heap path item) H).
      * apply (Hrm (ret tt)); [done|exact H].
Qed.

Lemma check_structure_rec_frame depth path files create remove w r w' :
  check_structure_rec EXPERIMENT_STRUCTURE remove_files depth path files
    create remove w = (r, w') →
  unchanged_where (λ l, files ≠ Some l) w w'.
Proof.
  revert path files w r w'.
  induction depth as [|depth IH]; intros path files w r w' H; simpl in H.
  - injection H as _ <-. by apply unchanged_same_heap.
  - rewrite bind_unfold in H. unfold exists_ at 1 in H.
    cbv beta iota in H. rewrite bind_unfold in H.
    set (m := if create && _ then _ else _) in H.
    assert (Hm : heap (m w).2 = heap w).
    { subst m. destruct (create && _); [apply makedirs_heap|done]. }
    destruct (m w) as [[[]|e] w1]; simpl in Hm;
      [|injection H as _ <-; by apply unchanged_same_heap].
    clear m. eapply unchanged_trans;
      [apply (unchanged_same_heap _ w w1 Hm)|].
    clear Hm w. rename w1 into w.
    (* the body, once [files] names an object *)
    assert (Hbody : ∀ ref w0,
      (d <- deref ref ;;
       if from_option schema_truthy false (files_get d "*") then ret true
       else
         items <- listdir path ;;
         let items :=
           if create then
             map fst (List.filter (fun '(_, f) => negb (is_sbool f)) d)
               ++ items
           else items in
         check_structure_loop remove_files
           (fun path' files' =>
              check_structure_rec EXPERIMENT_STRUCTURE remove_files depth
                path' (Some files') create remove)
           path ref remove items ;;;
         d <- deref ref ;;
         ret (forallb schema_truthy (map snd d))) w0 = (r, w') →
      unchanged_where (λ l, l ≠ ref) w0 w').
    { intros ref w0 H0. rewrite bind_unfold in H0. unfold deref at 1 in H0.
      cbv beta iota in H0.
      destruct (from_option schema_truthy false _);
        [injection H0 as _ <-; by apply unchanged_same_heap|].
      rewrite bind_unfold in H0. unfold listdir at 1 in H0.
      destruct (os_listdir _ path) as [items|e];
        [|injection H0 as _ <-; by apply unchanged_same_heap].
      cbv beta iota zeta in H0. rewrite bind_unfold in H0.
      destruct (check_structure_loop _ _ _ _ _ _ w0) as [[[]|e] w1] eqn:Hl;
        (apply check_structure_loop_frame in Hl;
         [|intros p f w2 r2 w3 H3; apply IH in H3;
           destruct H3 as [H3 H4]; split; [done|];
           intros l Hl' Hne; apply H4; [done|congruence]]).
      - rewrite bind_unfold in H0. unfold deref, ret in H0.
        by injection H0 as _ <-.
      - by injection H0 as _ <-. }
    destruct files as [ref|].
    + rewrite bind_unfold in H. unfold ret at 1 in H.
      apply Hbody in H. destruct H as [H1 H2]. split; [done|].
      intros l Hl Hne. apply H2; [done|congruence].
    + rewrite !bind_unfold in H. unfold deref at 1 in H.
      cbv beta iota in H. unfold deepcopy at 1 in H. cbv beta iota in H.
      apply Hbody in H. exact (unchanged_copy _ _ _ _ H).
Qed.

End MatcherFacts.

(** ** C6 *)

(** C6 as stated fails: a schema supplied by the caller (the object at
    address 1) is written to, its entry [a.txt] turned to [True]. *)
Lemma supplied_schema_is_mutated :
  let w' := (check_structure 0 remove_nothing ["exp"] (Some 1%nat)
               false false supplied_schema_example).2 in
  heap supplied_schema_example !! 1%nat = Some [("a.txt", SBool false)]
  ∧ heap w' !! 1%nat = Some [("a.txt", SBool true)]
  ∧ heap w' !! 1%nat ≠ heap supplied_schema_example !! 1%nat.
Proof. vm_compute. repeat split; done. Qed.

(** C6, as the code has it: a call leaves every dictionary object that
    exists when it is made as it was, except the one passed as [files];
    called without a schema it works on a copy, so [EXPERIMENT_STRUCTURE]
    and every other object are unchanged, and the nested schemas of a
    supplied dictionary are copied before the recursion. *)
Theorem check_structure_writes_only_files
    (EXPERIMENT_STRUCTURE : nat)
    (remove_files : list string → string → node → result node)
    (path : list string) (files : option nat) (create remove : bool)
    (w : world) :
  let w' := (check_structure EXPERIMENT_STRUCTURE remove_files path files
               create remove w).2 in
  (length (heap w) ≤ length (heap w'))%nat
  ∧ (∀ l, (l < length (heap w))%nat → files ≠ Some l →
          heap w' !! l = heap w !! l)
  ∧ (files = None →
     is_Some (heap w !! EXPERIMENT_STRUCTURE) →
     heap w' !! EXPERIMENT_STRUCTURE = heap w !! EXPERIMENT_STRUCTURE).
Proof.
  intros w'. subst w'. unfold check_structure.
  destruct (check_structure_rec _ _ _ _ _ _ _ _) as [r w'] eqn:H.
  apply check_structure_rec_frame in H. destruct H as [Hl H].
  simpl. split; [done|]. split; [done|].
  intros -> Hes. apply H; [|done]. by apply lookup_lt_is_Some.
Qed.

(** ** C8 *)

(** C8 on the code: with [create] set, the first run on an empty
    experiment folder creates [data] and reports [False] ([data/x] is
    missing); the second run changes nothing in the tree and reports
    [True], the entry [data] being visited twice, as a schema key and as
    a directory entry. *)
Theorem check_structure_second_run
    (remove_files : list string → string → node → result node) :
  let run1 := check_structure 0 remove_files ["exp"] None true false
                required_folder_example in
  let run2 := check_structure 0 remove_files ["exp"] None true false
                run1.2 in
  run1.1 = Ok false
  ∧ tree run1.2 = Dir [("exp", Dir [("data", Dir [])])]
  ∧ run2.1 = Ok true
  ∧ tree run2.2 = tree run1.2
  ∧ heap run2.2 !! 0%nat = heap required_folder_example !! 0%nat.
Proof. repeat split; vm_compute; reflexivity. Qed.

(** ** The depth bound of [check_structure] is enough *)

Lemma files_get_depth files key f :
  files_get files key = Some f →
  (schema_depth f < schema_depth (SDict files))%nat.
Proof.
  induction files as [|[k f'] files IH]; simpl; [done|].
  destruct (String.eqb k key).
  - intros [= ->]. lia.
  - intros H. specialize (IH H). simpl in IH. lia.
Qed.

Lemma files_set_depth files key b :
  (schema_depth (SDict (files_set files key (SBool b)))
   ≤ schema_depth (SDict files))%nat.
Proof.
  induction files as [|[k f'] files IH]; simpl; [lia|].
  destruct (String.eqb k key); simpl in *; lia.
Qed.

Section MatcherDepth.

Variable EXPERIMENT_STRUCTURE : nat.
Variable remove_files : list string → string → node → result node.

Lemma check_structure_loop_ext recurse1 recurse2 bound path files remove
    items :
  (∀ p ref w0,
     (ref < length (heap w0))%nat →
     (schema_depth (SDict (content w0 ref)) ≤ bound)%nat →
     recurse1 p ref w0 = recurse2 p ref w0) →
  (∀ p ref w0 r w1,
     recurse2 p ref w0 = (r, w1) →
     unchanged_where (λ l, l ≠ ref) w0 w1) →
  ∀ w,
    (files < length (heap w))%nat →
    (schema_depth (SDict (content w files)) ≤ S bound)%nat →
    check_structure_loop remove_files recurse1 path files remove items w
    = check_structure_loop remove_files recurse2 path files remove items w.
Proof.
  intros Hext Hframe.
  induction items as [|item items IH]; intros w Hv Hd; [done|].
  simpl. rewrite !bind_unfold. unfold deref. cbv beta iota.
  fold (content w files).
  assert (Hassign : ∀ match_ b w1,
    (length (heap w) ≤ length (heap w1))%nat →
    heap w1 !! files = heap w !! files →
    (_ <- assign files match_ (SBool b) ;;
     check_structure_loop remove_files recurse1 path files remove items) w1
    = (_ <- assign files match_ (SBool b) ;;
       check_structure_loop remove_files recurse2 path files remove items)
        w1).
  { intros match_ b w1 Hl Hc. rewrite !bind_unfold.
    unfold assign. cbv beta iota. apply IH; simpl.
    - rewrite length_insert. lia.
    - unfold content; simpl. rewrite list_lookup_insert_eq by lia.
      simpl. rewrite Hc. fold (content w files).
      etransitivity; [apply files_set_depth|done]. }
  destruct (schema_match _ item) as [match_|].
  - rewrite !bind_unfold.
    destruct (files_get _ match_) as [[b|sub]|] eqn:Hget.
    + unfold ret. by apply Hassign.
    + rewrite !bind_unfold. unfold deepcopy. cbv beta iota.
      rewrite Hext.
      * destruct (recurse2 _ _ _) as [[b|e] w1] eqn:Hr; [|done].
        apply Hframe in Hr.
        apply (unchanged_copy (λ _, True)) in Hr as [Hl Hr].
        apply Hassign; [done|]. by apply Hr.
      * simpl. rewrite length_app; simpl. lia.
      * assert (Hc : content (World (tree w) (heap w ++ [sub]))
                       (length (heap w)) = sub).
        { unfold content; simpl. rewrite lookup_app_r by lia.
          by rewrite Nat.sub_diag. }
        rewrite Hc. apply files_get_depth in Hget. lia.
    + unfold ret. by apply Hassign.
  - rewrite !bind_unfold.
    destruct remove.
    + pose proof (remove_files_heap remove_files path item w) as Hh.
      destruct (remove_files_ _ _ _ w) as [[[]|e] w1]; [|done].
      simpl in Hh. apply IH; [by rewrite Hh|].
      unfold content. by rewrite Hh.
    + unfold ret. by apply IH.
Qed.

Lemma check_structure_rec_more_depth depth extra path files create remove
    w :
  match files with
  | Some ref => (ref < length (heap w))%nat
  | None => True
  end →
  (schema_depth
     (SDict (content w (from_option id EXPERIMENT_STRUCTURE files)))
   ≤ depth)%nat →
  check_structure_rec EXPERIMENT_STRUCTURE remove_files (depth + extra)
    path files create remove w
  = check_structure_rec EXPERIMENT_STRUCTURE remove_files depth path files
      create remove w.
Proof.
  revert path files w.
  induction depth as [|depth IH]; intros path files w Hv Hd;
    [simpl in Hd; lia|].
  change (S depth + extra)%nat with (S (depth + extra)).
  cbn [check_structure_rec].
  rewrite !bind_unfold. unfold exists_. cbv beta iota.
  rewrite !bind_unfold.
  set (m := if create && _ then _ else _).
  assert (Hm : heap (m w).2 = heap w).
  { subst m. destruct (create && _); [apply makedirs_heap|done]. }
  destruct (m w) as [[[]|e] w1]; simpl in Hm; [|done]. clear m.
  assert (Hbody : ∀ ref w0,
    (ref < length (heap w0))%nat →
    (schema_depth (SDict (content w0 ref)) ≤ S depth)%nat →
    (d <- deref ref ;;
     if from_option schema_truthy false (files_get d "*") then ret true
     else
       items <- listdir path ;;
       let items :=
         if create then
           map fst (List.filter (fun '(_, f) => negb (is_sbool f)) d)
             ++ items
         else items in
       check_structure_loop remove_files
         (fun path' files' =>
            check_structure_rec EXPERIMENT_STRUCTURE remove_files
              (depth + extra) path' (Some files') create remove)
         path ref remove items ;;;
       d <- deref ref ;;
       ret (forallb schema_truthy (map snd d))) w0
    = (d <- deref ref ;;
       if from_option schema_truthy false (files_get d "*") then ret true
       else
         items <- listdir path ;;
         let items :=
           if create then
             map fst (List.filter (fun '(_, f) => negb (is_sbool f)) d)
               ++ items
           else items in
         check_structure_loop remove_files
           (fun path' files' =>
              check_structure_rec EXPERIMENT_STRUCTURE remove_files depth
                path' (Some files') create remove)
           path ref remove items ;;;
         d <- deref ref ;;
         ret (forallb schema_truthy (map snd d))) w0).
  { intros ref w0 Hr Hd0. rewrite !bind_unfold. unfold deref.
    cbv beta iota. destruct (from_option schema_truthy false _); [done|].
    rewrite !bind_unfold. unfold listdir.
    destruct (os_listdir _ path) as [items|e]; [|done].
    cbv beta iota zeta. rewrite !bind_unfold.
    rewrite (check_structure_loop_ext _
               (fun path' files' =>
                  check_structure_rec EXPERIMENT_STRUCTURE remove_files
                    depth path' (Some files') create remove) depth);
      [done| |  |done|done].
    - intros p ref' w2 Hv2 Hd2. by apply IH.
    - intros p ref' w2 r w3 H3.
      apply check_structure_rec_frame in H3 as [H3 H4]. split; [done|].
      intros l Hl Hne. apply H4; [done|congruence]. }
  destruct files as [ref|]; cbn [from_option id] in Hd.
  - rewrite !bind_unfold. unfold ret.
    apply Hbody; [by rewrite Hm|]. unfold content. by rewrite Hm.
  - rewrite !(bind_unfold (_ <- deref _ ;; _)).
    rewrite !(bind_unfold (deref _)).
    change (deref EXPERIMENT_STRUCTURE w1)
      with (Ok (content w1 EXPERIMENT_STRUCTURE), w1).
    cbv beta iota.
    change (deepcopy (content w1 EXPERIMENT_STRUCTURE) w1)
      with (Ok (length (heap w1)),
            World (tree w1) (heap w1 ++ [content w1 EXPERIMENT_STRUCTURE])).
    cbv beta iota.
    assert (Hc : content (World (tree w1)
                            (heap w1 ++ [content w1 EXPERIMENT_STRUCTURE]))
                   (length (heap w1)) = content w1 EXPERIMENT_STRUCTURE).
    { unfold content at 1; simpl. rewrite lookup_app_r by lia.
      by rewrite Nat.sub_diag. }
    apply Hbody.
    + simpl. rewrite length_app; simpl. lia.
    + rewrite Hc. unfold content in *. by rewrite Hm.
Qed.

(** Any deeper bound gives the result of [check_structure]. *)
Lemma check_structure_depth_enough extra path files create remove w :
  match files with
  | Some ref => (ref < length (heap w))%nat
  | None => True
  end →
  check_structure_rec EXPERIMENT_STRUCTURE remove_files
    (schema_depth
       (SDict (content w (from_option id EXPERIMENT_STRUCTURE files)))
     + extra)
    path files create remove w
  = check_structure EXPERIMENT_STRUCTURE remove_files path files create
      remove w.
Proof.
  intros Hv. unfold check_structure.
  by apply check_structure_rec_more_depth.
Qed.

End MatcherDepth.

(** ** A required file that is missing, without [create] and [remove] *)

Lemma files_get_set d m v k :
  files_get (files_set d m v) k
  = if String.eqb m k then Some v else files_get d k.
Proof.
  induction d as [|[k0 f0] d IH]; simpl; [done|].
  destruct (String.eqb k0 m) eqn:Hm; simpl.
  - apply String.eqb_eq in Hm as ->. by destruct (String.eqb m k).
  - rewrite IH. destruct (String.eqb k0 k) eqn:Hk; [|done].
    apply String.eqb_eq in Hk as ->. by rewrite String.eqb_sym, Hm.
Qed.

Lemma files_get_In d k f : files_get d k = Some f → In (k, f) d.
Proof.
  induction d as [|[k0 f0] d IH]; simpl; [done|].
  destruct (String.eqb k0 k) eqn:Hk.
  - apply String.eqb_eq in Hk as ->. intros [= ->]. by left.
  - intros H. right. by apply IH.
Qed.

Lemma files_get_falsy d k f :
  files_get d k = Some f → schema_truthy f = false →
  forallb schema_truthy (map snd d) = false.
Proof.
  intros Hg Hf. apply files_get_In in Hg.
  destruct (forallb schema_truthy (map snd d)) eqn:Hall; [|done].
  rewrite forallb_forall in Hall.
  rewrite <- Hf. symmetry. apply Hall. apply in_map_iff. by exists (k, f).
Qed.

Lemma schema_match_has d item m :
  schema_match d item = Some m → files_has d m = true.
Proof.
  unfold schema_match. cbv zeta.
  destruct (files_has d item) eqn:H1.
  { intros H. inversion H. by subst. }
  destruct (files_has d (String.append _ _)) eqn:H2; [|done].
  intros H. inversion H. by subst.
Qed.

Lemma checked_refl d : checked d d.
Proof. apply Forall2_same_length_lookup_2; [done|].
  intros i x y Hx Hy. rewrite Hx in Hy. injection Hy as <-. by split; [|left].
Qed.

Lemma checked_get d0 d k :
  checked d0 d →
  match files_get d0 k, files_get d k with
  | Some f0, Some f => f = f0 ∨ is_sbool f = true
  | None, None => True
  | _, _ => False
  end.
Proof.
  induction 1 as [|[k0 f0] [k1 f1] d0 d [Hk Hf] _ IH]; simpl; [done|].
  simpl in Hk, Hf. subst k1. by destruct (String.eqb k0 k).
Qed.

Lemma checked_has d0 d k : checked d0 d → files_has d k = files_has d0 k.
Proof.
  intros H. pose proof (checked_get d0 d k H) as Hg. unfold files_has.
  by destruct (files_get d0 k), (files_get d k).
Qed.

Lemma checked_match d0 d item :
  checked d0 d → schema_match d item = schema_match d0 item.
Proof. intros H. unfold schema_match. by rewrite !(checked_has d0 d). Qed.

Lemma checked_set d0 d m b :
  checked d0 d → files_has d m = true →
  checked d0 (files_set d m (SBool b)).
Proof.
  unfold files_has.
  induction 1 as [|[k0 f0] [k1 f1] d0 d [Hk Hf] Hrest IH]; simpl; [done|].
  simpl in Hk, Hf. destruct (String.eqb k1 m).
  - intros _. constructor; [|done]. simpl. by split; [|right].
  - intros H. constructor; [done|]. by apply IH.
Qed.

Lemma checkable_nested t path d items item m sub :
  checkable t path (SDict d) = true →
  from_option schema_truthy false (files_get d "*") = false →
  os_listdir t path = Ok items →
  In item items →
  schema_match d item = Some m →
  files_get d m = Some sub →
  checkable t (join path m) sub = true.
Proof.
  intros Hc Hstar Hl Hi Hm Hg. cbn [checkable] in Hc.
  rewrite Hstar, Hl in Hc. simpl in Hc. rewrite forallb_forall in Hc.
  specialize (Hc (m, sub) (files_get_In _ _ _ Hg)). simpl in Hc.
  replace (existsb (matches d m) items) with true in Hc; [done|].
  symmetry. apply existsb_exists. exists item. split; [done|].
  unfold matches. rewrite Hm. apply String.eqb_refl.
Qed.

Section MatcherReport.

Variable EXPERIMENT_STRUCTURE : nat.
Variable remove_files : list string → string → node → result node.

Lemma check_structure_loop_returns recurse bound t path files d0 items :
  (∀ p ref w0,
     tree w0 = t → (ref < length (heap w0))%nat →
     (schema_depth (SDict (content w0 ref)) ≤ bound)%nat →
     checkable t p (SDict (content w0 ref)) = true →
     ∃ b w1, recurse p ref w0 = (Ok b, w1) ∧ tree w1 = t) →
  (∀ p ref w0 r w1,
     recurse p ref w0 = (r, w1) →
     unchanged_where (λ l, l ≠ ref) w0 w1) →
  (schema_depth (SDict d0) ≤ S bound)%nat →
  (∀ item m sub,
     In item items → schema_match d0 item = Some m →
     files_get d0 m = Some sub → checkable t (join path m) sub = true) →
  ∀ w,
    tree w = t → (files < length (heap w))%nat →
    checked d0 (content w files) →
    ∃ w',
      check_structure_loop remove_files recurse path files false items w
        = (Ok tt, w')
      ∧ tree w' = t
      ∧ (files < length (heap w'))%nat
      ∧ checked d0 (content w' files)
      ∧ ∀ k, (∀ item, In item items → schema_match d0 item ≠ Some k) →
             files_get (content w' files) k = files_get (content w files) k.
Proof.
  intros Hrec Hframe Hdepth.
  induction items as [|item items IH]; intros Hsub w Ht Hv Hc.
  - by exists w.
  - assert (Hsub' : ∀ item' m sub,
      In item' items → schema_match d0 item' = Some m →
      files_get d0 m = Some sub → checkable t (join path m) sub = true).
    { intros item' m sub Hi. apply Hsub. by right. }
    specialize (IH Hsub').
    cbn [check_structure_loop]. rewrite bind_unfold.
    change (deref files w) with (Ok (content w files), w).
    cbv beta iota. rewrite (checked_match d0) by done.
    (* the assignment of a result, then the rest of the loop *)
    assert (Hassign : ∀ m b w1,
      schema_match d0 item = Some m →
      tree w1 = t → (files < length (heap w1))%nat →
      content w1 files = content w files →
      ∃ w',
        (_ <- assign files m (SBool b) ;;
         check_structure_loop remove_files recurse path files false items)
          w1 = (Ok tt, w')
        ∧ tree w' = t
        ∧ (files < length (heap w'))%nat
        ∧ checked d0 (content w' files)
        ∧ ∀ k, (∀ item', In item' (item :: items) →
                         schema_match d0 item' ≠ Some k) →
               files_get (content w' files) k
               = files_get (content w files) k).
    { intros m b w1 Hm Ht1 Hv1 Hc1. rewrite bind_unfold.
      set (w2 := World (tree w1)
                   (<[files := files_set (content w1 files) m (SBool b)]>
                      (heap w1))).
      change (assign files m (SBool b) w1) with (Ok tt, w2).
      cbv beta iota.
      assert (Hc2 : content w2 files = files_set (content w files) m (SBool b)).
      { unfold content at 1. subst w2. simpl.
        rewrite list_lookup_insert_eq by done. simpl. by rewrite Hc1. }
      destruct (IH w2) as (w' & Heq & Ht' & Hv' & Hc' & Hk).
      - done.
      - subst w2. simpl. by rewrite length_insert.
      - rewrite Hc2. apply checked_set; [done|].
        rewrite (checked_has d0) by done. by apply schema_match_has in Hm.
      - exists w'. repeat (split; [done|]).
        intros k Hun. rewrite Hk by (intros i Hi; apply Hun; by right).
        rewrite Hc2, files_get_set.
        destruct (String.eqb m k) eqn:Hmk; [|done].
        apply String.eqb_eq in Hmk as ->.
        exfalso. by apply (Hun item); [left|]. }
    destruct (schema_match d0 item) as [m|] eqn:Hm.
    + rewrite bind_unfold.
      destruct (files_get (content w files) m) as [[b|sub]|] eqn:Hg.
      * change (ret true w) with (Ok true, w). cbv beta iota.
        by apply Hassign.
      * rewrite bind_unfold.
        set (w1 := World (tree w) (heap w ++ [sub])).
        change (deepcopy sub w) with (Ok (length (heap w)), w1).
        cbv beta iota.
        pose proof (checked_get d0 _ m Hc) as Hg0. rewrite Hg in Hg0.
        destruct (files_get d0 m) as [f0|] eqn:Hg0'; [|done].
        destruct Hg0 as [<-|?]; [|done].
        assert (Hc1 : content w1 (length (heap w)) = sub).
        { unfold content. subst w1. simpl.
          rewrite lookup_app_r by lia. by rewrite Nat.sub_diag. }
        destruct (Hrec (join path m) (length (heap w)) w1)
          as (b & w2 & Heq & Ht2).
        -- done.
        -- subst w1. simpl. rewrite length_app. simpl. lia.
        -- rewrite Hc1. apply files_get_depth in Hg0'. lia.
        -- rewrite Hc1. apply (Hsub item); [by left|done|done].
        -- rewrite Heq. cbv beta iota.
           apply Hframe in Heq.
           apply (unchanged_copy (λ _, True)) in Heq as [Hl Hh].
           apply Hassign; [done|done|lia|].
           unfold content. by rewrite Hh.
      * apply schema_match_has in Hm.
        rewrite <- (checked_has d0 (content w files)) in Hm by done.
        unfold files_has in Hm. by rewrite Hg in Hm.
    + rewrite bind_unfold. change (ret tt w) with (Ok tt, w).
      cbv beta iota.
      destruct (IH w) as (w' & Heq & Ht' & Hv' & Hc' & Hk); [done..|].
      exists w'. repeat (split; [done|]).
      intros k Hun. apply Hk. intros i Hi. apply Hun. by right.
Qed.

(** The loop over a list of entries is the loop over its first part
    followed by the loop over the rest. *)
Lemma check_structure_loop_app recurse path files remove l1 l2 w :
  check_structure_loop remove_files recurse path files remove (l1 ++ l2) w
  = match check_structure_loop remove_files recurse path files remove l1 w
    with
    | (Ok _, w1) =>
        check_structure_loop remove_files recurse path files remove l2 w1
    | (Raise e, w1) => (Raise e, w1)
    end.
Proof.
  revert w. induction l1 as [|item l1 IH]; intros w; [done|].
  cbn [app check_structure_loop]. rewrite !bind_unfold.
  destruct (deref files w) as [[d|e] w0]; [|done].
  destruct (schema_match d item) as [m|].
  - rewrite !bind_unfold.
    match goal with
    | |- context [match ?c w0 with _ => _ end] =>
        destruct (c w0) as [[r|e] w1]; [|done]
    end.
    rewrite !bind_unfold.
    destruct (assign files m (SBool r) w1) as [[u|e] w2]; [|done].
    apply IH.
  - rewrite !bind_unfold.
    match goal with
    | |- context [match ?c w0 with _ => _ end] =>
        destruct (c w0) as [[u|e] w1]; [|done]
    end.
    apply IH.
Qed.

(** A nested key that one entry of the folder matches, and no other,
    holds the result of the check of its folder once the loop is over:
    [False] when that folder lacks a required entry. *)
Lemma check_structure_loop_lacking recurse bound t path files d0
    pre item post k sub :
  (∀ p ref w0,
     tree w0 = t → (ref < length (heap w0))%nat →
     (schema_depth (SDict (content w0 ref)) ≤ bound)%nat →
     checkable t p (SDict (content w0 ref)) = true →
     ∃ b w1, recurse p ref w0 = (Ok b, w1) ∧ tree w1 = t
             ∧ (lacking t p (content w0 ref) → b = false)) →
  (∀ p ref w0 r w1,
     recurse p ref w0 = (r, w1) →
     unchanged_where (λ l, l ≠ ref) w0 w1) →
  (schema_depth (SDict d0) ≤ S bound)%nat →
  (∀ item' m sub',
     In item' (pre ++ item :: post) → schema_match d0 item' = Some m →
     files_get d0 m = Some sub' → checkable t (join path m) sub' = true) →
  schema_match d0 item = Some k →
  files_get d0 k = Some (SDict sub) →
  (∀ item', In item' (pre ++ post) → schema_match d0 item' ≠ Some k) →
  lacking t (join path k) sub →
  ∀ w w',
    tree w = t → (files < length (heap w))%nat →
    content w files = d0 →
    check_structure_loop remove_files recurse path files false
      (pre ++ item :: post) w = (Ok tt, w') →
    files_get (content w' files) k = Some (SBool false).
Proof.
  intros Hrec Hframe Hdepth Hsub Hm Hg Hun Hlack w w' Ht Hv Hc H.
  assert (Hrec' : ∀ p ref w0,
     tree w0 = t → (ref < length (heap w0))%nat →
     (schema_depth (SDict (content w0 ref)) ≤ bound)%nat →
     checkable t p (SDict (content w0 ref)) = true →
     ∃ b w1, recurse p ref w0 = (Ok b, w1) ∧ tree w1 = t).
  { intros p ref w0 H1 H2 H3 H4.
    destruct (Hrec p ref w0 H1 H2 H3 H4) as (b & w1 & ? & ? & _).
    by exists b, w1. }
  (* the entries before [item] *)
  rewrite check_structure_loop_app in H.
  destruct (check_structure_loop_returns recurse bound t path files d0 pre
              Hrec' Hframe Hdepth) with (w := w)
    as (w1 & Heq1 & Ht1 & Hv1 & Hc1 & Hk1).
  { intros item' m sub' Hi. apply Hsub. apply in_app_iff. by left. }
  { done. }
  { done. }
  { rewrite Hc. apply checked_refl. }
  rewrite Heq1 in H.
  assert (Hg1 : files_get (content w1 files) k = Some (SDict sub)).
  { rewrite Hk1; [by rewrite Hc|].
    intros item' Hi. apply Hun. apply in_app_iff. by left. }
  (* [item] *)
  change (item :: post) with ([item] ++ post) in H.
  rewrite check_structure_loop_app in H.
  cbn [check_structure_loop] in H. rewrite bind_unfold in H.
  change (deref files w1) with (Ok (content w1 files), w1) in H.
  cbv beta iota in H. rewrite (checked_match d0) in H by done.
  rewrite Hm, Hg1 in H. rewrite !bind_unfold in H.
  set (w2 := World (tree w1) (heap w1 ++ [sub])) in *.
  change (deepcopy sub w1) with (Ok (length (heap w1)), w2) in H.
  cbv beta iota in H.
  assert (Hc2 : content w2 (length (heap w1)) = sub).
  { unfold content. subst w2. simpl.
    rewrite lookup_app_r by lia. by rewrite Nat.sub_diag. }
  destruct (Hrec (join path k) (length (heap w1)) w2)
    as (b & w3 & Heq3 & Ht3 & Hb).
  { done. }
  { subst w2. simpl. rewrite length_app. simpl. lia. }
  { rewrite Hc2. apply files_get_depth in Hg. lia. }
  { rewrite Hc2. apply (Hsub item k (SDict sub)); [|done|done].
    apply in_app_iff. right. by left. }
  rewrite Hc2 in Hb. specialize (Hb Hlack). subst b.
  rewrite Heq3 in H. cbv beta iota in H.
  apply Hframe in Heq3.
  apply (unchanged_copy (λ _, True)) in Heq3 as [Hl3 Hh3].
  set (w4 := World (tree w3)
               (<[files := files_set (content w3 files) k (SBool false)]>
                  (heap w3))) in *.
  rewrite bind_unfold in H.
  change (assign files k (SBool false) w3) with (Ok tt, w4) in H.
  cbv beta iota in H.
  change (ret tt w4) with (Ok tt, w4) in H. cbv beta iota in H.
  assert (Hc3 : content w3 files = content w1 files).
  { unfold content. by rewrite Hh3. }
  assert (Hc4 : content w4 files
                = files_set (content w1 files) k (SBool false)).
  { unfold content at 1. subst w4. simpl.
    rewrite list_lookup_insert_eq by lia. simpl. by rewrite Hc3. }
  (* the entries after [item] *)
  destruct (check_structure_loop_returns recurse bound t path files d0 post
              Hrec' Hframe Hdepth) with (w := w4)
    as (w5 & Heq5 & Ht5 & Hv5 & Hc5 & Hk5).
  { intros item' m sub' Hi. apply Hsub. apply in_app_iff. right. by right. }
  { done. }
  { subst w4. simpl. rewrite length_insert. lia. }
  { rewrite Hc4. apply checked_set; [done|].
    rewrite (checked_has d0) by done. by apply schema_match_has in Hm. }
  rewrite Heq5 in H. injection H as <-.
  rewrite Hk5.
  - rewrite Hc4, files_get_set. by rewrite String.eqb_refl.
  - intros item' Hi. apply Hun. apply in_app_iff. by right.
Qed.

Lemma check_structure_rec_returns depth t path files w :
  tree w = t →
  match files with
  | Some ref => (ref < length (heap w))%nat
  | None => True
  end →
  let d := content w (from_option id EXPERIMENT_STRUCTURE files) in
  (schema_depth (SDict d) ≤ depth)%nat →
  checkable t path (SDict d) = true →
  ∃ b w',
    check_structure_rec EXPERIMENT_STRUCTURE remove_files depth path files
      false false w = (Ok b, w')
    ∧ tree w' = t
    ∧ (lacking t path d → b = false).
Proof.
  revert path files w.
  induction depth as [|depth IH]; intros path files w Ht Hv d Hd Hc;
    [simpl in Hd; lia|].
  (* the body, once [files] names an object *)
  assert (Hbody : ∀ ref w0,
    tree w0 = t → (ref < length (heap w0))%nat →
    content w0 ref = d →
    ∃ b w',
      (d <- deref ref ;;
       if from_option schema_truthy false (files_get d "*") then ret true
       else
         items <- listdir path ;;
         let items :=
           if false then
             map fst (List.filter (fun '(_, f) => negb (is_sbool f)) d)
               ++ items
           else items in
         check_structure_loop remove_files
           (fun path' files' =>
              check_structure_rec EXPERIMENT_STRUCTURE remove_files depth
                path' (Some files') false false)
           path ref false items ;;;
         d <- deref ref ;;
         ret (forallb schema_truthy (map snd d))) w0 = (Ok b, w')
      ∧ tree w' = t
      ∧ (lacking t path d → b = false)).
  { intros ref w0 Ht0 Hv0 Hd0. rewrite bind_unfold.
    change (deref ref w0) with (Ok (content w0 ref), w0).
    cbv beta iota. rewrite Hd0.
    destruct (from_option schema_truthy false (files_get d "*")) eqn:Hstar.
    { exists true, w0. split; [done|]. split; [done|].
      intros Hlack. inversion Hlack; congruence. }
    rewrite bind_unfold. unfold listdir. rewrite Ht0.
    pose proof Hc as Hl. cbn [checkable] in Hl. rewrite Hstar in Hl.
    destruct (os_listdir t path) as [items|] eqn:Hlist; [|done].
    cbv beta iota zeta. rewrite bind_unfold.
    set (recurse := fun path' files' =>
           check_structure_rec EXPERIMENT_STRUCTURE remove_files depth
             path' (Some files') false false).
    assert (Hrec : ∀ p ref' w2,
      tree w2 = t → (ref' < length (heap w2))%nat →
      (schema_depth (SDict (content w2 ref')) ≤ depth)%nat →
      checkable t p (SDict (content w2 ref')) = true →
      ∃ b w3, recurse p ref' w2 = (Ok b, w3) ∧ tree w3 = t
              ∧ (lacking t p (content w2 ref') → b = false)).
    { intros p ref' w2 Ht2 Hv2 Hd2 Hc2.
      exact (IH p (Some ref') w2 Ht2 Hv2 Hd2 Hc2). }
    assert (Hframe : ∀ p ref' w2 r w3,
      recurse p ref' w2 = (r, w3) →
      unchanged_where (λ l, l ≠ ref') w2 w3).
    { intros p ref' w2 r w3 H3.
      apply check_structure_rec_frame in H3 as [H3 H4]. split; [done|].
      intros l Hl' Hne. apply H4; [done|congruence]. }
    assert (Hsub : ∀ item m sub,
      In item items → schema_match d item = Some m →
      files_get d m = Some sub → checkable t (join path m) sub = true).
    { intros item m sub Hi Hm Hg.
      by apply (checkable_nested t path d items item m sub). }
    destruct (check_structure_loop_returns recurse depth t path ref d items)
      with (w := w0) as (w1 & Heq & Ht1 & Hv1 & Hc1 & Hk).
    - intros p ref' w2 Ht2 Hv2 Hd2 Hc2.
      destruct (Hrec p ref' w2 Ht2 Hv2 Hd2 Hc2) as (b & w3 & ? & ? & _).
      by exists b, w3.
    - done.
    - done.
    - done.
    - done.
    - done.
    - rewrite Hd0. apply checked_refl.
    - rewrite Heq. cbv beta iota. rewrite bind_unfold.
      change (deref ref w1) with (Ok (content w1 ref), w1).
      cbv beta iota. unfold ret. do 2 eexists. split; [done|].
      split; [done|]. intros Hlack.
      inversion Hlack
        as [p d' items' k f _ Hl' Hg Hf Hun Hp Hd'
           |p d' pre item post k sub _ Hl' Hg Hm Hun Hbelow Hp Hd'].
      + rewrite Hlist in Hl'. injection Hl' as <-.
        apply (files_get_falsy _ k f); [|done].
        rewrite Hk by done. by rewrite Hd0.
      + rewrite Hlist in Hl'. injection Hl' as ->.
        apply (files_get_falsy _ k (SBool false)); [|done].
        by apply (check_structure_loop_lacking recurse depth t path ref d
                    pre item post k sub Hrec Hframe Hd Hsub Hm Hg Hun
                    Hbelow w0 w1). }
  cbn [check_structure_rec]. rewrite bind_unfold.
  change (exists_ path w) with (Ok (os_exists (tree w) path), w).
  cbv beta iota. rewrite bind_unfold.
  change ((if false && negb (os_exists (tree w) path)
           then makedirs path else ret tt) w) with (Ok tt, w).
  cbv beta iota.
  destruct files as [ref|]; cbn [from_option id] in d.
  - rewrite bind_unfold. change (ret ref w) with (Ok ref, w).
    cbv beta iota. by apply Hbody.
  - rewrite !(bind_unfold (_ <- deref _ ;; _)).
    rewrite !(bind_unfold (deref _)).
    change (deref EXPERIMENT_STRUCTURE w)
      with (Ok (content w EXPERIMENT_STRUCTURE), w).
    cbv beta iota.
    change (deepcopy (content w EXPERIMENT_STRUCTURE) w)
      with (Ok (length (heap w)),
            World (tree w) (heap w ++ [content w EXPERIMENT_STRUCTURE])).
    cbv beta iota. apply Hbody; simpl.
    + done.
    + rewrite length_app; simpl. lia.
    + unfold content at 1; simpl. rewrite lookup_app_r by lia.
      by rewrite Nat.sub_diag.
Qed.

End MatcherReport.

(** ** C7 *)

(** C7 as stated fails: on a path that does not exist, [listdir]
    raises [OSError]; and a required folder that is missing is not
    reported, its schema being a dictionary that is not empty, so that
    the call returns [True]. *)
Lemma check_structure_missing_path_raises :
  os_exists (tree required_file_example) ["missing"] = false
  ∧ (check_structure 0 remove_nothing ["missing"] None false false
       required_file_example).1 = Raise OSError
  ∧ os_exists (tree required_folder_example) ["exp"; "data"] = false
  ∧ (check_structure 0 remove_nothing ["exp"] None false false
       required_folder_example).1 = Ok true.
Proof. repeat split; vm_compute; reflexivity. Qed.

(** C7, as the code has it: without [create] and [remove], on a tree
    the schema can be checked against (the path is a directory, and so
    is the folder of every nested key that is matched), the call
    returns [False], without an exception and without a change to the
    tree, when the tree lacks a required entry: a key whose value is
    [False] that no entry matches, in the folder itself or in a nested
    folder, at any depth, that the entries of the tree lead to. *)
Theorem check_structure_reports_missing_file
    (EXPERIMENT_STRUCTURE : nat)
    (remove_files : list string → string → node → result node)
    (path : list string) (files : option nat) (w : world) :
  let d := content w (from_option id EXPERIMENT_STRUCTURE files) in
  match files with
  | Some ref => (ref < length (heap w))%nat
  | None => True
  end →
  checkable (tree w) path (SDict d) = true →
  lacking (tree w) path d →
  ∃ w',
    check_structure EXPERIMENT_STRUCTURE remove_files path files
      false false w = (Ok false, w')
    ∧ tree w' = tree w.
Proof.
  intros d Hv Hc Hlack. unfold check_structure.
  fold (content w (from_option id EXPERIMENT_STRUCTURE files)). fold d.
  destruct (check_structure_rec_returns EXPERIMENT_STRUCTURE remove_files
              (schema_depth (SDict d)) (tree w) path files w eq_refl Hv
              (le_n _) Hc) as (b & w' & Heq & Ht & Hres).
  rewrite (Hres Hlack) in Heq. by exists w'.
Qed.

Lemma check_structure_reports_missing_file_witness :
  ∃ w',
    check_structure 0 remove_nothing ["exp"] None false false
      nested_file_example = (Ok false, w')
    ∧ tree w' = tree nested_file_example.
Proof.
  refine (check_structure_reports_missing_file 0 remove_nothing ["exp"]
            None nested_file_example I _ _).
  - vm_compute; reflexivity.
  - apply (lacking_below _ ["exp"] [("data", SDict [("x", SBool false)])]
             ["notes.txt"] "data" [] "data" [("x", SBool false)]);
      try (vm_compute; reflexivity).
    + intros item [<-|[]]. vm_compute. discriminate.
    + apply (lacking_here _ ["exp"; "data"] [("x", SBool false)] [] "x"
               (SBool false)); try (vm_compute; reflexivity).
      intros item [].
Defined.

(** A required file that is missing in the folder itself. *)
Example check_structure_missing_file
    (remove_files : list string → string → node → result node) :
  (check_structure 0 remove_files ["exp"] None false false
     required_file_example).1 = Ok false.
Proof. vm_compute; reflexivity. Qed.

(** * Properties of the template set generator *)


Lemma template_set_template templates name v name' :
  template (set_template templates name v) name'
  = if String.eqb name name' then Ok v else template templates name'.
Proof.
  induction templates as [|[k v'] templates IH]; simpl.
  - by destruct (String.eqb name name').
  - destruct (String.eqb k name) eqn:Hk; simpl.
    + apply String.eqb_eq in Hk as ->.
      by destruct (String.eqb name name').
    + destruct (String.eqb k name') eqn:Hk'; [|done].
      apply String.eqb_eq in Hk' as ->.
      by rewrite String.eqb_sym, Hk.
Qed.





(** ** Keys and the position index *)




(** One key: [True], [1] and [1.0]; the zeros; a float and the integer
    of its value; the NaN of the document.  Two keys: a number and the
    string of its digits, two numbers of different values, [None] and
    [False]. *)
Example key_eq_examples :
  key_eq (VBool true) (VInt 1) = true
  ∧ key_eq (VInt 1) (VFloat 1) = true
  ∧ key_eq (VInt 0) (VFloat (-0)) = true
  ∧ key_eq (VFloat 6) (VInt 6) = true
  ∧ key_eq (VInt (-12)) (VFloat (-12)) = true
  ∧ key_eq (VFloat 0.5) (VFloat 0.5) = true
  ∧ key_eq (VFloat nan) (VFloat nan) = true
  ∧ key_eq (VFloat infinity) (VFloat infinity) = true
  ∧ key_eq (VFloat infinity) (VFloat neg_infinity) = false
  ∧ key_eq (VInt 1) (VStr "1") = false
  ∧ key_eq (VInt 3) (VFloat 3.5) = false
  ∧ key_eq (VInt 2) (VInt 4) = false
  ∧ key_eq (VInt 1) (VInt (-1)) = false
  ∧ key_eq VNone (VBool false) = false
  ∧ key_eq (VStr "a") (VStr "a") = true.
Proof. repeat split; vm_compute; reflexivity. Qed.






Lemma one_per_key_app index entries :
  one_per_key (index ++ entries) = true →
  one_per_key index = true
  ∧ one_per_key entries = true
  ∧ ∀ a e, In a index → In e entries → key_eq a.1 e.1 = false.
Proof.
  induction index as [|[k0 v0] index IH]; simpl.
  - intros H. by repeat split.
  - intros H. apply andb_prop in H as [H0 H].
    rewrite forallb_app in H0. apply andb_prop in H0 as [H1 H2].
    destruct (IH H) as (Hi & He & Hd). rewrite H1, Hi.
    repeat split; [done|].
    intros a e [<-|Ha] Hin; [|by apply Hd].
    rewrite forallb_forall in H2. specialize (H2 e Hin). simpl.
    by destruct (key_eq k0 e.1).
Qed.



Lemma one_per_key_removelast entries :
  one_per_key entries = true → one_per_key (removelast entries) = true.
Proof.
  destruct entries as [|e entries] using rev_ind; [done|].
  rewrite removelast_last. intros H.
  by destruct (one_per_key_app _ _ H) as (? & _).
Qed.





Section GeneratorFacts.

Variable TEMPLATES : list (string * pyval).
Variable render : string → gmap string pyval → result string.
Variable open_ : list string → result unit.
Variable write : list string → string → result unit.
Variable dump : list string → list (pyval * (pyval * pyval)) → result string.
Variable get_constants_and_replacements : pyval → result (pyval * pyval).
Variable define_block : pyval → pyval.
Variable generate_motes : gmap string pyval → result pyval.
Variable capitalize : string → string.







End GeneratorFacts.

(** ** C10 *)



(** The run of the example: three entities in the first index, the
    first two in the second. *)
Example generation_example_indexes :
  List.filter (λ o, match o with Dumped _ _ _ => true | _ => false end)
    generation_example.2
  = [Dumped ["exp"; "with-malicious"; "data"; "motes.json"]
       [(VInt 0, (VFloat 1.5, VInt 0)); (VInt 1, (VFloat 1.5, VInt 2));
        (VInt 2, (VFloat 1.5, VInt 4))] "{}";
     Dumped ["exp"; "without-malicious"; "data"; "motes.json"]
       [(VInt 0, (VFloat 1.5, VInt 0)); (VInt 1, (VFloat 1.5, VInt 2))]
       "{}"].
Proof. vm_compute; reflexivity. Qed.

(** Two entities with one identifier, [1] and [1.0]: the index keeps
    one entry, under the identifier met first, with the coordinates of
    the second entity. *)
Example position_index_same_identifier :
  position_index
    (VList [VDict (list_to_map
                     [("id", VInt 1); ("x", VInt 0); ("y", VInt 0)]);
            VDict (list_to_map
                     [("id", VFloat 1); ("x", VInt 5); ("y", VInt 7)])])
  = Ok [(VInt 1, (VInt 5, VInt 7))].
Proof. vm_compute; reflexivity. Qed.

(** * Properties of the building-block lookup *)

Lemma member_set_member {A} (d : list (string * A)) k v k' :
  member (set_member d k v) k'
  = if String.eqb k k' then Some v else member d k'.
Proof.
  induction d as [|[k0 v0] d IH]; simpl.
  - done.
  - destruct (String.eqb k0 k) eqn:E; simpl.
    + apply String.eqb_eq in E as ->. by destruct (String.eqb k k').
    + rewrite IH. destruct (String.eqb k0 k') eqn:E'; [|done].
      apply String.eqb_eq in E' as ->. by rewrite String.eqb_sym, E.
Qed.

Lemma member_In {A} (d : list (string * A)) k v :
  member d k = Some v → In (k, v) d.
Proof.
  induction d as [|[k0 v0] d IH]; simpl; [done|].
  destruct (String.eqb k0 k) eqn:E.
  - apply String.eqb_eq in E as ->. intros [= ->]. by left.
  - intros H. right. by apply IH.
Qed.

Lemma length_set_member {A} (d : list (string * A)) k v :
  length (set_member d k v)
  = if has_member d k then length d else S (length d).
Proof.
  unfold has_member.
  induction d as [|[k0 v0] d IH]; simpl; [done|].
  destruct (String.eqb k0 k); simpl; [done|].
  rewrite IH. by destruct (member d k).
Qed.

Section BlocksFacts.

Variable upper : string → string.
Variable chars : string → list string.
Variable available_blocks : list (string * json).

(** An entry classified as a constant: stored unless the key is set. *)
Lemma collect_entry_constant block key value c r t :
  is_constant upper key = true →
  collect_entry upper chars block key value c r t
  = if has_member c key then (Ok (c, r), t ++ [AlreadySet block key value])
    else (Ok (set_member c key value, r), t).
Proof.
  intros H. unfold collect_entry. rewrite H.
  by destruct (has_member c key).
Qed.

(** An entry classified as a replacement: stored, or reported. *)
Lemma collect_entry_replacement block key value c r t res t' :
  is_constant upper key = false →
  collect_entry upper chars block key value c r t = (res, t') →
  match res with
  | Ok (c', r') =>
      c' = c
      ∧ ((r' = set_member r key value ∧ t' = t)
         ∨ (r' = r ∧ has_member r key = true
            ∧ ∃ line, json_first chars value = Ok line
                      ∧ t' = t ++ [AlreadyReplaced block line key]))
  | Raise _ => t' = t
  end.
Proof.
  intros H. unfold collect_entry. rewrite H.
  destruct (has_member r key) eqn:Hh.
  - rewrite !bind_unfold. unfold lift.
    destruct (json_first chars value) as [line|e] eqn:Hl; cbn.
    2:{ by intros [= <- <-]. }
    destruct (sources chars (map snd r)) as [lines|e]; cbn.
    2:{ by intros [= <- <-]. }
    destruct (existsb (json_eq line) lines); cbn.
    + intros [= <- <-]. split; [done|]. right.
      repeat split; eauto.
    + intros [= <- <-]. split; [done|]. by left.
  - cbn. intros [= <- <-]. split; [done|]. by left.
Qed.

Lemma member_app {A} (d e : list (string * A)) k :
  member (d ++ e) k
  = match member d k with Some v => Some v | None => member e k end.
Proof.
  induction d as [|[k0 v0] d IH]; simpl; [done|].
  by destruct (String.eqb k0 k).
Qed.

Lemma constant_entries_app d e :
  constant_entries upper (d ++ e)
  = constant_entries upper d ++ constant_entries upper e.
Proof. apply List.filter_app. Qed.

Lemma collect_items_constants block items : ∀ c r t c' r' t',
  collect_items upper chars block items c r t = (Ok (c', r'), t') →
  ∀ key,
    member c' key
    = match member c key with
      | Some v => Some v
      | None => member (constant_entries upper items) key
      end.
Proof.
  induction items as [|[key0 value] items IH]; intros c r t c' r' t' H key.
  - injection H as <- <- <-. by destruct (member c key).
  - simpl in H. rewrite bind_unfold in H.
    unfold constant_entries. simpl.
    destruct (is_constant upper key0) eqn:Hc.
    + rewrite collect_entry_constant in H by done.
      unfold has_member in H.
      destruct (member c key0) as [v0|] eqn:Hm; cbn in H.
      * rewrite (IH _ _ _ _ _ _ H key). simpl.
        destruct (String.eqb key0 key) eqn:E; [|done].
        apply String.eqb_eq in E as <-. by rewrite Hm.
      * rewrite (IH _ _ _ _ _ _ H key), member_set_member. simpl.
        destruct (String.eqb key0 key) eqn:E; [|done].
        apply String.eqb_eq in E as <-. by rewrite Hm.
    + destruct (collect_entry upper chars block key0 value c r t) as [[[c1 r1]|e] t1]
        eqn:He; [|done].
      apply collect_entry_replacement in He as [-> _]; [|done].
      cbn in H. apply (IH _ _ _ _ _ _ H key).
Qed.

Lemma collect_blocks_constants blocks : ∀ c r t c' r' t',
  collect_blocks upper chars available_blocks blocks c r t = (Ok (c', r'), t') →
  ∀ key,
    member c' key
    = match member c key with
      | Some v => Some v
      | None =>
          member (constant_entries upper (listed_entries available_blocks blocks))
            key
      end.
Proof.
  induction blocks as [|block blocks IH]; intros c r t c' r' t' H key.
  - injection H as <- <- <-. by destruct (member c key).
  - simpl in H. rewrite !bind_unfold in H. unfold lift in H.
    unfold listed_entries. simpl. unfold block_entries at 1.
    destruct (block_item available_blocks block) as [entries|e]; [|done].
    cbn in H. destruct entries; try done. cbn in H.
    rewrite bind_unfold in H.
    destruct (collect_items upper chars block members c r t) as [[[c1 r1]|e] t1] eqn:Hi;
      [|done].
    cbn in H. rewrite (IH _ _ _ _ _ _ H key).
    rewrite (collect_items_constants _ _ _ _ _ _ _ _ Hi key).
    rewrite constant_entries_app, member_app.
    by destruct (member c key), (member (constant_entries upper members) key).
Qed.


(** A property of the two dictionaries, the log and the entries gone
    through that every entry keeps holds at the end of the traversal. *)
Lemma collect_items_invariant
    (I : list (string * json) → list (string * json)
         → list (string * json) → list block_warning → Prop) block :
  (∀ E key value c r t c' r' t',
     I E c r t →
     collect_entry upper chars block key value c r t = (Ok (c', r'), t') →
     I (E ++ [(key, value)]) c' r' t') →
  ∀ items E c r t c' r' t',
    I E c r t →
    collect_items upper chars block items c r t = (Ok (c', r'), t') →
    I (E ++ items) c' r' t'.
Proof.
  intros Hstep.
  induction items as [|[key value] items IH]; intros E c r t c' r' t' HI H.
  - injection H as <- <- <-. by rewrite app_nil_r.
  - simpl in H. rewrite bind_unfold in H.
    destruct (collect_entry upper chars block key value c r t) as [[[c1 r1]|e] t1]
      eqn:He; [|done].
    cbn in H. rewrite (cons_middle _ E items), app_assoc.
    eapply IH; [|exact H]. by eapply Hstep.
Qed.

Lemma collect_blocks_invariant
    (I : list (string * json) → list (string * json)
         → list (string * json) → list block_warning → Prop) :
  (∀ block E key value c r t c' r' t',
     I E c r t →
     collect_entry upper chars block key value c r t = (Ok (c', r'), t') →
     I (E ++ [(key, value)]) c' r' t') →
  ∀ blocks E c r t c' r' t',
    I E c r t →
    collect_blocks upper chars available_blocks blocks c r t = (Ok (c', r'), t') →
    I (E ++ listed_entries available_blocks blocks) c' r' t'.
Proof.
  intros Hstep.
  induction blocks as [|block blocks IH]; intros E c r t c' r' t' HI H.
  - injection H as <- <- <-. by rewrite app_nil_r.
  - simpl in H. rewrite !bind_unfold in H. unfold lift in H.
    unfold listed_entries. simpl. unfold block_entries at 1.
    destruct (block_item available_blocks block) as [entries|e]; [|done].
    cbn in H. destruct entries; try done. cbn in H.
    rewrite bind_unfold in H.
    destruct (collect_items upper chars block members c r t) as [[[c1 r1]|e] t1] eqn:Hi;
      [|done].
    cbn in H. rewrite app_assoc. eapply IH; [|exact H].
    eapply collect_items_invariant; [apply Hstep|exact HI|exact Hi].
Qed.

(** The traversal of two lists of blocks, one after the other. *)
Lemma collect_blocks_app l1 l2 c r t :
  collect_blocks upper chars available_blocks (l1 ++ l2) c r t
  = match collect_blocks upper chars available_blocks l1 c r t with
    | (Ok cr, t1) => collect_blocks upper chars available_blocks l2 cr.1 cr.2 t1
    | (Raise e, t1) => (Raise e, t1)
    end.
Proof.
  revert c r t. induction l1 as [|block l1 IH]; intros c r t; simpl; [done|].
  rewrite !bind_unfold. unfold lift.
  destruct (block_item available_blocks block) as [entries|e]; [|done].
  cbn. destruct (json_items entries) as [items|e]; [|done].
  cbn. rewrite !bind_unfold.
  destruct (collect_items upper chars block items c r t) as [[cr|e] t1]; [|done].
  apply IH.
Qed.

Lemma sources_ok (values : list json) :
  Forall (λ v, is_ok (json_source chars v) = true) values →
  ∃ lines, sources chars values = Ok lines.
Proof.
  induction 1 as [|v values Hv _ [lines IH]]; simpl; [by eexists|].
  destruct (json_source chars v); [|done]. simpl. rewrite IH. simpl. by eexists.
Qed.

Lemma Forall_set_member {A} (Q : A → Prop) (d : list (string * A)) k v :
  Forall (λ e, Q e.2) d → Q v → Forall (λ e, Q e.2) (set_member d k v).
Proof.
  intros Hd Hv. induction Hd as [|[k0 v0] d H0 Hd IH]; simpl.
  - by constructor.
  - destruct (String.eqb k0 k); by constructor.
Qed.

Lemma collect_items_ok block items : ∀ c r t,
  Forall (λ e, replacement_ok upper chars e = true) items →
  Forall (λ e, is_ok (json_source chars e.2) = true) r →
  ∃ c' r' t',
    collect_items upper chars block items c r t = (Ok (c', r'), t')
    ∧ Forall (λ e, is_ok (json_source chars e.2) = true) r'.
Proof.
  induction items as [|[key value] items IH]; intros c r t Hi Hr.
  - by exists c, r, t.
  - apply Forall_cons in Hi as [Hv Hi]. simpl. rewrite bind_unfold.
    unfold replacement_ok in Hv. simpl in Hv.
    destruct (is_constant upper key) eqn:Hc.
    + rewrite collect_entry_constant by done.
      destruct (has_member c key); cbn; by apply IH.
    + simpl in Hv. apply andb_true_iff in Hv as [Hf Hs].
      unfold collect_entry. rewrite Hc.
      destruct (sources_ok (map snd r)) as [lines Hl].
      { by apply Forall_map. }
      destruct (json_first chars value) as [line|] eqn:Hline; [|done].
      assert (Hset : Forall (λ e, is_ok (json_source chars e.2) = true)
                       (set_member r key value)).
      { by apply (Forall_set_member (λ v, is_ok (json_source chars v) = true)). }
      destruct (has_member r key).
      * rewrite !bind_unfold. unfold lift. cbn. rewrite Hl. cbn.
        destruct (existsb (json_eq line) lines); cbn; by apply IH.
      * cbn. by apply IH.
Qed.

Lemma registry_ok_member s v :
  registry_ok upper chars available_blocks = true →
  member available_blocks s = Some v →
  ∃ d, v = JDict d ∧ Forall (λ e, replacement_ok upper chars e = true) d.
Proof.
  intros Hok Hm. apply member_In in Hm.
  unfold registry_ok in Hok. rewrite forallb_forall in Hok.
  specialize (Hok _ Hm). simpl in Hok.
  destruct v; try done. exists members. split; [done|].
  apply Forall_forall. intros e He. rewrite forallb_forall in Hok.
  apply Hok. by apply list_elem_of_In.
Qed.

Lemma collect_blocks_ok blocks : ∀ c r t,
  registry_ok upper chars available_blocks = true →
  Forall (λ b, ∃ s, b = VStr s ∧ has_member available_blocks s = true)
    blocks →
  Forall (λ e, is_ok (json_source chars e.2) = true) r →
  ∃ c' r' t',
    collect_blocks upper chars available_blocks blocks c r t = (Ok (c', r'), t').
Proof.
  intros c r t Hok Hb. revert c r t.
  induction Hb as [|block blocks (s & -> & Hs) _ IH]; intros c r t Hr.
  - by exists c, r, t.
  - simpl. rewrite !bind_unfold. unfold lift. simpl.
    unfold has_member in Hs.
    destruct (member available_blocks s) as [v|] eqn:Hm; [|done].
    destruct (registry_ok_member _ _ Hok Hm) as (d & -> & Hd).
    cbn. rewrite bind_unfold.
    destruct (collect_items_ok (VStr s) d c r t Hd Hr)
      as (c1 & r1 & t1 & -> & Hr1).
    cbn. by apply IH.
Qed.

End BlocksFacts.

(** The lookup, once [get_building_blocks()] has returned. *)
Lemma get_constants_and_replacements_collect upper chars available_blocks
    blocks t :
  get_constants_and_replacements upper chars (Ok available_blocks) blocks t
  = collect_blocks upper chars available_blocks blocks [] [] t.
Proof. reflexivity. Qed.

(** ** The constants *)

(** X1: a constant that several listed blocks define keeps the value of
    the first one: [constants.get(key)] is the first entry named [key]
    among the constant entries of the listed blocks, in the order of
    the traversal. *)
Theorem constants_first_definition_wins
    (upper : string → string) (chars : string → list string)
    (available_blocks : list (string * json)) (blocks : list pyval)
    (t t' : list block_warning) (c r : list (string * json)) :
  get_constants_and_replacements upper chars (Ok available_blocks) blocks t
    = (Ok (c, r), t') →
  ∀ key,
    member c key
    = member
        (constant_entries upper (listed_entries available_blocks blocks))
        key.
Proof.
  intros H key. rewrite get_constants_and_replacements_collect in H.
  by rewrite (collect_blocks_constants _ _ _ _ _ _ _ _ _ _ H key).
Qed.

Lemma constants_first_definition_wins_witness :
  member two_blocks_constants_example "RPL_CONF_DIS_INTERVAL"
  = member (constant_entries upper_example
              (listed_entries available_blocks_example two_blocks_example))
      "RPL_CONF_DIS_INTERVAL".
Proof.
  apply (constants_first_definition_wins upper_example chars_example
           available_blocks_example two_blocks_example []
           [AlreadySet (VStr "decreased-rank") "RPL_CONF_DIS_INTERVAL"
              (JInt 5)]
           two_blocks_constants_example two_blocks_replacements_example).
  vm_compute. reflexivity.
Defined.

(** X2: a key is stored in [constants] only if it is in upper case
    and names no [.c] or [.h] file, in [replacements] only otherwise,
    and every pair stored is an entry of a listed block. *)
Theorem entries_are_classified
    (upper : string → string) (chars : string → list string)
    (available_blocks : list (string * json)) (blocks : list pyval)
    (t t' : list block_warning) (c r : list (string * json)) :
  get_constants_and_replacements upper chars (Ok available_blocks) blocks t
    = (Ok (c, r), t') →
  (∀ k v, member c k = Some v →
     is_constant upper k = true
     ∧ In (k, v) (listed_entries available_blocks blocks))
  ∧ (∀ k v, member r k = Some v →
       is_constant upper k = false
       ∧ In (k, v) (listed_entries available_blocks blocks))
  ∧ (∀ k, has_member c k = true → has_member r k = true → False).
Proof.
  intros H. rewrite get_constants_and_replacements_collect in H.
  pose (I := λ (E c r : list (string * json)) (_ : list block_warning),
    (∀ k v, member c k = Some v →
            is_constant upper k = true ∧ In (k, v) E)
    ∧ (∀ k v, member r k = Some v →
              is_constant upper k = false ∧ In (k, v) E)).
  assert (HI : I ([] ++ listed_entries available_blocks blocks) c r t').
  { refine (collect_blocks_invariant upper chars available_blocks I _
              blocks [] [] [] t c r t' _ H);
      [|split; intros k v Hm; discriminate Hm].
    clear. intros block E key value c r t c' r' t' [Hc Hr] He.
    destruct (is_constant upper key) eqn:Hk.
    - rewrite collect_entry_constant in He by done.
      assert (Hr' : r' = r) by (by destruct (has_member c key); injection He).
      subst r'. split.
      + intros k v Hm. destruct (has_member c key).
        * injection He as <- _. destruct (Hc k v Hm) as [? ?].
          split; [done|]. apply in_or_app. by left.
        * injection He as <- _. rewrite member_set_member in Hm.
          destruct (String.eqb key k) eqn:Ek.
          -- apply String.eqb_eq in Ek as <-. injection Hm as <-.
             split; [done|]. apply in_or_app. right. by left.
          -- destruct (Hc k v Hm) as [? ?].
             split; [done|]. apply in_or_app. by left.
      + intros k v Hm. destruct (Hr k v Hm) as [? ?].
        split; [done|]. apply in_or_app. by left.
    - apply collect_entry_replacement in He as [-> Hcase]; [|done]. split.
      + intros k v Hm. destruct (Hc k v Hm) as [? ?].
        split; [done|]. apply in_or_app. by left.
      + intros k v Hm.
        destruct Hcase as [[-> _]|[-> _]].
        * rewrite member_set_member in Hm.
          destruct (String.eqb key k) eqn:Ek.
          -- apply String.eqb_eq in Ek as <-. injection Hm as <-.
             split; [done|]. apply in_or_app. right. by left.
          -- destruct (Hr k v Hm) as [? ?].
             split; [done|]. apply in_or_app. by left.
        * destruct (Hr k v Hm) as [? ?].
          split; [done|]. apply in_or_app. by left. }
  destruct HI as [Hc Hr]. simpl in Hc, Hr. repeat split.
  - by apply (Hc k v).
  - by apply (Hc k v).
  - by apply (Hr k v).
  - by apply (Hr k v).
  - intros k. unfold has_member.
    destruct (member c k) as [v|] eqn:Hck; [|done].
    destruct (member r k) as [v'|] eqn:Hrk; [|done].
    destruct (Hc k v Hck) as [H1 _]. destruct (Hr k v' Hrk) as [H2 _].
    congruence.
Qed.

Lemma entries_are_classified_witness :
  (∀ k v, member two_blocks_constants_example k = Some v →
     is_constant upper_example k = true
     ∧ In (k, v) (listed_entries available_blocks_example
                    two_blocks_example))
  ∧ (∀ k v, member two_blocks_replacements_example k = Some v →
       is_constant upper_example k = false
       ∧ In (k, v) (listed_entries available_blocks_example
                      two_blocks_example))
  ∧ (∀ k, has_member two_blocks_constants_example k = true →
          has_member two_blocks_replacements_example k = true → False).
Proof.
  apply (entries_are_classified upper_example chars_example
           available_blocks_example two_blocks_example []
           [AlreadySet (VStr "decreased-rank") "RPL_CONF_DIS_INTERVAL"
              (JInt 5)]).
  vm_compute. reflexivity.
Defined.

(** X3: no constant entry is lost silently: the constant entries of
    the listed blocks are as many as the constants stored and the
    "already set" warnings logged, and the log only grows. *)
Theorem constants_stored_or_reported
    (upper : string → string) (chars : string → list string)
    (available_blocks : list (string * json)) (blocks : list pyval)
    (t t' : list block_warning) (c r : list (string * json)) :
  get_constants_and_replacements upper chars (Ok available_blocks) blocks t
    = (Ok (c, r), t') →
  ∃ out,
    t' = t ++ out
    ∧ length (constant_entries upper (listed_entries available_blocks blocks))
      = (length c + length (List.filter is_already_set out))%nat.
Proof.
  intros H. rewrite get_constants_and_replacements_collect in H.
  pose (I := λ (E c r : list (string * json)) (t1 : list block_warning),
    ∃ out, t1 = t ++ out
      ∧ length (constant_entries upper E)
        = (length c + length (List.filter is_already_set out))%nat).
  refine (collect_blocks_invariant upper chars available_blocks I _ blocks
            [] [] [] t c r t' _ H); [|by exists []; rewrite app_nil_r].
  clear. intros block E key value c r t1 c' r' t' (out & -> & Hn) He.
  unfold I. rewrite constant_entries_app, length_app.
  unfold constant_entries at 2.
  simpl. destruct (is_constant upper key) eqn:Hk.
  - rewrite collect_entry_constant in He by done.
    destruct (has_member c key) eqn:Hh; injection He as <- <- <-.
    + exists (out ++ [AlreadySet block key value]).
      split; [by rewrite app_assoc|].
      rewrite List.filter_app, length_app. simpl. lia.
    + exists out. split; [done|].
      rewrite length_set_member, Hh. simpl. lia.
  - apply collect_entry_replacement in He as [-> Hcase]; [|done].
    destruct Hcase as [[_ ->]|(_ & _ & line & _ & ->)].
    + exists out. split; [done|]. simpl. lia.
    + exists (out ++ [AlreadyReplaced block line key]).
      split; [by rewrite app_assoc|].
      rewrite List.filter_app, length_app. simpl. lia.
Qed.

Lemma constants_stored_or_reported_witness :
  ∃ out,
    [AlreadySet (VStr "decreased-rank") "RPL_CONF_DIS_INTERVAL" (JInt 5)]
    = [] ++ out
    ∧ length (constant_entries upper_example
                (listed_entries available_blocks_example two_blocks_example))
      = (length two_blocks_constants_example
         + length (List.filter is_already_set out))%nat.
Proof.
  apply (constants_stored_or_reported upper_example chars_example
           available_blocks_example two_blocks_example [] _ _
           two_blocks_replacements_example).
  vm_compute. reflexivity.
Defined.

(** ** The replacements *)

(** X4: a file keeps one replacement only.  When a further block
    patches a file that already has a replacement, with a source line
    that no stored replacement has, the stored replacement is
    overwritten and nothing is logged. *)
Theorem replacement_overwritten
    (upper : string → string) (chars : string → list string)
    (available_blocks : list (string * json)) (blocks : list pyval)
    (t t' : list block_warning) (c r : list (string * json))
    (block file : string) (old srcl dstl : json) (lines : list json) :
  get_constants_and_replacements upper chars (Ok available_blocks) blocks t
    = (Ok (c, r), t') →
  member available_blocks block
    = Some (JDict [(file, JList [srcl; dstl])]) →
  is_constant upper file = false →
  member r file = Some old →
  sources chars (map snd r) = Ok lines →
  existsb (json_eq srcl) lines = false →
  get_constants_and_replacements upper chars (Ok available_blocks)
    (blocks ++ [VStr block]) t
  = (Ok (c, set_member r file (JList [srcl; dstl])), t')
  ∧ member (set_member r file (JList [srcl; dstl])) file
    = Some (JList [srcl; dstl])
  ∧ length (set_member r file (JList [srcl; dstl])) = length r.
Proof.
  intros H Hb Hc Hold Hl Hfresh. repeat split.
  - rewrite get_constants_and_replacements_collect in *.
    rewrite collect_blocks_app, H. simpl.
    rewrite !bind_unfold. unfold lift. simpl. rewrite Hb. cbn.
    rewrite bind_unfold. unfold collect_entry. rewrite Hc.
    unfold has_member. rewrite Hold.
    rewrite !bind_unfold. unfold lift. cbn. rewrite Hl. cbn.
    by rewrite Hfresh.
  - by rewrite member_set_member, String.eqb_refl.
  - rewrite length_set_member. unfold has_member. by rewrite Hold.
Qed.

Lemma replacement_overwritten_witness :
  get_constants_and_replacements upper_example chars_example
    (Ok available_blocks_example)
    (two_blocks_example ++ [VStr "dis-suppression"]) []
  = (Ok (two_blocks_constants_example,
         set_member two_blocks_replacements_example "rpl-timers.c"
           (JList [JStr "handle_dis_timer"; JStr ""])),
     [AlreadySet (VStr "decreased-rank") "RPL_CONF_DIS_INTERVAL" (JInt 5)])
  ∧ member
      (set_member two_blocks_replacements_example "rpl-timers.c"
         (JList [JStr "handle_dis_timer"; JStr ""]))
      "rpl-timers.c"
    = Some (JList [JStr "handle_dis_timer"; JStr ""])
  ∧ length
      (set_member two_blocks_replacements_example "rpl-timers.c"
         (JList [JStr "handle_dis_timer"; JStr ""]))
    = length two_blocks_replacements_example.
Proof.
  apply (replacement_overwritten upper_example chars_example
           available_blocks_example two_blocks_example
           [] _ two_blocks_constants_example two_blocks_replacements_example
           "dis-suppression" "rpl-timers.c"
           (JList [JStr "rpl_reset_dio_timer"; JStr ""])
           (JStr "handle_dis_timer") (JStr "")
           [JStr "rpl_reset_dio_timer"]).
  all: vm_compute; reflexivity.
Defined.

(** X5: a listed block that the registry does not hold ends the lookup
    with a [KeyError], once the blocks before it have been gone
    through. *)
Theorem unknown_block_raises
    (upper : string → string) (chars : string → list string)
    (available_blocks : list (string * json)) (before after : list pyval)
    (block : string) (t t' : list block_warning)
    (cr : list (string * json) * list (string * json)) :
  get_constants_and_replacements upper chars (Ok available_blocks) before t
    = (Ok cr, t') →
  member available_blocks block = None →
  get_constants_and_replacements upper chars (Ok available_blocks)
    (before ++ VStr block :: after) t
  = (Raise KeyError, t').
Proof.
  intros H Hb. rewrite get_constants_and_replacements_collect in *.
  rewrite collect_blocks_app, H. simpl.
  rewrite bind_unfold. unfold lift. simpl. by rewrite Hb.
Qed.

Lemma unknown_block_raises_witness :
  get_constants_and_replacements upper_example chars_example
    (Ok available_blocks_example)
    ([VStr "flooding"] ++ VStr "sinkhole" :: [VStr "decreased-rank"]) []
  = (Raise KeyError, []).
Proof.
  apply (unknown_block_raises upper_example chars_example
           available_blocks_example [VStr "flooding"]
           [VStr "decreased-rank"] "sinkhole" [] []
           ([("RPL_CONF_DIS_INTERVAL", JInt 0)],
            [("rpl-timers.c",
              JList [JStr "next_dis++;"; JStr "next_dis = 1;"])])).
  - vm_compute. reflexivity.
  - vm_compute. reflexivity.
Defined.

(** ** Validated blocks *)

Lemma get_parameter_loop_accepted silent section key f fs l :
  ∀ buffer s buffer' s',
    get_parameter_loop silent section key (f :: fs) l buffer s
      = (Ok buffer', s') →
    ∃ new, buffer' = buffer ++ new ∧ Forall (λ x, f x = Ok true) new.
Proof.
  induction l as [|p l IH]; intros buffer s buffer' s' H; simpl in H.
  - injection H as <- _. exists []. by rewrite app_nil_r.
  - rewrite !bind_unfold in H. unfold lift in H. cbn in H.
    destruct (f p) as [[|]|e] eqn:Hp; cbn in H; [| |done].
    + apply IH in H as (new & -> & Hnew). exists (p :: new).
      split; [by rewrite <- app_assoc|]. by constructor.
    + rewrite bind_unfold in H.
      destruct (truthy silent); cbn in H; by apply IH in H.
Qed.

Lemma get_parameter_list_accepted DEFAULTS section key f reason default
    s v s' :
  get_parameter DEFAULTS section key (CondList [f]) reason default s
    = (Ok v, s') →
  ∃ l, v = VList l ∧ Forall (λ x, f x = Ok true) l.
Proof.
  rewrite get_parameter_list.
  destruct (looked_up _ _ _ _ _) as [[]|]; try done.
  destruct (get_parameter_loop _ _ _ _ _ _ _) as [[buffer|] s1] eqn:Hl;
    [|done].
  cbn. intros [= <- <-].
  apply get_parameter_loop_accepted in Hl as (new & -> & Hnew).
  by exists new.
Qed.

Lemma py_in_dict_true x (d : gmap string pyval) :
  py_in_dict x d = Ok true → ∃ s, x = VStr s ∧ is_Some (d !! s).
Proof.
  destruct x; try done. simpl. intros [= H].
  apply bool_decide_eq_true in H. by exists s.
Qed.

(** X6: the blocks of a validated parameter set can be looked up.
    When every name the validation accepts is a block of the registry,
    and the registry has the documented format, the [blocks] of the
    parameter set [validated_parameters] returns are a list on which
    [get_constants_and_replacements] returns. *)
Theorem validated_blocks_are_collected
    (DEFAULTS : gmap string pyval) (platforms : result (list string))
    (blocks : result (gmap string pyval))
    (path_exists : pyval → result bool)
    (s s' : state) (params : gmap string pyval)
    (upper : string → string) (chars : string → list string)
    (available_blocks : list (string * json)) (t : list block_warning) :
  validated_parameters DEFAULTS platforms blocks path_exists s
    = (Ok params, s') →
  (∀ known k, blocks = Ok known → is_Some (known !! k) →
              has_member available_blocks k = true) →
  registry_ok upper chars available_blocks = true →
  ∃ l c r t',
    params !! "blocks" = Some (VList l)
    ∧ get_constants_and_replacements upper chars (Ok available_blocks) l t
      = (Ok (c, r), t').
Proof.
  intros H Hknown Hok.
  unfold validated_parameters in H.
  do 21 inv_step H.
  unfold ret in H. injection H as <- <-.
  match goal with
  | Hs : get_parameter _ _ "building-blocks" _ _ _ _ = _ |- _ =>
      apply get_parameter_list_accepted in Hs as (l & -> & Hl)
  end.
  destruct (collect_blocks_ok upper chars available_blocks l [] [] t Hok)
    as (c & r & t' & Hc).
  { eapply Forall_impl; [exact Hl|]. intros x Hx. simpl in Hx.
    unfold is_block in Hx. destruct blocks as [known|]; [|done].
    apply py_in_dict_true in Hx as (name & -> & Hn).
    exists name. split; [done|]. by apply (Hknown known). }
  { constructor. }
  exists l, c, r, t'. split; [|exact Hc].
  rewrite !lookup_insert_ne by done. by rewrite lookup_insert_eq.
Qed.

Lemma validated_blocks_are_collected_witness :
  ∃ l c r t',
    listed_blocks_params_example !! "blocks" = Some (VList l)
    ∧ get_constants_and_replacements upper_example chars_example
        (Ok available_blocks_example) l []
      = (Ok (c, r), t').
Proof.
  refine (validated_blocks_are_collected DEFAULTS_example
            (Ok platforms_example) (Ok known_blocks_example)
            exists_example listed_blocks_example
            (validated_parameters DEFAULTS_example (Ok platforms_example)
               (Ok known_blocks_example) exists_example
               listed_blocks_example).2
            listed_blocks_params_example upper_example chars_example
            available_blocks_example [] _ _ _).
  - vm_compute. reflexivity.
  - intros known k [= <-] Hk.
    destruct (decide (k = "flooding")) as [->|]; [reflexivity|].
    destruct (decide (k = "decreased-rank")) as [->|]; [reflexivity|].
    destruct (decide (k = "dis-suppression")) as [->|]; [reflexivity|].
    unfold known_blocks_example in Hk. simpl in Hk.
    rewrite !lookup_insert_ne, lookup_empty in Hk by done.
    by destruct Hk.
  - vm_compute. reflexivity.
Defined.

(** * Further properties of the parameter set builder *)

(** ** Computations that only append to the log *)

Lemma log_local_ret {A} (a : A) : log_local (ret a).
Proof. intros d l. unfold ret. simpl. by rewrite app_nil_r. Qed.

Lemma log_local_lift {A} (r : result A) : log_local (lift r).
Proof. intros d l. unfold lift. simpl. by rewrite app_nil_r. Qed.

Lemma log_local_get key : log_local (get key).
Proof. intros d l. unfold get. simpl. by rewrite app_nil_r. Qed.

Lemma log_local_pop key default : log_local (pop key default).
Proof. intros d l. unfold pop. simpl. by rewrite app_nil_r. Qed.

Lemma log_local_warning x : log_local (warning x).
Proof. intros d l. unfold warning. done. Qed.

Lemma log_local_bind {A B} (m : M state A) (k : A → M state B) :
  log_local m → (∀ a, log_local (k a)) → log_local (bind m k).
Proof.
  intros Hm Hk d l. rewrite !bind_unfold. rewrite (Hm d l).
  destruct (m (State d [])) as [[a|e] [d1 l1]]; simpl.
  - rewrite (Hk a d1 (l ++ l1)), (Hk a d1 l1).
    destruct (k a (State d1 [])) as [r [d2 l2]]; simpl.
    by rewrite app_assoc.
  - done.
Qed.

Lemma log_local_if {A} (b : bool) (m1 m2 : M state A) :
  log_local m1 → log_local m2 → log_local (if b then m1 else m2).
Proof. by destruct b. Qed.

Lemma log_local_get_parameter_loop silent section key fs l buffer :
  log_local (get_parameter_loop silent section key fs l buffer).
Proof.
  revert buffer. induction l as [|p l IH]; intros buffer; simpl.
  - apply log_local_ret.
  - apply log_local_bind; [apply log_local_lift|intros test].
    apply log_local_bind; [apply log_local_lift|intros c].
    destruct (negb c); [|apply IH].
    apply log_local_bind; [|intros _; apply IH].
    apply log_local_if; [apply log_local_warning|apply log_local_ret].
Qed.

Lemma log_local_get_parameter DEFAULTS section key condition reason default :
  log_local (get_parameter DEFAULTS section key condition reason default).
Proof.
  unfold get_parameter.
  apply log_local_bind; [apply log_local_pop|intros silent].
  apply log_local_bind; [apply log_local_get|intros sec].
  apply log_local_bind; [apply log_local_lift|intros raw].
  cbv zeta.
  destruct condition as [f|fs].
  - apply log_local_bind; [apply log_local_lift|intros c].
    destruct (negb c); [|apply log_local_ret].
    apply log_local_bind; [|intros _; apply log_local_lift].
    apply log_local_if; [|apply log_local_ret].
    apply log_local_bind; [apply log_local_lift|intros d].
    apply log_local_warning.
  - destruct (if _ && _ then _ else _); try apply log_local_lift.
    apply log_local_bind; [apply log_local_get_parameter_loop|intros b].
    apply log_local_ret.
Qed.

Ltac log_local_steps :=
  repeat first
    [ apply log_local_ret
    | apply log_local_lift
    | apply log_local_get
    | apply log_local_get_parameter
    | apply log_local_bind; [|intros ?] ].

(** ** The [silent] flag of a build *)

(** X7: [silent] silences the first parameter only.  The first call
    of [get_parameter] pops the flag, so a build on a silenced
    configuration returns what the build on the same configuration
    without the flag returns, and logs the same diagnostics but the one
    of the [debug] parameter. *)
Theorem silent_silences_first_parameter_only
    (DEFAULTS : gmap string pyval) (platforms : result (list string))
    (known : result (gmap string pyval)) (path_exists : pyval → result bool)
    (s : state) :
  truthy (silent_flag s) = true →
  let quiet := validated_parameters DEFAULTS platforms known path_exists s in
  let loud :=
    validated_parameters DEFAULTS platforms known path_exists
      (State (delete "silent" (dictionary s)) (log s)) in
  quiet.1 = loud.1
  ∧ dictionary quiet.2 = dictionary loud.2
  ∧ ∃ first rest,
      log loud.2 = log s ++ first ++ rest
      ∧ log quiet.2 = log s ++ rest
      ∧ (length first ≤ 1)%nat
      ∧ forallb is_debug_diagnostic first = true.
Proof.
  intros Hs. cbv zeta. unfold validated_parameters.
  rewrite !(bind_unfold (get "motes")).
  change (get "motes" s) with (Ok (dict_get (dictionary s) "motes"), s).
  change (get "motes" (State (delete "silent" (dictionary s)) (log s)))
    with (Ok (dict_get (delete "silent" (dictionary s)) "motes"),
          State (delete "silent" (dictionary s)) (log s)).
  cbv beta iota.
  assert (Hm : dict_get (delete "silent" (dictionary s)) "motes"
               = dict_get (dictionary s) "motes")
    by (unfold dict_get; by rewrite lookup_delete_ne).
  rewrite Hm. clear Hm.
  match goal with
  | |- context [bind (get_parameter DEFAULTS "simulation" "debug" _ _ _) ?k] =>
      set (K := k)
  end.
  assert (HK : ∀ v, log_local (K v)).
  { intros v. unfold K. log_local_steps. }
  clearbody K.
  rewrite !bind_unfold, !get_parameter_scalar.
  cbn [dictionary log]. rewrite delete_delete_eq.
  unfold after_call, silent_flag. cbn [dictionary log].
  rewrite lookup_delete_eq, !delete_delete_eq. cbn [from_option id truthy].
  unfold silent_flag in Hs. rewrite Hs.
  destruct (looked_up _ _ _ _ _) as [param|e]; cbn.
  2:{ split_and!; [done..|]. exists nil, nil.
      split_and!; [by rewrite ?app_nil_r..|simpl; lia|done]. }
  destruct (is_bool param); cbn.
  - rewrite !app_nil_r. split_and!; [done..|]. exists nil.
    rewrite (HK param (delete "silent" (dictionary s)) (log s)).
    cbn. eexists. split_and!; [done..|simpl; lia|done].
  - destruct (DEFAULTS !! "debug") as [d|]; cbn.
    2:{ split_and!; [done..|]. exists nil, nil.
      split_and!; [by rewrite ?app_nil_r..|simpl; lia|done]. }
    rewrite !app_nil_r.
    rewrite (HK d (delete "silent" (dictionary s)) (log s)).
    rewrite (HK d (delete "silent" (dictionary s)) (log s ++ _)).
    cbn. split_and!; [done..|].
    eexists [_], _. rewrite <- app_assoc.
    split_and!; [done..|simpl; lia|done].
Qed.

Lemma silent_silences_first_parameter_only_witness :
  let quiet :=
    validated_parameters DEFAULTS_example (Ok platforms_example) (Ok blocks_example)
      exists_example silenced_example in
  let loud :=
    validated_parameters DEFAULTS_example (Ok platforms_example) (Ok blocks_example)
      exists_example
      (State (delete "silent" (dictionary silenced_example))
         (log silenced_example)) in
  quiet.1 = loud.1
  ∧ dictionary quiet.2 = dictionary loud.2
  ∧ ∃ first rest,
      log loud.2 = log silenced_example ++ first ++ rest
      ∧ log quiet.2 = log silenced_example ++ rest
      ∧ (length first ≤ 1)%nat
      ∧ forallb is_debug_diagnostic first = true.
Proof.
  apply (silent_silences_first_parameter_only DEFAULTS_example
           (Ok platforms_example) (Ok blocks_example) exists_example silenced_example).
  vm_compute. reflexivity.
Defined.

(** The diagnostic of [duration] is logged although the configuration
    is silenced. *)
Example silenced_example_log :
  log (validated_parameters DEFAULTS_example (Ok platforms_example)
         (Ok blocks_example) exists_example silenced_example).2
  = [SetToDefault "simulation" "duration"
       (Some (Text "is not an integer greater than 0")) (VInt 300)].
Proof. vm_compute. reflexivity. Qed.

(** ** What a build leaves behind *)

Lemma dictionary_stable_ret {A} (a : A) : dictionary_stable (ret a).
Proof. by intros s _. Qed.

Lemma dictionary_stable_lift {A} (r : result A) : dictionary_stable (lift r).
Proof. by intros s _. Qed.

Lemma dictionary_stable_get key : dictionary_stable (get key).
Proof. by intros s _. Qed.

Lemma dictionary_stable_bind {A B} (m : M state A) (k : A → M state B) :
  dictionary_stable m → (∀ a, dictionary_stable (k a)) →
  dictionary_stable (bind m k).
Proof.
  intros Hm Hk s Hs. rewrite bind_unfold. specialize (Hm s Hs).
  destruct (m s) as [[a|e] s1]; simpl in *; [|done].
  rewrite Hk; [done|]. by rewrite Hm.
Qed.

Lemma dictionary_stable_get_parameter DEFAULTS section key condition reason
    default :
  dictionary_stable
    (get_parameter DEFAULTS section key condition reason default).
Proof.
  intros s Hs. rewrite get_parameter_dictionary. by apply delete_id.
Qed.

Ltac dictionary_stable_steps :=
  repeat first
    [ apply dictionary_stable_ret
    | apply dictionary_stable_lift
    | apply dictionary_stable_get
    | apply dictionary_stable_get_parameter
    | apply dictionary_stable_bind; [|intros ?] ].

Lemma log_local_validated_parameters DEFAULTS platforms known path_exists :
  log_local (validated_parameters DEFAULTS platforms known path_exists).
Proof. unfold validated_parameters. log_local_steps. Qed.

(** X8: all a build does to the configuration dictionary, whatever its
    outcome, is to remove [silent]; and it only appends to the log. *)
Theorem validated_parameters_keeps_configuration
    (DEFAULTS : gmap string pyval) (platforms : result (list string))
    (known : result (gmap string pyval)) (path_exists : pyval → result bool)
    (s : state) :
  let s' :=
    (validated_parameters DEFAULTS platforms known path_exists s).2 in
  dictionary s' = delete "silent" (dictionary s)
  ∧ (∀ k, k ≠ "silent" → dictionary s' !! k = dictionary s !! k)
  ∧ ∃ out, log s' = log s ++ out.
Proof.
  cbv zeta.
  assert (Hd : dictionary
                 (validated_parameters DEFAULTS platforms known path_exists
                    s).2
               = delete "silent" (dictionary s)).
  { unfold validated_parameters.
    rewrite (bind_unfold (get "motes")).
    change (get "motes" s) with (Ok (dict_get (dictionary s) "motes"), s).
    cbv beta iota.
    match goal with
    | |- context [bind (get_parameter DEFAULTS "simulation" "debug" _ _ _)
                    ?k] => set (K := k)
    end.
    assert (HK : ∀ v, dictionary_stable (K v)).
    { intros v. unfold K. dictionary_stable_steps. }
    clearbody K. rewrite bind_unfold.
    match goal with
    | |- context [get_parameter ?D ?a ?b ?c ?d ?e s] =>
        pose proof (get_parameter_dictionary D a b c d e s) as Hg;
        destruct (get_parameter D a b c d e s) as [[v|e'] s1]
    end; simpl in Hg; [|done].
    rewrite HK; [done|]. rewrite Hg. apply lookup_delete_eq. }
  split_and!.
  - exact Hd.
  - intros k Hk. rewrite Hd. by apply lookup_delete_ne.
  - destruct s as [d l].
    rewrite (log_local_validated_parameters _ _ _ _ d l). simpl.
    by eexists.
Qed.

(** X9: a returned parameter set has the eighteen parameters and no
    other, and its [motes] is the [motes] entry of the configuration as
    it stands, [None] when there is none: it is not validated. *)
Theorem parameter_set_shape
    (DEFAULTS : gmap string pyval) (platforms : result (list string))
    (known : result (gmap string pyval)) (path_exists : pyval → result bool)
    (s s' : state) (params : gmap string pyval) :
  validated_parameters DEFAULTS platforms known path_exists s
    = (Ok params, s') →
  dom params = list_to_set parameter_keys
  ∧ params !! "motes" = Some (dict_get (dictionary s) "motes").
Proof.
  intros H. unfold validated_parameters in H.
  do 21 inv_step H.
  unfold ret in H. injection H as <- <-.
  match goal with
  | Hs : get "motes" _ = _ |- _ => unfold get in Hs; injection Hs as <- <-
  end.
  split.
  - rewrite !dom_insert_L, dom_singleton_L. simpl.
    by rewrite union_empty_r_L.
  - rewrite !lookup_insert_ne by done. by rewrite lookup_singleton_eq.
Qed.

Lemma parameter_set_shape_witness :
  dom sky_params_example = list_to_set parameter_keys
  ∧ sky_params_example !! "motes"
    = Some (dict_get (dictionary sky_example) "motes").
Proof.
  refine (parameter_set_shape DEFAULTS_example (Ok platforms_example)
            (Ok blocks_example) exists_example sky_example
            (validated_parameters DEFAULTS_example (Ok platforms_example)
               (Ok blocks_example) exists_example sky_example).2
            sky_params_example _).
  vm_compute. reflexivity.
Defined.

(** ** Values read from the registry *)

Lemma get_parameter_falsy DEFAULTS section key f reason default s raw d :
  raw_value (delete "silent" (dictionary s)) section key = Ok raw →
  truthy raw = false →
  DEFAULTS !! key = Some d →
  is_none d = false →
  (get_parameter DEFAULTS section key (CondFn f) reason default s).1
  = match f d with Ok _ => Ok d | Raise e => Raise e end.
Proof.
  intros Hraw Hfalsy Hd Hnone.
  rewrite get_parameter_scalar. unfold looked_up.
  unfold raw_value in Hraw. rewrite Hraw.
  unfold py_or. rewrite Hfalsy.
  unfold dict_get. rewrite Hd. simpl.
  rewrite Hnone. simpl.
  by destruct (f d) as [[|]|e].
Qed.

(** X10: a falsy value counts as no value.  When the section gives
    [key] a falsy value ([False], [0], an empty string or list) or none,
    and the registry has a default other than [None], a scalar call
    validates and returns the registered default, whatever the value
    and the [default] argument are. *)
Theorem falsy_value_reads_registry
    (DEFAULTS : gmap string pyval) (section key : string)
    (f : pyval → result bool) (reason : option text) (default : pyval)
    (s : state) (raw d : pyval) :
  raw_value (delete "silent" (dictionary s)) section key = Ok raw →
  truthy raw = false →
  DEFAULTS !! key = Some d →
  is_none d = false →
  (get_parameter DEFAULTS section key (CondFn f) reason default s).1
  = match f d with Ok _ => Ok d | Raise e => Raise e end.
Proof. apply get_parameter_falsy. Qed.

Lemma falsy_value_reads_registry_witness :
  (get_parameter DEFAULTS_example "simulation" "debug"
     (CondFn (fun x => Ok (is_bool x))) (Some (Text "is not a boolean"))
     VNone debug_off_example).1
  = match Ok (is_bool (VBool true)) with
    | Ok _ => Ok (VBool true)
    | Raise e => Raise e
    end.
Proof.
  refine (falsy_value_reads_registry DEFAULTS_example "simulation" "debug"
            (fun x => Ok (is_bool x)) (Some (Text "is not a boolean")) VNone
            debug_off_example (VBool false) (VBool true) _ _ _ _).
  all: vm_compute; reflexivity.
Defined.

Lemma get_parameter_without_silent DEFAULTS section key condition reason
    default s r s1 :
  get_parameter DEFAULTS section key condition reason default s = (r, s1) →
  delete "silent" (dictionary s1) = delete "silent" (dictionary s).
Proof.
  intros H.
  pose proof (get_parameter_dictionary DEFAULTS section key condition
                reason default s) as Hd.
  rewrite H in Hd. simpl in Hd. by rewrite Hd, delete_delete_eq.
Qed.

(** X11: the platform of the malicious mote does not follow the
    platform of the simulation.  When the [malicious] section gives no
    target and the registry has a default target, the
    [malicious_target] of a returned parameter set is the registered
    default, whatever its [target] is. *)
Theorem malicious_target_reads_registry
    (DEFAULTS : gmap string pyval) (platforms : result (list string))
    (known : result (gmap string pyval)) (path_exists : pyval → result bool)
    (s s' : state) (params : gmap string pyval) (raw d : pyval) :
  validated_parameters DEFAULTS platforms known path_exists s
    = (Ok params, s') →
  raw_value (delete "silent" (dictionary s)) "malicious" "target" = Ok raw →
  truthy raw = false →
  DEFAULTS !! "target" = Some d →
  is_none d = false →
  params !! "malicious_target" = Some d.
Proof.
  intros H Hraw Hfalsy Hd Hnone.
  unfold validated_parameters in H.
  do 21 inv_step H.
  unfold ret in H. injection H as <- <-.
  repeat match goal with
  | Hs : get _ _ = _ |- _ => unfold get in Hs; injection Hs as <- <-
  | Hs : lift _ _ = _ |- _ => unfold lift in Hs; injection Hs as Hs <-
  end.
  repeat match goal with
  | Hs : get_parameter _ _ _ _ _ _ ?s0 = (_, ?s1),
    Hl : raw_value (delete "silent" (dictionary ?s0)) _ _ = _ |- _ =>
      lazymatch goal with
      | _ : raw_value (delete "silent" (dictionary s1)) _ _ = _ |- _ => fail
      | _ =>
          let Hn := fresh "Hraw" in
          pose proof Hl as Hn;
          rewrite <- (get_parameter_without_silent _ _ _ _ _ _ _ _ _ Hs)
            in Hn
      end
  end.
  match goal with
  | Hs : get_parameter ?D "malicious" "target" (CondFn ?f) ?reason ?dflt ?s0
         = _,
    Hl : raw_value (delete "silent" (dictionary ?s0)) _ _ = _ |- _ =>
      pose proof (get_parameter_falsy D "malicious" "target" f reason dflt
                    s0 raw d Hl Hfalsy Hd Hnone) as Hv;
      rewrite Hs in Hv; simpl in Hv; unfold is_platform in Hv;
      destruct platforms as [found|]; [|discriminate Hv];
      injection Hv as ->
  end.
  rewrite !lookup_insert_ne by done; by rewrite lookup_insert_eq.
Qed.

Lemma malicious_target_reads_registry_witness :
  sky_params_example !! "malicious_target" = Some (VStr "z1").
Proof.
  refine (malicious_target_reads_registry DEFAULTS_example (Ok platforms_example)
            (Ok blocks_example) exists_example sky_example
            (validated_parameters DEFAULTS_example (Ok platforms_example)
               (Ok blocks_example) exists_example sky_example).2
            sky_params_example VNone (VStr "z1") _ _ _ _ _).
  all: vm_compute; reflexivity.
Defined.

(** * Further properties of the schema matcher *)

Section MatcherReadOnly.

Variable EXPERIMENT_STRUCTURE : nat.
Variable remove_files : list string → string → node → result node.

(** Neither [create] nor [remove]: the loop leaves the tree alone. *)
Lemma check_structure_loop_tree recurse path files items :
  (∀ p f w, tree (recurse p f w).2 = tree w) →
  ∀ w,
    tree (check_structure_loop remove_files recurse path files false items
            w).2 = tree w.
Proof.
  intros Hrec. induction items as [|item items IH]; intros w; [done|].
  simpl. rewrite bind_unfold. unfold deref at 1. cbv beta iota.
  destruct (schema_match _ item) as [match_|].
  - rewrite bind_unfold.
    assert (Hassign : ∀ b w1,
      tree w1 = tree w →
      tree ((_ <- assign files match_ (SBool b) ;;
             check_structure_loop remove_files recurse path files false
               items) w1).2 = tree w).
    { intros b w1 H1. rewrite bind_unfold. unfold assign at 1.
      cbv beta iota. by rewrite IH. }
    destruct (files_get _ match_) as [[b|sub]|].
    + by apply Hassign.
    + rewrite bind_unfold. unfold deepcopy at 1. cbv beta iota.
      match goal with
      | |- context [recurse ?p ?f ?w0] =>
          pose proof (Hrec p f w0) as Hr;
          destruct (recurse p f w0) as [[b|e] w1]
      end; simpl in Hr.
      * by apply Hassign.
      * done.
    + by apply Hassign.
  - rewrite bind_unfold. unfold ret at 1. cbv beta iota. apply IH.
Qed.

Lemma check_structure_rec_tree depth : ∀ path files w,
  tree (check_structure_rec EXPERIMENT_STRUCTURE remove_files depth path
          files false false w).2 = tree w.
Proof.
  induction depth as [|depth IH]; intros path files w; [done|].
  simpl. rewrite bind_unfold. unfold exists_ at 1. cbv beta iota.
  rewrite bind_unfold. unfold ret at 1. cbv beta iota.
  assert (Hbody : ∀ ref w0,
    tree w0 = tree w →
    tree ((d <- deref ref ;;
       if from_option schema_truthy false (files_get d "*") then ret true
       else
         items <- listdir path ;;
         check_structure_loop remove_files
           (fun path' files' =>
              check_structure_rec EXPERIMENT_STRUCTURE remove_files depth
                path' (Some files') false false)
           path ref false items ;;;
         d <- deref ref ;;
         ret (forallb schema_truthy (map snd d))) w0).2 = tree w).
  { intros ref w0 H0. rewrite bind_unfold. unfold deref at 1.
    cbv beta iota.
    destruct (from_option schema_truthy false _); [done|].
    rewrite bind_unfold. unfold listdir at 1.
    destruct (os_listdir _ path) as [items|e]; [|done].
    cbv beta iota. rewrite bind_unfold.
    pose proof (check_structure_loop_tree
      (fun path' files' =>
         check_structure_rec EXPERIMENT_STRUCTURE remove_files depth
           path' (Some files') false false)
      path ref items (λ p f w1, IH p (Some f) w1) w0) as Hl.
    destruct (check_structure_loop _ _ _ _ _ _ w0) as [[[]|e] w1];
      simpl in Hl; [|simpl; congruence].
    rewrite bind_unfold. unfold deref, ret. simpl. congruence. }
  destruct files as [ref|].
  - rewrite bind_unfold. unfold ret at 1. cbv beta iota. by apply Hbody.
  - rewrite !bind_unfold. unfold deref at 1. cbv beta iota.
    unfold deepcopy at 1. cbv beta iota. by apply Hbody.
Qed.

End MatcherReadOnly.

(** X12: without [create] and [remove] the schema matcher only reads:
    whatever the schema and the outcome, an exception included, the file
    tree is the same after the call. *)
Theorem check_structure_only_reads
    (EXPERIMENT_STRUCTURE : nat)
    (remove_files : list string → string → node → result node)
    (path : list string) (files : option nat) (w : world) :
  tree (check_structure EXPERIMENT_STRUCTURE remove_files path files
          false false w).2 = tree w.
Proof. unfold check_structure. apply check_structure_rec_tree. Qed.

(** X13: a schema whose ['*'] entry is truthy accepts anything.  The
    entry is read before the folder is listed, so without [create] the
    call returns [True] and touches nothing, whether the path is a
    folder, a regular file or does not exist. *)
Theorem check_structure_accepts_anything
    (EXPERIMENT_STRUCTURE : nat)
    (remove_files : list string → string → node → result node)
    (path : list string) (files : option nat) (remove : bool) (w : world) :
  from_option schema_truthy false
    (files_get (content w (from_option id EXPERIMENT_STRUCTURE files)) "*")
    = true →
  (check_structure EXPERIMENT_STRUCTURE remove_files path files
     false remove w).1 = Ok true
  ∧ tree (check_structure EXPERIMENT_STRUCTURE remove_files path files
            false remove w).2 = tree w.
Proof.
  intros H.
  assert (∃ h, check_structure EXPERIMENT_STRUCTURE remove_files path files
                 false remove w = (Ok true, World (tree w) h)) as [h ->];
    [|done].
  unfold check_structure.
  fold (content w (from_option id EXPERIMENT_STRUCTURE files)).
  destruct (schema_depth _) as [|depth] eqn:Hd; [done|].
  unfold content in H.
  simpl. rewrite bind_unfold. unfold exists_ at 1. cbv beta iota.
  rewrite bind_unfold. unfold ret at 1. cbv beta iota.
  destruct files as [ref|]; simpl in H.
  - rewrite bind_unfold. unfold ret at 1. cbv beta iota.
    rewrite bind_unfold. unfold deref at 1. cbv beta iota.
    rewrite H. destruct w. by eexists.
  - rewrite !bind_unfold. unfold deref at 1. cbv beta iota.
    unfold deepcopy at 1. cbv beta iota.
    rewrite bind_unfold. unfold deref at 1. cbv beta iota. simpl.
    rewrite lookup_app_r by done. rewrite Nat.sub_diag. simpl.
    rewrite H. by eexists.
Qed.

Lemma check_structure_accepts_anything_witness :
  (check_structure 0 remove_nothing ["missing"] None false false
     open_schema_example).1 = Ok true
  ∧ tree (check_structure 0 remove_nothing ["missing"] None false false
            open_schema_example).2 = tree open_schema_example.
Proof.
  apply (check_structure_accepts_anything 0 remove_nothing ["missing"] None
           false open_schema_example).
  vm_compute. reflexivity.
Defined.

(** ** The verdict depends on the tree and on the schema only *)

Section MatcherAlike.

Variable EXPERIMENT_STRUCTURE : nat.
Variable remove_files : list string → string → node → result node.

Lemma alike_assign w1 f1 w2 f2 key v :
  alike w1 f1 w2 f2 →
  alike (assign f1 key v w1).2 f1 (assign f2 key v w2).2 f2.
Proof.
  intros (Ht & Hc & H1 & H2). unfold assign, alike, content in *. simpl.
  rewrite !length_insert, !list_lookup_insert_eq by done. simpl.
  by rewrite Hc.
Qed.

Lemma alike_copy w1 w2 sub :
  tree w1 = tree w2 →
  alike (World (tree w1) (heap w1 ++ [sub])) (length (heap w1))
        (World (tree w2) (heap w2 ++ [sub])) (length (heap w2)).
Proof.
  intros Ht. unfold alike, content. simpl.
  rewrite !length_app, !lookup_app_r, !Nat.sub_diag by done. simpl.
  split_and!; [done|done|lia|lia].
Qed.

Lemma alike_after_copy w1 f1 w2 f2 sub w1' w2' :
  alike w1 f1 w2 f2 →
  unchanged_where (λ l, l ≠ length (heap w1))
    (World (tree w1) (heap w1 ++ [sub])) w1' →
  unchanged_where (λ l, l ≠ length (heap w2))
    (World (tree w2) (heap w2 ++ [sub])) w2' →
  tree w1' = tree w2' →
  alike w1' f1 w2' f2.
Proof.
  intros (Ht & Hc & H1 & H2) [Hl1 Hu1] [Hl2 Hu2] Ht'.
  simpl in *. rewrite length_app in *. simpl in *.
  unfold alike, content in *. split_and!; [done| |lia|lia].
  rewrite Hu1, Hu2 by lia. by rewrite !lookup_app_l by done.
Qed.

Lemma check_structure_loop_alike recurse1 recurse2 path remove items :
  (∀ p c1 c2 w1 w2,
     alike w1 c1 w2 c2 →
     (recurse1 p c1 w1).1 = (recurse2 p c2 w2).1
     ∧ tree (recurse1 p c1 w1).2 = tree (recurse2 p c2 w2).2) →
  (∀ p c w r w',
     recurse1 p c w = (r, w') → unchanged_where (λ l, l ≠ c) w w') →
  (∀ p c w r w',
     recurse2 p c w = (r, w') → unchanged_where (λ l, l ≠ c) w w') →
  ∀ f1 f2 w1 w2,
    alike w1 f1 w2 f2 →
    (check_structure_loop remove_files recurse1 path f1 remove items w1).1
    = (check_structure_loop remove_files recurse2 path f2 remove items w2).1
    ∧ alike
        (check_structure_loop remove_files recurse1 path f1 remove items
           w1).2 f1
        (check_structure_loop remove_files recurse2 path f2 remove items
           w2).2 f2.
Proof.
  intros Hrec Hf1 Hf2.
  induction items as [|item items IH]; intros f1 f2 w1 w2 Ha; [done|].
  simpl. rewrite !(bind_unfold (deref _)). unfold deref. cbv beta iota.
  destruct Ha as (Ht & Hc & H1 & H2).
  assert (Ha : alike w1 f1 w2 f2) by done.
  unfold content in Hc. rewrite <- Hc.
  set (d := from_option id [] (heap w1 !! f1)).
  destruct (schema_match d item) as [match_|].
  - assert (Hassign : ∀ b w1' w2',
      alike w1' f1 w2' f2 →
      ((_ <- assign f1 match_ (SBool b) ;;
        check_structure_loop remove_files recurse1 path f1 remove items)
         w1').1
      = ((_ <- assign f2 match_ (SBool b) ;;
          check_structure_loop remove_files recurse2 path f2 remove items)
           w2').1
      ∧ alike
          ((_ <- assign f1 match_ (SBool b) ;;
            check_structure_loop remove_files recurse1 path f1 remove
              items) w1').2 f1
          ((_ <- assign f2 match_ (SBool b) ;;
            check_structure_loop remove_files recurse2 path f2 remove
              items) w2').2 f2).
    { intros b w1' w2' Ha'. rewrite !bind_unfold.
      pose proof (alike_assign _ _ _ _ match_ (SBool b) Ha') as Ha2.
      unfold assign in *. cbv beta iota. simpl in Ha2. by apply IH. }
    rewrite !(bind_unfold (match files_get d match_ with _ => _ end)).
    destruct (files_get d match_) as [[b|sub]|].
    + unfold ret at 1 3. cbv beta iota. by apply Hassign.
    + rewrite !(bind_unfold (deepcopy sub)). unfold deepcopy.
      cbv beta iota.
      pose proof (alike_copy w1 w2 sub Ht) as Hcopy.
      destruct (Hrec (join path match_) _ _ _ _ Hcopy) as [Hr Htr].
      destruct (recurse1 _ _ (World (tree w1) _)) as [r1 w1'] eqn:E1.
      destruct (recurse2 _ _ (World (tree w2) _)) as [r2 w2'] eqn:E2.
      simpl in Hr, Htr. subst r2.
      apply Hf1 in E1. apply Hf2 in E2.
      pose proof (alike_after_copy _ _ _ _ _ _ _ Ha E1 E2 Htr) as Ha'.
      destruct r1 as [b|e]; [by apply Hassign|done].
    + unfold ret at 1 3. cbv beta iota. by apply Hassign.
  - rewrite !(bind_unfold (if remove then _ else _)).
    destruct remove.
    + unfold remove_files_. rewrite <- Ht.
      destruct (remove_files path item (tree w1)) as [t|e]; [|done].
      apply IH. unfold alike, content in *. simpl. by rewrite Hc.
    + unfold ret at 1 3. cbv beta iota. by apply IH.
Qed.


Lemma check_structure_rec_frame_ref depth path c create remove w r w' :
  check_structure_rec EXPERIMENT_STRUCTURE remove_files depth path (Some c)
    create remove w = (r, w') →
  unchanged_where (λ l, l ≠ c) w w'.
Proof.
  intros H. apply check_structure_rec_frame in H as [H1 H2].
  split; [done|]. intros l Hl Hne. apply H2; [done|congruence].
Qed.

(** The two runs of [check_structure_rec], on the objects [files1] and
    [files2] or on copies of the template. *)
Lemma check_structure_rec_alike depth :
  ∀ path files1 files2 create remove w1 w2,
    tree w1 = tree w2 →
    match files1, files2 with
    | Some f1, Some f2 => alike w1 f1 w2 f2
    | None, None =>
        content w1 EXPERIMENT_STRUCTURE = content w2 EXPERIMENT_STRUCTURE
    | _, _ => False
    end →
    same_outcome
      (check_structure_rec EXPERIMENT_STRUCTURE remove_files depth path
         files1 create remove w1)
      (check_structure_rec EXPERIMENT_STRUCTURE remove_files depth path
         files2 create remove w2).
Proof.
  induction depth as [|depth IH];
    intros path files1 files2 create remove w1 w2 Ht Hfiles; [done|].
  simpl. rewrite !(bind_unfold (exists_ path)). unfold exists_.
  cbv beta iota. rewrite <- Ht.
  rewrite !(bind_unfold (if create && _ then _ else _)).
  (* the body, once the working dictionaries are named *)
  assert (Hbody : ∀ f1 f2 w1 w2,
    alike w1 f1 w2 f2 →
    let body := λ ref,
      d <- deref ref ;;
      if from_option schema_truthy false (files_get d "*") then ret true
      else
        items <- listdir path ;;
        let items :=
          if create then
            map fst (List.filter (fun '(_, f) => negb (is_sbool f)) d)
              ++ items
          else items in
        check_structure_loop remove_files
          (fun path' files' =>
             check_structure_rec EXPERIMENT_STRUCTURE remove_files depth
               path' (Some files') create remove)
          path ref remove items ;;;
        d <- deref ref ;;
        ret (forallb schema_truthy (map snd d)) in
    same_outcome (body f1 w1) (body f2 w2)).
  { clear w1 w2 Ht Hfiles. intros f1 f2 w1 w2 Ha. cbv beta zeta.
    rewrite !(bind_unfold (deref _)). unfold deref at 1 3.
    cbv beta iota.
    destruct Ha as (Ht & Hc & H1 & H2).
    assert (Ha : alike w1 f1 w2 f2) by done.
    unfold content in Hc. rewrite <- Hc.
    set (d := from_option id [] (heap w1 !! f1)).
    destruct (from_option schema_truthy false (files_get d "*"));
      [by split|].
    rewrite !(bind_unfold (listdir path)). unfold listdir. rewrite <- Ht.
    destruct (os_listdir (tree w1) path) as [items|e]; [|by split].
    cbv beta iota zeta.
    set (items' := if create then _ else items).
    rewrite !(bind_unfold (check_structure_loop _ _ _ _ _ _)).
    destruct (check_structure_loop_alike
                (fun path' files' =>
                   check_structure_rec EXPERIMENT_STRUCTURE remove_files
                     depth path' (Some files') create remove)
                (fun path' files' =>
                   check_structure_rec EXPERIMENT_STRUCTURE remove_files
                     depth path' (Some files') create remove)
                path remove items') with (f1 := f1) (f2 := f2)
                (w1 := w1) (w2 := w2) as [Hr Ha'].
    { intros p c1 c2 w3 w4 Ha3. apply IH; [apply Ha3|exact Ha3]. }
    { intros p c w r w'. apply check_structure_rec_frame_ref. }
    { intros p c w r w'. apply check_structure_rec_frame_ref. }
    { exact Ha. }
    destruct (check_structure_loop _ _ _ f1 _ _ w1) as [r1 w1'].
    destruct (check_structure_loop _ _ _ f2 _ _ w2) as [r2 w2'].
    simpl in Hr, Ha'. subst r2. destruct Ha' as (Ht' & Hc' & _ & _).
    destruct r1 as [[]|e]; [|by split].
    rewrite !bind_unfold. unfold deref, ret. split; simpl; [|done].
    unfold content in Hc'. by rewrite Hc'. }
  assert (Hfiles' : ∀ w1' w2',
    tree w1' = tree w2' → heap w1' = heap w1 → heap w2' = heap w2 →
    match files1, files2 with
    | Some f1, Some f2 => alike w1' f1 w2' f2
    | None, None =>
        content w1' EXPERIMENT_STRUCTURE = content w2' EXPERIMENT_STRUCTURE
    | _, _ => False
    end).
  { intros w1' w2' Ht' Hh1 Hh2. unfold alike, content in *.
    rewrite Hh1, Hh2. destruct files1, files2; try done.
    by destruct Hfiles as (_ & ? & ? & ?). }
  assert (Hgo : ∀ w1' w2',
    tree w1' = tree w2' → heap w1' = heap w1 → heap w2' = heap w2 →
    let rest := λ files : option nat,
      files <- match files with
               | None =>
                   template <- deref EXPERIMENT_STRUCTURE ;;
                   deepcopy template
               | Some files => ret files
               end ;;
      d <- deref files ;;
      if from_option schema_truthy false (files_get d "*") then ret true
      else
        items <- listdir path ;;
        let items :=
          if create then
            map fst (List.filter (fun '(_, f) => negb (is_sbool f)) d)
              ++ items
          else items in
        check_structure_loop remove_files
          (fun path' files' =>
             check_structure_rec EXPERIMENT_STRUCTURE remove_files depth
               path' (Some files') create remove)
          path files remove items ;;;
        d <- deref files ;;
        ret (forallb schema_truthy (map snd d)) in
    same_outcome (rest files1 w1') (rest files2 w2')).
  { intros w1' w2' Ht' Hh1 Hh2. cbv beta zeta.
    specialize (Hfiles' w1' w2' Ht' Hh1 Hh2).
    destruct files1 as [f1|], files2 as [f2|]; try done.
    - rewrite !(bind_unfold (ret _)). unfold ret at 1 3. cbv beta iota.
      by apply Hbody.
    - rewrite !(bind_unfold (bind _ _)).
      rewrite !(bind_unfold (deref EXPERIMENT_STRUCTURE)).
      unfold deref at 1 4. cbv beta iota. unfold deepcopy.
      cbv beta iota. unfold content in Hfiles'. rewrite <- Hfiles'.
      apply Hbody. by apply alike_copy. }
  destruct (create && negb (os_exists (tree w1) path)).
  - unfold makedirs. rewrite <- Ht.
    destruct (os_makedirs (tree w1) path) as [t|e]; [|by split].
    by apply Hgo.
  - unfold ret at 1 3. cbv beta iota. by apply Hgo.
Qed.

(** A call on a copy of the template returns the same in two worlds
    with the same tree and the same template. *)
Lemma check_structure_alike path create remove w1 w2 :
  tree w1 = tree w2 →
  content w1 EXPERIMENT_STRUCTURE = content w2 EXPERIMENT_STRUCTURE →
  (check_structure EXPERIMENT_STRUCTURE remove_files path None create remove
     w1).1
  = (check_structure EXPERIMENT_STRUCTURE remove_files path None create
       remove w2).1.
Proof.
  intros Ht Hc. unfold check_structure.
  change (from_option id EXPERIMENT_STRUCTURE None)
    with EXPERIMENT_STRUCTURE.
  cbv zeta. unfold content in Hc. rewrite <- Hc.
  by apply (check_structure_rec_alike _ path None None create remove w1 w2).
Qed.

End MatcherAlike.

(** * Properties of the listings *)

(** ** [sorted] *)

Lemma insert_sorted_perm x l : insert_sorted x l ≡ₚ x :: l.
Proof.
  induction l as [|y l IH]; simpl; [done|].
  destruct (String.leb x y); [done|].
  rewrite IH. apply Permutation_swap.
Qed.

Lemma sorted_perm l : sorted l ≡ₚ l.
Proof.
  induction l as [|x l IH]; simpl; [done|].
  by rewrite insert_sorted_perm, IH.
Qed.

Lemma insert_sorted_Sorted x l :
  Sorted str_le l → Sorted str_le (insert_sorted x l).
Proof.
  induction 1 as [|y l Hl IH Hy]; simpl.
  - by repeat constructor.
  - destruct (String.leb x y) eqn:E.
    + constructor; [by constructor|]. by constructor.
    + constructor; [done|].
      assert (Hyx : str_le y x).
      { destruct (String.leb_total x y) as [H|H]; [|done]. congruence. }
      destruct Hy as [|z l Hz]; simpl; [by constructor|].
      destruct (String.leb x z); by constructor.
Qed.

Lemma sorted_Sorted l : Sorted str_le (sorted l).
Proof.
  induction l as [|x l IH]; simpl; [constructor|].
  by apply insert_sorted_Sorted.
Qed.

Lemma elem_of_sorted x l : x ∈ sorted l ↔ x ∈ l.
Proof. by rewrite sorted_perm. Qed.

(** ** [list_experiments] *)

Section ExperimentsFacts.

Variable EXPERIMENT_FOLDER : list string.
Variable EXPERIMENT_STRUCTURE : nat.
Variable remove_files : list string → string → node → result node.

Lemma check_structure_template path w :
  (EXPERIMENT_STRUCTURE < length (heap w))%nat →
  let w' := (check_structure EXPERIMENT_STRUCTURE remove_files path None
               false false w).2 in
  tree w' = tree w
  ∧ content w' EXPERIMENT_STRUCTURE = content w EXPERIMENT_STRUCTURE
  ∧ (EXPERIMENT_STRUCTURE < length (heap w'))%nat.
Proof.
  intros Hes. cbv zeta. unfold check_structure.
  split; [apply check_structure_rec_tree|].
  destruct (check_structure_rec _ _ _ _ _ _ _ w) as [r w'] eqn:H.
  apply check_structure_rec_frame in H as [Hl Hu]. simpl.
  unfold content. rewrite Hu by done. split; [done|lia].
Qed.

Lemma list_experiments_loop_spec items : ∀ w r w',
  (EXPERIMENT_STRUCTURE < length (heap w))%nat →
  list_experiments_loop EXPERIMENT_FOLDER EXPERIMENT_STRUCTURE remove_files
    items w = (r, w') →
  tree w' = tree w
  ∧ content w' EXPERIMENT_STRUCTURE = content w EXPERIMENT_STRUCTURE
  ∧ ∀ l, r = Ok l →
      l = List.filter
            (conforming EXPERIMENT_FOLDER EXPERIMENT_STRUCTURE remove_files w)
            items.
Proof.
  induction items as [|d items IH]; intros w r w' Hes H.
  - injection H as <- <-. split_and!; [done..|]. by intros l [= <-].
  - simpl in H. rewrite bind_unfold in H. unfold isdir at 1 in H.
    cbv beta iota in H. rewrite bind_unfold in H.
    simpl. unfold conforming at 1.
    set (candidate := os_isdir _ _ && negb _) in *.
    assert (Hrest : ∀ (keep : bool) w1,
      tree w1 = tree w →
      content w1 EXPERIMENT_STRUCTURE = content w EXPERIMENT_STRUCTURE →
      (EXPERIMENT_STRUCTURE < length (heap w1))%nat →
      (rest <- list_experiments_loop EXPERIMENT_FOLDER
                 EXPERIMENT_STRUCTURE remove_files items ;;
       ret (if keep then d :: rest else rest)) w1 = (r, w') →
      tree w' = tree w
      ∧ content w' EXPERIMENT_STRUCTURE = content w EXPERIMENT_STRUCTURE
      ∧ ∀ l, r = Ok l →
          l = (if keep then
                 d :: List.filter
                        (conforming EXPERIMENT_FOLDER EXPERIMENT_STRUCTURE
                           remove_files w) items
               else
                 List.filter
                   (conforming EXPERIMENT_FOLDER EXPERIMENT_STRUCTURE
                      remove_files w) items)).
    { intros keep w1 Ht Hc Hes1 H1. rewrite bind_unfold in H1.
      assert (Hsame :
        List.filter
          (conforming EXPERIMENT_FOLDER EXPERIMENT_STRUCTURE remove_files w1)
          items
        = List.filter
            (conforming EXPERIMENT_FOLDER EXPERIMENT_STRUCTURE remove_files w)
            items).
      { apply List.filter_ext. intros x. unfold conforming.
        rewrite Ht.
        by rewrite (check_structure_alike EXPERIMENT_STRUCTURE remove_files
                      (join EXPERIMENT_FOLDER x) false false w1 w Ht Hc). }
      destruct (list_experiments_loop _ _ _ items w1) as [[rest|e] w2] eqn:E;
        apply IH in E as (Ht2 & Hc2 & Hl2); [|done| |done].
      - injection H1 as <- <-. split_and!; [congruence..|]. intros l [= <-].
        rewrite <- Hsame, <- (Hl2 rest eq_refl). by destruct keep.
      - injection H1 as <- <-. split_and!; [congruence..|done]. }
    destruct candidate; cbn [andb].
    + pose proof (check_structure_template (join EXPERIMENT_FOLDER d) w Hes)
        as (Ht & Hc & Hes1).
      destruct (check_structure _ _ _ None false false w) as [[keep|e] w1];
        simpl in Ht, Hc, Hes1.
      * destruct (Hrest keep w1 Ht Hc Hes1 H) as (H1 & H2 & H3).
        split_and!; [done..|]. intros l Hl. rewrite (H3 l Hl).
        by destruct keep.
      * injection H as <- <-. by split_and!.
    + unfold ret at 1 in H. cbv beta iota in H.
      by apply (Hrest false w).
Qed.

End ExperimentsFacts.

(** X14: [list_experiments] lists, in order, the entries of the
    experiment folder that are folders, are not hidden and have the
    structure of the template: a returned list is the sorted list of
    the entries that [check_structure] accepts, and neither the file
    tree nor the template has changed. *)
Theorem list_experiments_lists_conforming
    (EXPERIMENT_FOLDER : list string) (EXPERIMENT_STRUCTURE : nat)
    (remove_files : list string → string → node → result node)
    (w w' : world) (l : list string) :
  (EXPERIMENT_STRUCTURE < length (heap w))%nat →
  list_experiments EXPERIMENT_FOLDER EXPERIMENT_STRUCTURE remove_files w
    = (Ok l, w') →
  ∃ items,
    os_listdir (tree w) EXPERIMENT_FOLDER = Ok items
    ∧ l = sorted
            (List.filter
               (conforming EXPERIMENT_FOLDER EXPERIMENT_STRUCTURE
                  remove_files w) items)
    ∧ Sorted str_le l
    ∧ (∀ d, d ∈ l ↔
         d ∈ items
         ∧ conforming EXPERIMENT_FOLDER EXPERIMENT_STRUCTURE remove_files
             w d = true)
    ∧ tree w' = tree w
    ∧ content w' EXPERIMENT_STRUCTURE = content w EXPERIMENT_STRUCTURE.
Proof.
  intros Hes H. unfold list_experiments in H.
  rewrite bind_unfold in H. unfold listdir at 1 in H.
  destruct (os_listdir (tree w) EXPERIMENT_FOLDER) as [items|e]; [|done].
  cbv beta iota in H. rewrite bind_unfold in H.
  destruct (list_experiments_loop _ _ _ items w) as [[l0|e] w1] eqn:E;
    [|done].
  apply list_experiments_loop_spec in E as (Ht & Hc & Hl); [|done].
  injection H as <- <-. rewrite (Hl l0 eq_refl).
  exists items. split_and!; [done|done|apply sorted_Sorted| |done|done].
  intros d. rewrite elem_of_sorted, !list_elem_of_In, filter_In.
  done.
Qed.

Lemma list_experiments_lists_conforming_witness :
  ∃ items,
    os_listdir (tree experiments_example) ["experiments"] = Ok items
    ∧ ["a-exp"; "b-exp"]
      = sorted
          (List.filter
             (conforming ["experiments"] 0 remove_nothing
                experiments_example) items)
    ∧ Sorted str_le ["a-exp"; "b-exp"]
    ∧ (∀ d, d ∈ ["a-exp"; "b-exp"] ↔
         d ∈ items
         ∧ conforming ["experiments"] 0 remove_nothing experiments_example
             d = true)
    ∧ tree (list_experiments ["experiments"] 0 remove_nothing
              experiments_example).2 = tree experiments_example
    ∧ content (list_experiments ["experiments"] 0 remove_nothing
                 experiments_example).2 0
      = content experiments_example 0.
Proof.
  apply (list_experiments_lists_conforming ["experiments"] 0 remove_nothing
           experiments_example).
  - simpl. lia.
  - vm_compute. reflexivity.
Defined.

(** ** [get_available_platforms] *)

Lemma get_available_platforms_loop_filter CONTIKI_FOLDER items :
  ∀ platforms w,
    get_available_platforms_loop CONTIKI_FOLDER items platforms w
    = (Ok (platforms
           ++ List.filter
                (λ item, os_isdir (tree w)
                           (join (join CONTIKI_FOLDER "platform") item))
                items), w).
Proof.
  induction items as [|item items IH]; intros platforms w; simpl.
  - by rewrite app_nil_r.
  - rewrite bind_unfold. unfold isdir at 1. cbv beta iota. rewrite IH.
    destruct (os_isdir _ _); [|done]. by rewrite <- app_assoc.
Qed.

Lemma get_available_platforms_filter CONTIKI_FOLDER w :
  get_available_platforms CONTIKI_FOLDER w
  = match os_listdir (tree w) (join CONTIKI_FOLDER "platform") with
    | Ok items =>
        (Ok (List.filter
               (λ item, os_isdir (tree w)
                          (join (join CONTIKI_FOLDER "platform") item))
               items), w)
    | Raise e => (Raise e, w)
    end.
Proof.
  unfold get_available_platforms. rewrite bind_unfold. unfold listdir at 1.
  destruct (os_listdir _ _) as [items|e]; [|done].
  by rewrite get_available_platforms_loop_filter.
Qed.

Lemma get_parameter_scalar_result DEFAULTS section key f reason default
    s v s' :
  get_parameter DEFAULTS section key (CondFn f) reason default s
    = (Ok v, s') →
  f v = Ok true ∨ DEFAULTS !! key = Some v.
Proof.
  rewrite get_parameter_scalar.
  destruct (looked_up _ _ _ _ _) as [param|e]; [|done].
  destruct (f param) as [[|]|e] eqn:Hf; [| |done].
  - intros [= <- _]. by left.
  - destruct (DEFAULTS !! key) as [d|]; [|done]. intros [= <- _]. by right.
Qed.

Lemma py_in_strings_true x l :
  py_in_strings x l = true → ∃ s, x = VStr s ∧ s ∈ l.
Proof.
  destruct x; try done. simpl. intros H.
  apply bool_decide_eq_true in H. by exists s.
Qed.

(** X15: the platforms of a validated parameter set exist.  When the
    platforms the validation accepts are those
    [get_available_platforms] finds, the [target] and the
    [malicious_target] of a returned parameter set are each the name of
    a folder of the [platform] folder of Contiki, or the registered
    default target. *)
Theorem validated_targets_are_platforms
    (CONTIKI_FOLDER : list string) (w w' : world)
    (DEFAULTS : gmap string pyval) (platforms : result (list string))
    (known : result (gmap string pyval))
    (path_exists : pyval → result bool)
    (s s' : state) (params : gmap string pyval) :
  get_available_platforms CONTIKI_FOLDER w = (platforms, w') →
  validated_parameters DEFAULTS platforms known path_exists s
    = (Ok params, s') →
  w' = w
  ∧ ∀ key v,
      key = "target" ∨ key = "malicious_target" →
      params !! key = Some v →
      DEFAULTS !! "target" = Some v
      ∨ ∃ name,
          v = VStr name
          ∧ os_isdir (tree w)
              (join (join CONTIKI_FOLDER "platform") name) = true.
Proof.
  intros Hp H.
  rewrite get_available_platforms_filter in Hp.
  assert (w' = w) as ->
    by (destruct (os_listdir _ _); by injection Hp).
  split; [done|].
  assert (Hv : ∀ v, is_platform platforms v = Ok true →
               ∃ name, v = VStr name
                 ∧ os_isdir (tree w)
                     (join (join CONTIKI_FOLDER "platform") name) = true).
  { intros x Hin. unfold is_platform in Hin.
    destruct (os_listdir _ _) as [items|e]; injection Hp as <-; [|done].
    injection Hin as Hin.
    apply py_in_strings_true in Hin as (name & -> & Hin).
    exists name. split; [done|].
    apply list_elem_of_In, filter_In in Hin. apply Hin. }
  unfold validated_parameters in H.
  do 21 inv_step H.
  unfold ret in H. injection H as <- <-.
  intros key val [->| ->] Hk.
  - rewrite !lookup_insert_ne in Hk by done.
    rewrite lookup_insert_eq in Hk. injection Hk as <-.
    match goal with
    | Hs : get_parameter _ "simulation" "target" _ _ _ _ = _ |- _ =>
        apply get_parameter_scalar_result in Hs as [Hs|Hs]
    end; [right; by apply Hv|by left].
  - rewrite !lookup_insert_ne in Hk by done.
    rewrite lookup_insert_eq in Hk. injection Hk as <-.
    match goal with
    | Hs : get_parameter _ "malicious" "target" _ _ _ _ = _ |- _ =>
        apply get_parameter_scalar_result in Hs as [Hs|Hs]
    end; [right; by apply Hv|by left].
Qed.

Lemma validated_targets_are_platforms_witness :
  contiki_example = contiki_example
  ∧ ∀ key v,
      key = "target" ∨ key = "malicious_target" →
      sky_params_example !! key = Some v →
      DEFAULTS_example !! "target" = Some v
      ∨ ∃ name,
          v = VStr name
          ∧ os_isdir (tree contiki_example)
              (join (join ["contiki"] "platform") name) = true.
Proof.
  refine (validated_targets_are_platforms ["contiki"] contiki_example
            contiki_example DEFAULTS_example (Ok platforms_example)
            (Ok blocks_example) exists_example sky_example
            (validated_parameters DEFAULTS_example (Ok platforms_example)
               (Ok blocks_example) exists_example sky_example).2
            sky_params_example _ _).
  all: vm_compute; reflexivity.
Defined.

(** ** [list_campaigns] *)

Lemma basename_name f : occurs "/" f = false → basename f = f.
Proof.
  intros H. unfold basename, rfind.
  rewrite rfind_from_absent by done. simpl.
  rewrite Nat.sub_0_r. apply substring_all.
Qed.

Lemma is_valid_campaign_true read loads path :
  is_valid_campaign read loads path = Ok true
  ↔ ∃ text v, read path = Ok text ∧ loads text = Ok v.
Proof.
  unfold is_valid_campaign, result_bind. split.
  - destruct (read path) as [text|[]]; try done.
    destruct (loads text) as [v|[]] eqn:Hv; try done. by exists text, v.
  - intros (text & v & -> & ->). done.
Qed.

Section CampaignsFacts.

Variable EXPERIMENT_FOLDER : list string.
Variable read : list string → result string.
Variable loads : string → result pyval.

Lemma list_campaigns_loop_spec items : ∀ w r w',
  list_campaigns_loop EXPERIMENT_FOLDER read loads items w = (r, w') →
  w' = w
  ∧ ∀ l, r = Ok l →
      l = map basename
            (List.filter (campaign EXPERIMENT_FOLDER read loads w) items).
Proof.
  induction items as [|f items IH]; intros w r w' H.
  - injection H as <- <-. split; [done|]. by intros l [= <-].
  - simpl in H. rewrite bind_unfold in H. unfold isfile at 1 in H.
    cbv beta iota in H. rewrite bind_unfold in H.
    simpl. unfold campaign at 1.
    set (candidate := os_isfile _ _ && endswith _ _) in *.
    assert (Hrest : ∀ (keep : bool),
      (rest <- list_campaigns_loop EXPERIMENT_FOLDER read loads items ;;
       ret (if keep then basename f :: rest else rest)) w = (r, w') →
      w' = w
      ∧ ∀ l, r = Ok l →
          l = map basename
                (if keep then
                   f :: List.filter
                          (campaign EXPERIMENT_FOLDER read loads w) items
                 else
                   List.filter (campaign EXPERIMENT_FOLDER read loads w)
                     items)).
    { intros keep H1. rewrite bind_unfold in H1.
      destruct (list_campaigns_loop _ _ _ items w) as [[rest|e] w2] eqn:E;
        apply IH in E as [-> Hl2].
      - injection H1 as <- <-. split; [done|]. intros l [= <-].
        rewrite (Hl2 rest eq_refl). by destruct keep.
      - injection H1 as <- <-. by split. }
    destruct candidate; cbn [andb].
    + unfold lift at 1 in H.
      destruct (is_valid_campaign read loads _) as [keep|e].
      * destruct (Hrest keep H) as [H1 H2]. split; [done|].
        intros l Hl. rewrite (H2 l Hl). by destruct keep.
      * injection H as <- <-. by split.
    + unfold ret at 1 in H. cbv beta iota in H. by apply (Hrest false).
Qed.

End CampaignsFacts.

(** X18: [list_campaigns] lists, in order, the base names of the
    regular files of the experiment folder that are named [*.json] and
    whose text is read and parsed; a file whose text raises a
    [ValueError] is left out.  The world is not changed, and the base
    name of an entry without a slash is the entry. *)
Theorem list_campaigns_lists_valid
    (EXPERIMENT_FOLDER : list string)
    (read : list string → result string) (loads : string → result pyval)
    (w w' : world) (l : list string) :
  list_campaigns EXPERIMENT_FOLDER read loads w = (Ok l, w') →
  w' = w
  ∧ ∃ items,
      os_listdir (tree w) EXPERIMENT_FOLDER = Ok items
      ∧ l = sorted
              (map basename
                 (List.filter (campaign EXPERIMENT_FOLDER read loads w)
                    items))
      ∧ Sorted str_le l
      ∧ (∀ c, c ∈ l ↔
           ∃ f text v,
             c = basename f ∧ f ∈ items
             ∧ os_isfile (tree w) (join EXPERIMENT_FOLDER f) = true
             ∧ endswith f ".json" = true
             ∧ read (join EXPERIMENT_FOLDER f) = Ok text
             ∧ loads text = Ok v)
      ∧ (Forall (λ f, occurs "/" f = false) items →
         l = sorted
               (List.filter (campaign EXPERIMENT_FOLDER read loads w)
                  items)).
Proof.
  intros H. unfold list_campaigns in H.
  rewrite bind_unfold in H. unfold listdir at 1 in H.
  destruct (os_listdir (tree w) EXPERIMENT_FOLDER) as [items|e]; [|done].
  cbv beta iota in H. rewrite bind_unfold in H.
  destruct (list_campaigns_loop _ _ _ items w) as [[l0|e] w1] eqn:E;
    [|done].
  apply list_campaigns_loop_spec in E as [-> Hl].
  injection H as <- <-. rewrite (Hl l0 eq_refl). split; [done|].
  exists items. split_and!; [done|done|apply sorted_Sorted| |].
  - intros c. rewrite elem_of_sorted, list_elem_of_fmap. split.
    + intros (f & -> & Hf).
      apply list_elem_of_In, filter_In in Hf as [Hin Hc].
      unfold campaign in Hc.
      apply andb_true_iff in Hc as [Hc Hv].
      apply andb_true_iff in Hc as [Hfile Hjson].
      assert (Hv' : is_valid_campaign read loads (join EXPERIMENT_FOLDER f)
                    = Ok true).
      { by destruct (is_valid_campaign _ _ _) as [[]|]. }
      apply is_valid_campaign_true in Hv' as (text & v & Hr & Hp).
      exists f, text, v. split_and!; try done. by apply list_elem_of_In.
    + intros (f & text & v & -> & Hin & Hfile & Hjson & Hr & Hp).
      exists f. split; [done|].
      apply list_elem_of_In, filter_In. split; [by apply list_elem_of_In|].
      unfold campaign. rewrite Hfile, Hjson.
      assert (Hv : is_valid_campaign read loads (join EXPERIMENT_FOLDER f)
                   = Ok true)
        by (apply is_valid_campaign_true; by exists text, v).
      by rewrite Hv.
  - intros Hnames. f_equal.
    rewrite <- (map_id (List.filter _ items)) at 2.
    apply map_ext_in. intros f Hf. apply filter_In in Hf as [Hin _].
    apply basename_name.
    rewrite Forall_forall in Hnames. apply Hnames.
    by apply list_elem_of_In.
Qed.

Lemma list_campaigns_lists_valid_witness :
  campaigns_example = campaigns_example
  ∧ ∃ items,
      os_listdir (tree campaigns_example) ["experiments"] = Ok items
      ∧ ["flood.json"; "rank.json"]
        = sorted
            (map basename
               (List.filter
                  (campaign ["experiments"] read_example loads_example
                     campaigns_example) items))
      ∧ Sorted str_le ["flood.json"; "rank.json"]
      ∧ (∀ c, c ∈ ["flood.json"; "rank.json"] ↔
           ∃ f text v,
             c = basename f ∧ f ∈ items
             ∧ os_isfile (tree campaigns_example) (join ["experiments"] f)
               = true
             ∧ endswith f ".json" = true
             ∧ read_example (join ["experiments"] f) = Ok text
             ∧ loads_example text = Ok v)
      ∧ (Forall (λ f, occurs "/" f = false) items →
         ["flood.json"; "rank.json"]
         = sorted
             (List.filter
                (campaign ["experiments"] read_example loads_example
                   campaigns_example) items)).
Proof.
  apply (list_campaigns_lists_valid ["experiments"] read_example
           loads_example campaigns_example campaigns_example).
  vm_compute. reflexivity.
Defined.

(** ** [get_path] *)

Lemma entry_set_entry entries name n name' :
  entry (set_entry entries name n) name'
  = if String.eqb name name' then Some n else entry entries name'.
Proof.
  induction entries as [|[k n0] entries IH]; simpl; [done|].
  destruct (String.eqb k name) eqn:E; simpl.
  - apply String.eqb_eq in E as ->. by destruct (String.eqb name name').
  - rewrite IH. destruct (String.eqb k name') eqn:E'; [|done].
    apply String.eqb_eq in E' as ->. by rewrite String.eqb_sym, E.
Qed.

Lemma entry_app entries name n name' :
  entry (entries ++ [(name, n)]) name'
  = match entry entries name' with
    | Some x => Some x
    | None => if String.eqb name name' then Some n else None
    end.
Proof.
  induction entries as [|[k n0] entries IH]; simpl; [done|].
  by destruct (String.eqb k name').
Qed.

Lemma kept_refl t : kept t t.
Proof.
  intros q. unfold os_isdir. by destruct (stat t q) as [[]|].
Qed.

Lemma kept_trans t1 t2 t3 : kept t1 t2 → kept t2 t3 → kept t1 t3.
Proof.
  intros H12 H23 q. specialize (H12 q). specialize (H23 q).
  unfold os_isdir in *.
  destruct (stat t1 q) as [[]|]; [| |done].
  - by rewrite H12 in H23.
  - by destruct (stat t2 q) as [[]|].
Qed.

Lemma stat_new_dirs path : os_isdir (new_dirs path) path = true.
Proof.
  unfold os_isdir. induction path as [|name path IH]; simpl; [done|].
  by rewrite String.eqb_refl.
Qed.

(** What [os.makedirs] gives: the folder, beside all there was. *)
Lemma os_makedirs_kept path : ∀ root t,
  os_makedirs root path = Ok t →
  os_isdir t path = true ∧ kept root t.
Proof.
  induction path as [|name path IH]; intros root t H; simpl in H; [done|].
  destruct root as [|entries]; [done|].
  destruct (entry entries name) as [n|] eqn:En.
  - destruct (os_makedirs n path) as [n'|e] eqn:Hn; [|done].
    injection H as <-. apply IH in Hn as [Hd Hk]. split.
    + unfold os_isdir in *. simpl.
      by rewrite entry_set_entry, String.eqb_refl.
    + intros [|name' q]; [done|]. unfold os_isdir. simpl.
      rewrite !entry_set_entry.
      destruct (String.eqb name name') eqn:E.
      * apply String.eqb_eq in E as <-. rewrite En. apply Hk.
      * destruct (entry entries name') as [n0|]; [|done].
        by destruct (stat n0 q) as [[]|].
  - injection H as <-. split.
    + unfold os_isdir. simpl. rewrite entry_app, En, String.eqb_refl.
      apply stat_new_dirs.
    + intros [|name' q]; [done|]. unfold os_isdir. simpl.
      rewrite !entry_app.
      destruct (entry entries name') as [n0|]; [|done].
      by destruct (stat n0 q) as [[]|].
Qed.



(** ** [check_structure] with [create] *)

Section MatcherCreates.

Variable EXPERIMENT_STRUCTURE : nat.
Variable remove_files : list string → string → node → result node.

Lemma check_structure_loop_kept recurse path files items :
  (∀ p f w, kept (tree w) (tree (recurse p f w).2)) →
  ∀ w,
    kept (tree w)
      (tree (check_structure_loop remove_files recurse path files false
               items w).2).
Proof.
  intros Hrec. induction items as [|item items IH]; intros w;
    [apply kept_refl|].
  simpl. rewrite bind_unfold. unfold deref at 1. cbv beta iota.
  destruct (schema_match _ item) as [match_|].
  - rewrite bind_unfold.
    assert (Hassign : ∀ b w1,
      kept (tree w) (tree w1) →
      kept (tree w)
        (tree ((_ <- assign files match_ (SBool b) ;;
                check_structure_loop remove_files recurse path files false
                  items) w1).2)).
    { intros b w1 H1. rewrite bind_unfold. unfold assign at 1.
      cbv beta iota. eapply kept_trans; [exact H1|].
      exact (IH (World (tree w1) _)). }
    destruct (files_get _ match_) as [[b|sub]|].
    + apply Hassign, kept_refl.
    + rewrite bind_unfold. unfold deepcopy at 1. cbv beta iota.
      match goal with
      | |- context [recurse ?p ?f ?w0] =>
          pose proof (Hrec p f w0) as Hr;
          destruct (recurse p f w0) as [[b|e] w1]
      end; simpl in Hr.
      * by apply Hassign.
      * done.
    + apply Hassign, kept_refl.
  - rewrite bind_unfold. unfold ret at 1. cbv beta iota. apply IH.
Qed.

Lemma check_structure_rec_kept depth : ∀ path files create w,
  kept (tree w)
    (tree (check_structure_rec EXPERIMENT_STRUCTURE remove_files depth path
             files create false w).2).
Proof.
  induction depth as [|depth IH]; intros path files create w;
    [apply kept_refl|].
  simpl. rewrite bind_unfold. unfold exists_ at 1. cbv beta iota.
  rewrite bind_unfold.
  assert (Hbody : ∀ ref w0,
    kept (tree w) (tree w0) →
    kept (tree w)
      (tree ((d <- deref ref ;;
       if from_option schema_truthy false (files_get d "*") then ret true
       else
         items <- listdir path ;;
         let items :=
           if create then
             map fst (List.filter (fun '(_, f) => negb (is_sbool f)) d)
               ++ items
           else items in
         check_structure_loop remove_files
           (fun path' files' =>
              check_structure_rec EXPERIMENT_STRUCTURE remove_files depth
                path' (Some files') create false)
           path ref false items ;;;
         d <- deref ref ;;
         ret (forallb schema_truthy (map snd d))) w0).2)).
  { intros ref w0 H0. rewrite bind_unfold. unfold deref at 1.
    cbv beta iota.
    destruct (from_option schema_truthy false _); [done|].
    rewrite bind_unfold. unfold listdir at 1.
    destruct (os_listdir _ path) as [items|e]; [|done].
    cbv beta iota zeta. rewrite bind_unfold.
    set (items' := if create then _ else items).
    pose proof (check_structure_loop_kept
      (fun path' files' =>
         check_structure_rec EXPERIMENT_STRUCTURE remove_files depth
           path' (Some files') create false)
      path ref items' (λ p f w1, IH p (Some f) create w1) w0) as Hl.
    destruct (check_structure_loop _ _ _ _ _ _ w0) as [[[]|e] w1];
      simpl in Hl; [|by eapply kept_trans].
    rewrite bind_unfold. unfold deref, ret. simpl. by eapply kept_trans. }
  assert (Hfiles : ∀ w0,
    kept (tree w) (tree w0) →
    kept (tree w)
      (tree ((files <- match files with
                       | None =>
                           template <- deref EXPERIMENT_STRUCTURE ;;
                           deepcopy template
                       | Some files => ret files
                       end ;;
       d <- deref files ;;
       if from_option schema_truthy false (files_get d "*") then ret true
       else
         items <- listdir path ;;
         let items :=
           if create then
             map fst (List.filter (fun '(_, f) => negb (is_sbool f)) d)
               ++ items
           else items in
         check_structure_loop remove_files
           (fun path' files' =>
              check_structure_rec EXPERIMENT_STRUCTURE remove_files depth
                path' (Some files') create false)
           path files false items ;;;
         d <- deref files ;;
         ret (forallb schema_truthy (map snd d))) w0).2)).
  { intros w0 H0. destruct files as [ref|].
    - rewrite bind_unfold. unfold ret at 1. cbv beta iota. by apply Hbody.
    - rewrite !bind_unfold. unfold deref at 1. cbv beta iota.
      unfold deepcopy at 1. cbv beta iota. by apply Hbody. }
  destruct (create && negb (os_exists (tree w) path)).
  - unfold makedirs at 1.
    destruct (os_makedirs (tree w) path) as [t|e] eqn:Hm;
      [|apply kept_refl].
    apply os_makedirs_kept in Hm as [_ Hk]. by apply Hfiles.
  - unfold ret at 1. cbv beta iota. apply Hfiles, kept_refl.
Qed.

End MatcherCreates.

(** X17: without [remove] the schema matcher loses nothing, whether it
    creates folders or not: after the call, whatever its outcome, every
    path of the tree is still a path of the same kind. *)
Theorem check_structure_loses_nothing
    (EXPERIMENT_STRUCTURE : nat)
    (remove_files : list string → string → node → result node)
    (path : list string) (files : option nat) (create : bool) (w : world) :
  kept (tree w)
    (tree (check_structure EXPERIMENT_STRUCTURE remove_files path files
             create false w).2).
Proof. unfold check_structure. apply check_structure_rec_kept. Qed.

(** * Further properties of the template set generator *)

(** X19: in [only_malicious] mode one file is written.  With the
    constants and replacements of the listed blocks, when the fields of
    [motes/malicious.c] can be passed as keywords (none is named
    [path], [env] or [name]), the template renders and its file in the
    [with-malicious] folder can be opened and written, the call opens
    that file and writes to it the text rendered with the [constants]
    field set to the [#define] block, writes nothing else, reads no
    other parameter than [blocks] and returns the replacements. *)
Theorem render_templates_only_malicious
    (TEMPLATES : list (string * pyval))
    (render : string → gmap string pyval → result string)
    (open_ : list string → result unit)
    (write : list string → string → result unit)
    (dump : list string → list (pyval * (pyval * pyval)) → result string)
    (get_constants_and_replacements : pyval → result (pyval * pyval))
    (define_block : pyval → pyval)
    (generate_motes : gmap string pyval → result pyval)
    (capitalize : string → string)
    (path : list string) (params kwargs : gmap string pyval)
    (t : list output) (blocks constants replacements : pyval)
    (text : string) :
  let file := join (join path "with-malicious") "motes/malicious.c" in
  let fields := <["constants" := define_block constants]> kwargs in
  params !! "blocks" = Some blocks →
  get_constants_and_replacements blocks = Ok (constants, replacements) →
  template TEMPLATES "motes/malicious.c" = Ok (VDict kwargs) →
  clashes fields = false →
  render "motes/malicious.c" fields = Ok text →
  open_ file = Ok tt →
  write file text = Ok tt →
  render_templates TEMPLATES render open_ write dump
    get_constants_and_replacements define_block generate_motes capitalize
    path true params t
  = (Ok replacements,
     t ++ [Opened file;
           Rendered (join path "with-malicious") "motes/malicious.c"
             fields text]).
Proof.
  intros file fields Hb Hcr Ht Hc Hr Ho Hw. unfold render_templates.
  rewrite bind_unfold. unfold lift at 1, dict_item. rewrite Hb.
  cbv beta iota. rewrite bind_unfold. unfold lift at 1. rewrite Hcr.
  cbv beta iota zeta. rewrite bind_unfold. unfold lift at 1.
  unfold set_field. rewrite Ht. cbn [result_bind py_setitem fst snd].
  rewrite bind_unfold. unfold lift at 1.
  rewrite template_set_template, String.eqb_refl.
  cbv beta iota. rewrite bind_unfold. unfold write_template.
  fold fields. rewrite Hc.
  rewrite bind_unfold. unfold lift at 1. rewrite Hr. cbv beta iota.
  rewrite bind_unfold. unfold open_w. rewrite bind_unfold.
  unfold lift at 1. fold file. rewrite Ho. cbv beta iota.
  unfold emit at 1. cbv beta iota. rewrite bind_unfold.
  unfold lift at 1. rewrite Hw. cbv beta iota.
  unfold emit, ret. by rewrite <- app_assoc.
Qed.

Lemma render_templates_only_malicious_witness :
  render_templates TEMPLATES_example render_example open_example
    write_example dump_example blocks_lookup_example define_block_example
    generate_motes_example capitalize_example ["exp"] true
    {[ "blocks" := VList [] ]} []
  = (Ok (VDict ∅),
     [] ++ [Opened (join (join ["exp"] "with-malicious") "motes/malicious.c");
            Rendered (join ["exp"] "with-malicious") "motes/malicious.c"
              (<["constants" := define_block_example (VDict ∅)]> ∅)
              "motes/malicious.c"]).
Proof.
  apply (render_templates_only_malicious TEMPLATES_example render_example
           open_example write_example dump_example blocks_lookup_example
           define_block_example generate_motes_example capitalize_example
           ["exp"] {[ "blocks" := VList [] ]} ∅ [] (VList []) (VDict ∅)
           (VDict ∅) "motes/malicious.c").
  all: vm_compute; reflexivity.
Defined.

(** What the conditions of X19 keep out: a folder [with-malicious/motes]
    that is missing makes [open] fail, and a field of the template
    named [name] cannot be passed as a keyword; nothing is written then. *)
Example render_templates_only_malicious_fails :
  render_templates TEMPLATES_example render_example
    (λ _, Raise OSError) write_example dump_example blocks_lookup_example
    define_block_example generate_motes_example capitalize_example
    ["exp"] true {[ "blocks" := VList [] ]} []
  = (Raise OSError, [])
  ∧ render_templates
      [("motes/malicious.c", VDict {[ "name" := VStr "sinkhole" ]})]
      render_example open_example write_example dump_example
      blocks_lookup_example define_block_example generate_motes_example
      capitalize_example ["exp"] true {[ "blocks" := VList [] ]} []
    = (Raise TypeError, []).
Proof. split; vm_compute; reflexivity. Qed.

(** * Properties of the campaign file lookup *)

Lemma rfind_from_bound c p : ∀ i last,
  rfind_from c p i last = last ∨ i ≤ rfind_from c p i last.
Proof.
  induction p as [|a p IH]; intros i last; simpl; [by left|].
  destruct (IH (i + 1) (if Ascii.eqb a c then i else last)) as [->|H].
  - destruct (Ascii.eqb a c); [right; lia|by left].
  - right. lia.
Qed.

Lemma rfind_from_occurs c p : ∀ i last,
  occurs c p = true → i ≤ rfind_from c p i last.
Proof.
  induction p as [|a p IH]; intros i last H; simpl in *; [done|].
  destruct (Ascii.eqb a c); simpl in H.
  - destruct (rfind_from_bound c p (i + 1) i) as [->|H']; lia.
  - specialize (IH (i + 1) last H). lia.
Qed.

Lemma rstrip_slash_nonempty s :
  all_slashes s = false → rstrip_slash s ≠ "".
Proof.
  induction s as [|c s IH]; simpl; [done|].
  destruct (rstrip_slash s) eqn:Hr; [|done].
  destruct (Ascii.eqb c "/"); [|done]. simpl. intros H.
  by destruct (IH H).
Qed.

(** [dirname(p) == ''] holds of the paths without a slash. *)
Lemma dirname_empty p :
  String.eqb (dirname p) "" = negb (occurs "/" p).
Proof.
  unfold dirname, rfind.
  destruct (occurs "/" p) eqn:Ho; simpl.
  - pose proof (rfind_from_occurs "/" p 0 (-1) Ho) as Hr.
    destruct (Z.to_nat (rfind_from "/" p 0 (-1) + 1)) as [|n] eqn:Hn; [lia|].
    destruct p as [|a p]; [done|]. simpl.
    destruct (Ascii.eqb a "/" && all_slashes (substring 0 n p)) eqn:Ha;
      simpl; [done|].
    apply String.eqb_neq.
    apply (rstrip_slash_nonempty (String a (substring 0 n p))). exact Ha.
  - rewrite rfind_from_absent by done. simpl. by destruct p.
Qed.

Lemma endswith_append s x : endswith (String.append s x) x = true.
Proof.
  unfold endswith. rewrite length_append.
  replace (String.length s + String.length x - String.length x)%nat
    with (String.length s) by lia.
  rewrite substring_rest, String.eqb_refl.
  rewrite andb_true_r. apply Nat.leb_le. lia.
Qed.

Lemma with_json_suffix s : endswith (with_json s) ".json" = true.
Proof.
  unfold with_json. destruct (endswith s ".json") eqn:E; [done|].
  apply endswith_append.
Qed.

(** X20: [get_experiments] looks at one file, whose name ends in
    [.json]: the argument, taken in the experiment folder when it has
    no slash, with its user folder expanded and the suffix added when
    it is missing.  When the file does not exist the call reads nothing,
    logs two records and returns [None]; otherwise it returns what the
    text of the file parses to. *)
Theorem get_experiments_reads_one_json_file
    (EXPERIMENT_FOLDER : string) (expanduser : string → string)
    (path_exists : string → bool) (read : string → result string)
    (loads : string → result pyval) (exp_file : string)
    (t : list campaign_log) :
  let path :=
    with_json
      (expanduser
         (if occurs "/" exp_file then exp_file
          else path_join EXPERIMENT_FOLDER exp_file)) in
  endswith path ".json" = true
  ∧ get_experiments EXPERIMENT_FOLDER expanduser path_exists read loads
      exp_file t
    = if path_exists path then ((text <~ read path ;; loads text), t)
      else (Ok VNone, t ++ [MissingCampaign; PrepareHint]).
Proof.
  cbv zeta. split; [apply with_json_suffix|].
  unfold get_experiments. rewrite dirname_empty.
  set (file := expanduser _).
  assert (Hfile : file
                  = expanduser (if occurs "/" exp_file then exp_file
                                else path_join EXPERIMENT_FOLDER exp_file)).
  { subst file. by destruct (occurs "/" exp_file). }
  rewrite <- Hfile. clear Hfile. clearbody file.
  assert (Hpath : (if negb (endswith file ".json")
                   then String.append file ".json" else file)
                  = with_json file).
  { unfold with_json. by destruct (endswith file ".json"). }
  rewrite Hpath. clear Hpath.
  destruct (path_exists (with_json file)); cbn [negb].
  - rewrite bind_unfold. unfold lift.
    by destruct (read (with_json file)).
  - rewrite !bind_unfold. unfold ret. by rewrite <- app_assoc.
Qed.
